(** * CDockWidget (Qt Advanced Docking System): a shallow embedding

    The development follows [src/DockWidget.cpp].  Objects live in a
    [World]: every C++ pointer is an [option] of an identifier ([None] is
    [nullptr]), the members of [DockWidgetPrivate] are the fields of a
    record, and the member functions are state transformers in a small
    monad whose failure case is the dereference of a null pointer.  Calls
    into the toolkit and into the other classes of the docking system, and
    the signals a dock widget emits, are appended to a log held by the
    world. *)

From Stdlib Require Import List String ZArith Bool Arith Lia.
Import ListNotations.

(** ** Identifiers and toolkit value types *)

Definition WidgetId := nat.
Definition AreaId := nat.
Definition ContainerId := nat.
Definition FloatingId := nat.
Definition SplitterId := nat.
Definition ManagerId := nat.

(** The parent of a [QObject]: the dock manager or a dock widget. *)
Inductive QObjectRef :=
| RefDockManager (m : ManagerId)
| RefDockWidget (w : WidgetId).

Record QSize := { width : Z; height : Z }.

Definition QSize_eqb (a b : QSize) : bool :=
  (width a =? width b)%Z && (height a =? height b)%Z.

(** [QSize::isValid]: neither the width nor the height is negative. *)
Definition QSize_isValid (s : QSize) : bool :=
  (0 <=? width s)%Z && (0 <=? height s)%Z.

Inductive ToolButtonStyle :=
| ToolButtonIconOnly
| ToolButtonTextOnly
| ToolButtonTextBesideIcon
| ToolButtonTextUnderIcon
| ToolButtonFollowStyle.

Definition ToolButtonStyle_eqb (a b : ToolButtonStyle) : bool :=
  match a, b with
  | ToolButtonIconOnly, ToolButtonIconOnly
  | ToolButtonTextOnly, ToolButtonTextOnly
  | ToolButtonTextBesideIcon, ToolButtonTextBesideIcon
  | ToolButtonTextUnderIcon, ToolButtonTextUnderIcon
  | ToolButtonFollowStyle, ToolButtonFollowStyle => true
  | _, _ => false
  end.

(** [QIcon()] is the null icon. *)
Definition QIcon := option nat.

Inductive eToggleViewActionMode := ActionModeToggle | ActionModeShow.
Inductive eState := StateDocked | StateFloating.
Inductive QEventType := WindowTitleChange | OtherEvent.

(** ** Objects owned by a dock widget *)

Record QAction := {
  actText : string;
  actCheckable : bool;
  actChecked : bool;
  actSignalsBlocked : bool;
  actIcon : QIcon
}.

Record CDockWidgetTab := {
  tabText : string;
  tabVisible : bool;
  tabParent : option QObjectRef;
  tabIcon : QIcon
}.

(** A toolbar: its icon size, its button style, and the icon size that
    its style provides for toolbars, which it takes when it is given an
    invalid size. *)
Record QToolBar := {
  tbIconSize : QSize;
  tbToolButtonStyle : ToolButtonStyle;
  tbStyleIconSize : QSize
}.

(** [struct DockWidgetPrivate], with the members the operations below read
    or write. *)
Record DockWidgetPrivate := {
  TabWidget : option CDockWidgetTab;
  DockManager : option ManagerId;
  DockArea : option AreaId;
  ToggleViewAction : option QAction;
  Closed : bool;
  ToolBar : option QToolBar;
  ToolBarStyleDocked : ToolButtonStyle;
  ToolBarStyleFloating : ToolButtonStyle;
  ToolBarIconSizeDocked : QSize;
  ToolBarIconSizeFloating : QSize;
  IsFloatingTopLevel : bool
}.

(** A [CDockWidget]: its private data, the [QWidget] properties the file
    uses, and the number of connections from its [topLevelChanged] signal
    to its [setToolbarFloatingStyle] slot. *)
Record CDockWidget := {
  d : DockWidgetPrivate;
  qwWindowTitle : string;
  qwSize : QSize;
  qwVisible : bool;
  qwParent : option QObjectRef;
  toolbarStyleSlots : nat
}.

(** ** The classes outside this file *)

(** Modelled from the spec: [CDockAreaWidget] is declared in
    DockAreaWidget.h, which is not part of the sources.  An area is visible
    or hidden, has a current dock widget, sits in a dock container, below a
    chain of splitters (nearest first), and caches a title bar menu. *)
Record CDockAreaWidget := {
  areaVisible : bool;
  areaCurrent : option WidgetId;
  areaContainer : option ContainerId;
  areaSplitters : list SplitterId;
  areaMenuOutdated : bool
}.

(** Modelled from the spec: [CDockContainerWidget] (DockContainerWidget.h
    is not part of the sources) knows whether it is floating and which
    floating container owns it. *)
Record CDockContainerWidget := {
  contIsFloating : bool;
  contFloatingWidget : option FloatingId
}.

(** Modelled from the spec: [CFloatingDockContainer]
    (FloatingDockContainer.h is not part of the sources), a top-level
    window. *)
Record CFloatingDockContainer := {
  floatVisible : bool;
  floatSize : QSize;
  floatTitleUpdates : nat
}.

(** ** Log of calls and signals *)

Inductive ActionSignal := Toggled (b : bool) | Triggered (b : bool).

Inductive Event :=
| NewFloatingDockContainer (f : FloatingId) (w : WidgetId)
| FloatingResize (f : FloatingId) (s : QSize)
| FloatingShow (f : FloatingId)
| FloatingUpdateWindowTitle (f : FloatingId)
| AreaToggleView (a : AreaId) (open : bool)
| AreaSetCurrentDockWidget (a : AreaId) (w : WidgetId)
| AreaHideAreaWithNoVisibleContent (a : AreaId)
| AreaToggleDockWidgetView (a : AreaId) (w : WidgetId) (open : bool)
| AreaMarkTitleBarMenuOutdated (a : AreaId)
| AreaUpdateTitleBarVisibility (a : AreaId)
| TabShow (w : WidgetId)
| TabHide (w : WidgetId)
| TabSetText (w : WidgetId) (t : string)
| SplitterShow (s : SplitterId)
| ToolBarSetIconSize (w : WidgetId) (s : QSize)
| ToolBarSetToolButtonStyle (w : WidgetId) (s : ToolButtonStyle)
| ActionEmits (w : WidgetId) (s : ActionSignal)
| EmitClosed (w : WidgetId)
| EmitViewToggled (w : WidgetId) (open : bool)
| EmitTitleChanged (w : WidgetId) (t : string)
| EmitTopLevelChanged (w : WidgetId) (floating : bool).

(** ** The world *)

Record World := {
  widgets : WidgetId -> CDockWidget;
  nWidgets : nat;
  areas : AreaId -> CDockAreaWidget;
  nAreas : nat;
  containers : ContainerId -> CDockContainerWidget;
  nContainers : nat;
  floatings : FloatingId -> CFloatingDockContainer;
  nFloatings : nat;
  splitterVisible : SplitterId -> bool;
  log : list Event
}.

Definition upd {A : Type} (f : nat -> A) (k : nat) (v : A) : nat -> A :=
  fun k' => if Nat.eqb k' k then v else f k'.

(** ** Field updates *)

Definition set_TabWidget (v : option CDockWidgetTab) (p : DockWidgetPrivate) :=
  {| TabWidget := v; DockManager := DockManager p; DockArea := DockArea p;
     ToggleViewAction := ToggleViewAction p; Closed := Closed p;
     ToolBar := ToolBar p; ToolBarStyleDocked := ToolBarStyleDocked p;
     ToolBarStyleFloating := ToolBarStyleFloating p;
     ToolBarIconSizeDocked := ToolBarIconSizeDocked p;
     ToolBarIconSizeFloating := ToolBarIconSizeFloating p;
     IsFloatingTopLevel := IsFloatingTopLevel p |}.

Definition set_DockManager (v : option ManagerId) (p : DockWidgetPrivate) :=
  {| TabWidget := TabWidget p; DockManager := v; DockArea := DockArea p;
     ToggleViewAction := ToggleViewAction p; Closed := Closed p;
     ToolBar := ToolBar p; ToolBarStyleDocked := ToolBarStyleDocked p;
     ToolBarStyleFloating := ToolBarStyleFloating p;
     ToolBarIconSizeDocked := ToolBarIconSizeDocked p;
     ToolBarIconSizeFloating := ToolBarIconSizeFloating p;
     IsFloatingTopLevel := IsFloatingTopLevel p |}.

Definition set_DockArea (v : option AreaId) (p : DockWidgetPrivate) :=
  {| TabWidget := TabWidget p; DockManager := DockManager p; DockArea := v;
     ToggleViewAction := ToggleViewAction p; Closed := Closed p;
     ToolBar := ToolBar p; ToolBarStyleDocked := ToolBarStyleDocked p;
     ToolBarStyleFloating := ToolBarStyleFloating p;
     ToolBarIconSizeDocked := ToolBarIconSizeDocked p;
     ToolBarIconSizeFloating := ToolBarIconSizeFloating p;
     IsFloatingTopLevel := IsFloatingTopLevel p |}.

Definition set_ToggleViewAction (v : option QAction) (p : DockWidgetPrivate) :=
  {| TabWidget := TabWidget p; DockManager := DockManager p;
     DockArea := DockArea p; ToggleViewAction := v; Closed := Closed p;
     ToolBar := ToolBar p; ToolBarStyleDocked := ToolBarStyleDocked p;
     ToolBarStyleFloating := ToolBarStyleFloating p;
     ToolBarIconSizeDocked := ToolBarIconSizeDocked p;
     ToolBarIconSizeFloating := ToolBarIconSizeFloating p;
     IsFloatingTopLevel := IsFloatingTopLevel p |}.

Definition set_Closed (v : bool) (p : DockWidgetPrivate) :=
  {| TabWidget := TabWidget p; DockManager := DockManager p;
     DockArea := DockArea p; ToggleViewAction := ToggleViewAction p;
     Closed := v; ToolBar := ToolBar p;
     ToolBarStyleDocked := ToolBarStyleDocked p;
     ToolBarStyleFloating := ToolBarStyleFloating p;
     ToolBarIconSizeDocked := ToolBarIconSizeDocked p;
     ToolBarIconSizeFloating := ToolBarIconSizeFloating p;
     IsFloatingTopLevel := IsFloatingTopLevel p |}.

Definition set_ToolBar (v : option QToolBar) (p : DockWidgetPrivate) :=
  {| TabWidget := TabWidget p; DockManager := DockManager p;
     DockArea := DockArea p; ToggleViewAction := ToggleViewAction p;
     Closed := Closed p; ToolBar := v;
     ToolBarStyleDocked := ToolBarStyleDocked p;
     ToolBarStyleFloating := ToolBarStyleFloating p;
     ToolBarIconSizeDocked := ToolBarIconSizeDocked p;
     ToolBarIconSizeFloating := ToolBarIconSizeFloating p;
     IsFloatingTopLevel := IsFloatingTopLevel p |}.

Definition set_ToolBarStyleDocked (v : ToolButtonStyle) (p : DockWidgetPrivate) :=
  {| TabWidget := TabWidget p; DockManager := DockManager p;
     DockArea := DockArea p; ToggleViewAction := ToggleViewAction p;
     Closed := Closed p; ToolBar := ToolBar p; ToolBarStyleDocked := v;
     ToolBarStyleFloating := ToolBarStyleFloating p;
     ToolBarIconSizeDocked := ToolBarIconSizeDocked p;
     ToolBarIconSizeFloating := ToolBarIconSizeFloating p;
     IsFloatingTopLevel := IsFloatingTopLevel p |}.

Definition set_ToolBarStyleFloating (v : ToolButtonStyle) (p : DockWidgetPrivate) :=
  {| TabWidget := TabWidget p; DockManager := DockManager p;
     DockArea := DockArea p; ToggleViewAction := ToggleViewAction p;
     Closed := Closed p; ToolBar := ToolBar p;
     ToolBarStyleDocked := ToolBarStyleDocked p; ToolBarStyleFloating := v;
     ToolBarIconSizeDocked := ToolBarIconSizeDocked p;
     ToolBarIconSizeFloating := ToolBarIconSizeFloating p;
     IsFloatingTopLevel := IsFloatingTopLevel p |}.

Definition set_ToolBarIconSizeDocked (v : QSize) (p : DockWidgetPrivate) :=
  {| TabWidget := TabWidget p; DockManager := DockManager p;
     DockArea := DockArea p; ToggleViewAction := ToggleViewAction p;
     Closed := Closed p; ToolBar := ToolBar p;
     ToolBarStyleDocked := ToolBarStyleDocked p;
     ToolBarStyleFloating := ToolBarStyleFloating p;
     ToolBarIconSizeDocked := v;
     ToolBarIconSizeFloating := ToolBarIconSizeFloating p;
     IsFloatingTopLevel := IsFloatingTopLevel p |}.

Definition set_ToolBarIconSizeFloating (v : QSize) (p : DockWidgetPrivate) :=
  {| TabWidget := TabWidget p; DockManager := DockManager p;
     DockArea := DockArea p; ToggleViewAction := ToggleViewAction p;
     Closed := Closed p; ToolBar := ToolBar p;
     ToolBarStyleDocked := ToolBarStyleDocked p;
     ToolBarStyleFloating := ToolBarStyleFloating p;
     ToolBarIconSizeDocked := ToolBarIconSizeDocked p;
     ToolBarIconSizeFloating := v;
     IsFloatingTopLevel := IsFloatingTopLevel p |}.

Definition set_IsFloatingTopLevel (v : bool) (p : DockWidgetPrivate) :=
  {| TabWidget := TabWidget p; DockManager := DockManager p;
     DockArea := DockArea p; ToggleViewAction := ToggleViewAction p;
     Closed := Closed p; ToolBar := ToolBar p;
     ToolBarStyleDocked := ToolBarStyleDocked p;
     ToolBarStyleFloating := ToolBarStyleFloating p;
     ToolBarIconSizeDocked := ToolBarIconSizeDocked p;
     ToolBarIconSizeFloating := ToolBarIconSizeFloating p;
     IsFloatingTopLevel := v |}.

Definition set_d (f : DockWidgetPrivate -> DockWidgetPrivate) (x : CDockWidget) :=
  {| d := f (d x); qwWindowTitle := qwWindowTitle x; qwSize := qwSize x;
     qwVisible := qwVisible x; qwParent := qwParent x;
     toolbarStyleSlots := toolbarStyleSlots x |}.

Definition set_qwWindowTitle (v : string) (x : CDockWidget) :=
  {| d := d x; qwWindowTitle := v; qwSize := qwSize x;
     qwVisible := qwVisible x; qwParent := qwParent x;
     toolbarStyleSlots := toolbarStyleSlots x |}.

Definition set_qwVisible (v : bool) (x : CDockWidget) :=
  {| d := d x; qwWindowTitle := qwWindowTitle x; qwSize := qwSize x;
     qwVisible := v; qwParent := qwParent x;
     toolbarStyleSlots := toolbarStyleSlots x |}.

Definition set_qwParent (v : option QObjectRef) (x : CDockWidget) :=
  {| d := d x; qwWindowTitle := qwWindowTitle x; qwSize := qwSize x;
     qwVisible := qwVisible x; qwParent := v;
     toolbarStyleSlots := toolbarStyleSlots x |}.

Definition set_toolbarStyleSlots (v : nat) (x : CDockWidget) :=
  {| d := d x; qwWindowTitle := qwWindowTitle x; qwSize := qwSize x;
     qwVisible := qwVisible x; qwParent := qwParent x;
     toolbarStyleSlots := v |}.

Definition set_areaVisible (v : bool) (x : CDockAreaWidget) :=
  {| areaVisible := v; areaCurrent := areaCurrent x;
     areaContainer := areaContainer x; areaSplitters := areaSplitters x;
     areaMenuOutdated := areaMenuOutdated x |}.

Definition set_areaCurrent (v : option WidgetId) (x : CDockAreaWidget) :=
  {| areaVisible := areaVisible x; areaCurrent := v;
     areaContainer := areaContainer x; areaSplitters := areaSplitters x;
     areaMenuOutdated := areaMenuOutdated x |}.

Definition set_areaMenuOutdated (v : bool) (x : CDockAreaWidget) :=
  {| areaVisible := areaVisible x; areaCurrent := areaCurrent x;
     areaContainer := areaContainer x; areaSplitters := areaSplitters x;
     areaMenuOutdated := v |}.

Definition set_widgets (v : WidgetId -> CDockWidget) (W : World) :=
  {| widgets := v; nWidgets := nWidgets W; areas := areas W;
     nAreas := nAreas W; containers := containers W;
     nContainers := nContainers W; floatings := floatings W;
     nFloatings := nFloatings W; splitterVisible := splitterVisible W;
     log := log W |}.

Definition set_areas (v : AreaId -> CDockAreaWidget) (W : World) :=
  {| widgets := widgets W; nWidgets := nWidgets W; areas := v;
     nAreas := nAreas W; containers := containers W;
     nContainers := nContainers W; floatings := floatings W;
     nFloatings := nFloatings W; splitterVisible := splitterVisible W;
     log := log W |}.

Definition set_floatings (v : FloatingId -> CFloatingDockContainer) (W : World) :=
  {| widgets := widgets W; nWidgets := nWidgets W; areas := areas W;
     nAreas := nAreas W; containers := containers W;
     nContainers := nContainers W; floatings := v;
     nFloatings := nFloatings W; splitterVisible := splitterVisible W;
     log := log W |}.

Definition set_splitterVisible (v : SplitterId -> bool) (W : World) :=
  {| widgets := widgets W; nWidgets := nWidgets W; areas := areas W;
     nAreas := nAreas W; containers := containers W;
     nContainers := nContainers W; floatings := floatings W;
     nFloatings := nFloatings W; splitterVisible := v;
     log := log W |}.

Definition set_log (v : list Event) (W : World) :=
  {| widgets := widgets W; nWidgets := nWidgets W; areas := areas W;
     nAreas := nAreas W; containers := containers W;
     nContainers := nContainers W; floatings := floatings W;
     nFloatings := nFloatings W; splitterVisible := splitterVisible W;
     log := v |}.

(** ** The monad: state passing, with the null dereference as failure *)

Inductive Outcome (A : Type) :=
| Done (a : A) (W : World)
| NullDeref (W : World).

Arguments Done {A} a W.
Arguments NullDeref {A} W.

Definition M (A : Type) := World -> Outcome A.

Definition ret {A} (a : A) : M A := fun W => Done a W.

Definition bind {A B} (m : M A) (k : A -> M B) : M B :=
  fun W => match m W with
           | Done a W1 => k a W1
           | NullDeref W1 => NullDeref W1
           end.

Declare Scope dock_scope.
Delimit Scope dock_scope with dock.
Notation "x <- m ;; k" := (bind m (fun x => k))
  (at level 61, m at next level, right associativity) : dock_scope.
Notation "m ;; k" := (bind m (fun _ => k))
  (at level 61, right associativity) : dock_scope.
Open Scope dock_scope.

(** [p->...] on a pointer that may be null. *)
Definition deref {A} (p : option A) : M A :=
  fun W => match p with
           | Some a => Done a W
           | None => NullDeref W
           end.

Definition when (b : bool) (m : M unit) : M unit :=
  if b then m else ret tt.

Definition trace (e : Event) : M unit :=
  fun W => Done tt (set_log (log W ++ [e]) W).

Definition gets {A} (f : World -> A) : M A := fun W => Done (f W) W.

Definition getWidget (w : WidgetId) : M CDockWidget :=
  gets (fun W => widgets W w).

Definition modifyWidget (w : WidgetId) (f : CDockWidget -> CDockWidget) : M unit :=
  fun W => Done tt (set_widgets (upd (widgets W) w (f (widgets W w))) W).

Definition getD (w : WidgetId) : M DockWidgetPrivate :=
  gets (fun W => d (widgets W w)).

Definition modifyD (w : WidgetId) (f : DockWidgetPrivate -> DockWidgetPrivate) : M unit :=
  modifyWidget w (set_d f).

Definition modifyArea (a : AreaId) (f : CDockAreaWidget -> CDockAreaWidget) : M unit :=
  fun W => Done tt (set_areas (upd (areas W) a (f (areas W a))) W).

Definition modifyFloating (f : FloatingId)
    (g : CFloatingDockContainer -> CFloatingDockContainer) : M unit :=
  fun W => Done tt (set_floatings (upd (floatings W) f (g (floatings W f))) W).

Definition isSome {A} (o : option A) : bool :=
  match o with Some _ => true | None => false end.

Definition set_actText (v : string) (x : QAction) :=
  {| actText := v; actCheckable := actCheckable x; actChecked := actChecked x;
     actSignalsBlocked := actSignalsBlocked x; actIcon := actIcon x |}.

Definition set_actCheckable (v : bool) (x : QAction) :=
  {| actText := actText x; actCheckable := v; actChecked := actChecked x;
     actSignalsBlocked := actSignalsBlocked x; actIcon := actIcon x |}.

Definition set_actChecked (v : bool) (x : QAction) :=
  {| actText := actText x; actCheckable := actCheckable x; actChecked := v;
     actSignalsBlocked := actSignalsBlocked x; actIcon := actIcon x |}.

Definition set_actSignalsBlocked (v : bool) (x : QAction) :=
  {| actText := actText x; actCheckable := actCheckable x;
     actChecked := actChecked x; actSignalsBlocked := v; actIcon := actIcon x |}.

Definition set_actIcon (v : QIcon) (x : QAction) :=
  {| actText := actText x; actCheckable := actCheckable x;
     actChecked := actChecked x; actSignalsBlocked := actSignalsBlocked x;
     actIcon := v |}.

Definition set_tabText (v : string) (x : CDockWidgetTab) :=
  {| tabText := v; tabVisible := tabVisible x; tabParent := tabParent x;
     tabIcon := tabIcon x |}.

Definition set_tabVisible (v : bool) (x : CDockWidgetTab) :=
  {| tabText := tabText x; tabVisible := v; tabParent := tabParent x;
     tabIcon := tabIcon x |}.

Definition set_tabParent (v : option QObjectRef) (x : CDockWidgetTab) :=
  {| tabText := tabText x; tabVisible := tabVisible x; tabParent := v;
     tabIcon := tabIcon x |}.

Definition set_tabIcon (v : QIcon) (x : CDockWidgetTab) :=
  {| tabText := tabText x; tabVisible := tabVisible x;
     tabParent := tabParent x; tabIcon := v |}.

Definition set_tbIconSize (v : QSize) (x : QToolBar) :=
  {| tbIconSize := v; tbToolButtonStyle := tbToolButtonStyle x;
     tbStyleIconSize := tbStyleIconSize x |}.

Definition set_tbToolButtonStyle (v : ToolButtonStyle) (x : QToolBar) :=
  {| tbIconSize := tbIconSize x; tbToolButtonStyle := v;
     tbStyleIconSize := tbStyleIconSize x |}.

Definition set_floatVisible (v : bool) (x : CFloatingDockContainer) :=
  {| floatVisible := v; floatSize := floatSize x;
     floatTitleUpdates := floatTitleUpdates x |}.

Definition set_floatSize (v : QSize) (x : CFloatingDockContainer) :=
  {| floatVisible := floatVisible x; floatSize := v;
     floatTitleUpdates := floatTitleUpdates x |}.

Definition set_floatTitleUpdates (v : nat) (x : CFloatingDockContainer) :=
  {| floatVisible := floatVisible x; floatSize := floatSize x;
     floatTitleUpdates := v |}.

(** ** The toolkit

    Property setters store the value.  A [QAction] whose checked state
    changes notifies with [toggled], unless its signals are blocked;
    [triggered] is the signal of an activation by the user and is the one
    connected to [toggleView] (line 219).  Only a checkable action can be
    checked: a new action is neither checkable nor checked, and a change
    of [setCheckable] unchecks it. *)
Module Qt.

Definition modifyAction (w : WidgetId) (f : QAction -> QAction) : M unit :=
  p <- getD w ;;
  act <- deref (ToggleViewAction p) ;;
  modifyD w (set_ToggleViewAction (Some (f act))).

Definition QAction_blockSignals (w : WidgetId) (b : bool) : M unit :=
  modifyAction w (set_actSignalsBlocked b).

(** [QAction::setChecked(b)] returns at once on an action that is not
    checkable, and on one whose state is [b] already; otherwise it stores
    [b] and emits [toggled(b)].  Since an action that is not checkable is
    not checked, the state after the call is [checkable && b] in every
    case. *)
Definition QAction_setChecked (w : WidgetId) (b : bool) : M unit :=
  p <- getD w ;;
  act <- deref (ToggleViewAction p) ;;
  let checked := actCheckable act && b in
  modifyD w (set_ToggleViewAction (Some (set_actChecked checked act))) ;;
  when (negb (actSignalsBlocked act) &&
        negb (Bool.eqb (actChecked act) checked))
       (trace (ActionEmits w (Toggled checked))).

(** The same function with the early return written out, as in Qt 5's
    qaction.cpp. *)
Definition QAction_setChecked_guarded (w : WidgetId) (b : bool) : M unit :=
  p <- getD w ;;
  act <- deref (ToggleViewAction p) ;;
  if negb (actCheckable act) || Bool.eqb (actChecked act) b then ret tt
  else
    modifyD w (set_ToggleViewAction (Some (set_actChecked b act))) ;;
    when (negb (actSignalsBlocked act)) (trace (ActionEmits w (Toggled b))).

Definition QAction_setText (w : WidgetId) (t : string) : M unit :=
  modifyAction w (set_actText t).

(** [QAction::setCheckable(b)] returns at once when the action is
    checkable or not as [b] says; otherwise it stores [b] and unchecks the
    action. *)
Definition QAction_setCheckable (w : WidgetId) (b : bool) : M unit :=
  modifyAction w (fun act =>
    if Bool.eqb (actCheckable act) b then act
    else set_actChecked false (set_actCheckable b act)).

Definition QAction_setIcon (w : WidgetId) (i : QIcon) : M unit :=
  modifyAction w (set_actIcon i).

Definition QAction_isCheckable (w : WidgetId) : M bool :=
  p <- getD w ;;
  act <- deref (ToggleViewAction p) ;;
  ret (actCheckable act).

Definition modifyTab (w : WidgetId) (f : CDockWidgetTab -> CDockWidgetTab) : M unit :=
  p <- getD w ;;
  tab <- deref (TabWidget p) ;;
  modifyD w (set_TabWidget (Some (f tab))).

Definition Tab_show (w : WidgetId) : M unit :=
  modifyTab w (set_tabVisible true) ;; trace (TabShow w).

Definition Tab_hide (w : WidgetId) : M unit :=
  modifyTab w (set_tabVisible false) ;; trace (TabHide w).

Definition Tab_setText (w : WidgetId) (t : string) : M unit :=
  modifyTab w (set_tabText t) ;; trace (TabSetText w t).

Definition Tab_setParent (w : WidgetId) (p : option QObjectRef) : M unit :=
  modifyTab w (set_tabParent p).

Definition Tab_setIcon (w : WidgetId) (i : QIcon) : M unit :=
  modifyTab w (set_tabIcon i).

Definition Tab_icon (w : WidgetId) : M QIcon :=
  p <- getD w ;;
  tab <- deref (TabWidget p) ;;
  ret (tabIcon tab).

Definition modifyToolBar (w : WidgetId) (f : QToolBar -> QToolBar) : M unit :=
  p <- getD w ;;
  tb <- deref (ToolBar p) ;;
  modifyD w (set_ToolBar (Some (f tb))).

(** The size that [QToolBar::setIconSize] stores: the size given, or, if
    that is not valid, the one the style of the toolbar provides. *)
Definition storedIconSize (tb : QToolBar) (s : QSize) : QSize :=
  if QSize_isValid s then s else tbStyleIconSize tb.

Definition QToolBar_setIconSize (w : WidgetId) (s : QSize) : M unit :=
  modifyToolBar w (fun tb => set_tbIconSize (storedIconSize tb s) tb) ;;
  trace (ToolBarSetIconSize w s).

Definition QToolBar_setToolButtonStyle (w : WidgetId) (s : ToolButtonStyle) : M unit :=
  modifyToolBar w (set_tbToolButtonStyle s) ;;
  trace (ToolBarSetToolButtonStyle w s).

Definition QWidget_setParent (w : WidgetId) (p : option QObjectRef) : M unit :=
  modifyWidget w (set_qwParent p).

Definition QWidget_setVisible (w : WidgetId) (b : bool) : M unit :=
  modifyWidget w (set_qwVisible b).

Definition QSplitter_isVisible (s : SplitterId) : M bool :=
  gets (fun W => splitterVisible W s).

Definition QSplitter_show (s : SplitterId) : M unit :=
  (fun W => Done tt (set_splitterVisible (upd (splitterVisible W) s true) W)) ;;
  trace (SplitterShow s).

End Qt.
Import Qt.

(** ** The docking classes outside this file *)
Module Ads.

(** Modelled from the spec: [CDockAreaWidget::toggleView] is missing from
    the sources; the area is asked to become visible (or hidden). *)
Definition Area_toggleView (a : AreaId) (open : bool) : M unit :=
  modifyArea a (set_areaVisible open) ;; trace (AreaToggleView a open).

(** Modelled from the spec: [CDockAreaWidget::setCurrentDockWidget] is
    missing from the sources; it makes the given widget the current one of
    the area. *)
Definition Area_setCurrentDockWidget (a : AreaId) (w : WidgetId) : M unit :=
  modifyArea a (set_areaCurrent (Some w)) ;;
  trace (AreaSetCurrentDockWidget a w).

(** The dock widgets assigned to an area are those whose back-reference
    [DockArea] names it. *)
Definition assignedTo (W : World) (a : AreaId) (x : WidgetId) : bool :=
  match DockArea (d (widgets W x)) with
  | Some a' => Nat.eqb a' a
  | None => false
  end.

Definition isOpen (W : World) (x : WidgetId) : bool :=
  negb (Closed (d (widgets W x))).

(** Modelled from the spec: [CDockAreaWidget::nextOpenDockWidget] is
    missing from the sources; it picks the next open widget of the area
    other than the given one, or none if none remains open. *)
Definition nextOpenDockWidget (W : World) (a : AreaId) (w : WidgetId)
  : option WidgetId :=
  find (fun x => assignedTo W a x && isOpen W x && negb (Nat.eqb x w))
       (seq 0 (nWidgets W)).

Definition Area_nextOpenDockWidget (a : AreaId) (w : WidgetId) : M (option WidgetId) :=
  gets (fun W => nextOpenDockWidget W a w).

(** Modelled from the spec: [CDockAreaWidget::hideAreaWithNoVisibleContent]
    is missing from the sources; the area hides itself entirely. *)
Definition Area_hideAreaWithNoVisibleContent (a : AreaId) : M unit :=
  modifyArea a (set_areaVisible false) ;;
  trace (AreaHideAreaWithNoVisibleContent a).

(** Modelled from the spec: [CDockAreaWidget::toggleDockWidgetView] is
    missing from the sources; the area updates its bookkeeping of visible
    widgets. *)
Definition Area_toggleDockWidgetView (a : AreaId) (w : WidgetId) (open : bool) : M unit :=
  trace (AreaToggleDockWidgetView a w open).

(** Modelled from the spec: [CDockAreaWidget::markTitleBarMenuOutdated] is
    missing from the sources; the cached tab menu of the area is
    invalidated. *)
Definition Area_markTitleBarMenuOutdated (a : AreaId) : M unit :=
  modifyArea a (set_areaMenuOutdated true) ;;
  trace (AreaMarkTitleBarMenuOutdated a).

(** Modelled from the spec: [CDockAreaWidget::updateTitleBarVisibility] is
    missing from the sources. *)
Definition Area_updateTitleBarVisibility (a : AreaId) : M unit :=
  trace (AreaUpdateTitleBarVisibility a).

(** Modelled from the spec: [CDockAreaWidget::dockContainer] is missing
    from the sources; the container the area sits in. *)
Definition Area_dockContainer (a : AreaId) : M (option ContainerId) :=
  gets (fun W => areaContainer (areas W a)).

(** [internal::findParent<QSplitter*>] along the chain above an area: the
    head of the chain, then the rest of it. *)
Definition Area_splitterAncestors (a : AreaId) : M (list SplitterId) :=
  gets (fun W => areaSplitters (areas W a)).

Definition Container_isFloating (c : ContainerId) : M bool :=
  gets (fun W => contIsFloating (containers W c)).

(** [CDockContainerWidget::floatingWidget], also what
    [internal::findParent<CFloatingDockContainer*>] finds above a
    container: the owning floating container. *)
Definition Container_floatingWidget (c : ContainerId) : M (option FloatingId) :=
  gets (fun W => contFloatingWidget (containers W c)).

Definition inContainer (W : World) (c : ContainerId) (x : WidgetId) : bool :=
  match DockArea (d (widgets W x)) with
  | Some a =>
      match areaContainer (areas W a) with
      | Some c' => Nat.eqb c' c
      | None => false
      end
  | None => false
  end.

(** Modelled from the spec: [CDockContainerWidget::topLevelDockWidget] is
    missing from the sources; the top-level dock widget of a container is
    the only open dock widget of a floating container, and there is none
    otherwise. *)
Definition topLevelDockWidget (W : World) (c : ContainerId) : option WidgetId :=
  if contIsFloating (containers W c) then
    match filter (fun x => inContainer W c x && isOpen W x)
                 (seq 0 (nWidgets W)) with
    | [x] => Some x
    | _ => None
    end
  else None.

Definition Container_topLevelDockWidget (c : ContainerId) : M (option WidgetId) :=
  gets (fun W => topLevelDockWidget W c).

Definition Floating_resize (f : FloatingId) (s : QSize) : M unit :=
  modifyFloating f (set_floatSize s) ;; trace (FloatingResize f s).

Definition Floating_show (f : FloatingId) : M unit :=
  modifyFloating f (set_floatVisible true) ;; trace (FloatingShow f).

Definition Floating_updateWindowTitle (f : FloatingId) : M unit :=
  modifyFloating f (fun x => set_floatTitleUpdates (S (floatTitleUpdates x)) x) ;;
  trace (FloatingUpdateWindowTitle f).

End Ads.
Import Ads.

(** ** CDockWidget and DockWidgetPrivate *)

(** A pointer to a [QAction], as [sender()] returns it. *)
Inductive QActionRef :=
| ToggleViewActionOf (w : WidgetId)
| OtherAction (n : nat).

Definition QActionPtr_eqb (a b : option QActionRef) : bool :=
  match a, b with
  | None, None => true
  | Some (ToggleViewActionOf x), Some (ToggleViewActionOf y) => Nat.eqb x y
  | Some (OtherAction x), Some (OtherAction y) => Nat.eqb x y
  | _, _ => false
  end.

Definition WidgetPtr_eqb (a b : option WidgetId) : bool :=
  match a, b with
  | None, None => true
  | Some x, Some y => Nat.eqb x y
  | _, _ => false
  end.

(** The default member initialisers of [struct DockWidgetPrivate],
    lines 61-76. *)
Definition DockWidgetPrivate_init : DockWidgetPrivate :=
  {| TabWidget := None;
     DockManager := None;
     DockArea := None;
     ToggleViewAction := None;
     Closed := false;
     ToolBar := None;
     ToolBarStyleDocked := ToolButtonIconOnly;
     ToolBarStyleFloating := ToolButtonTextUnderIcon;
     ToolBarIconSizeDocked := {| width := 16; height := 16 |};
     ToolBarIconSizeFloating := {| width := 24; height := 24 |};
     IsFloatingTopLevel := false |}.

(** [CDockWidget::setToolbarFloatingStyle], lines 676-694. *)
Definition setToolbarFloatingStyle (this : WidgetId) (Floating : bool) : M unit :=
  p <- getD this ;;
  match ToolBar p with
  | None => ret tt
  | Some tb =>
      let IconSize :=
        if Floating then ToolBarIconSizeFloating p else ToolBarIconSizeDocked p in
      when (negb (QSize_eqb IconSize (tbIconSize tb)))
           (QToolBar_setIconSize this IconSize) ;;
      let ButtonStyle :=
        if Floating then ToolBarStyleFloating p else ToolBarStyleDocked p in
      when (negb (ToolButtonStyle_eqb ButtonStyle (tbToolButtonStyle tb)))
           (QToolBar_setToolButtonStyle this ButtonStyle)
  end.

(** Delivery of a signal to [n] connections of one slot. *)
Fixpoint invokeSlots (n : nat) (slot : M unit) : M unit :=
  match n with
  | O => ret tt
  | S k => slot ;; invokeSlots k slot
  end.

(** [emit topLevelChanged(b)]: the slots connected at lines 189 and 610
    run. *)
Definition emit_topLevelChanged (this : WidgetId) (b : bool) : M unit :=
  trace (EmitTopLevelChanged this b) ;;
  x <- getWidget this ;;
  invokeSlots (toolbarStyleSlots x) (setToolbarFloatingStyle this b).

(** [CDockWidget::emitTopLevelChanged], lines 709-716. *)
Definition emitTopLevelChanged (this : WidgetId) (Floating : bool) : M unit :=
  p <- getD this ;;
  if negb (Bool.eqb Floating (IsFloatingTopLevel p)) then
    modifyD this (set_IsFloatingTopLevel Floating) ;;
    p' <- getD this ;;
    emit_topLevelChanged this (IsFloatingTopLevel p')
  else ret tt.

(** [CDockWidget::dockAreaWidget], lines 350-353. *)
Definition dockAreaWidget (this : WidgetId) : M (option AreaId) :=
  p <- getD this ;; ret (DockArea p).

(** [CDockWidget::emitTopLevelEventForWidget], lines 698-705. *)
Definition emitTopLevelEventForWidget (TopLevelDockWidget : option WidgetId)
    (Floating : bool) : M unit :=
  match TopLevelDockWidget with
  | Some t =>
      a <- dockAreaWidget t ;;
      area <- deref a ;;
      Area_updateTitleBarVisibility area ;;
      emitTopLevelChanged t Floating
  | None => ret tt
  end.

(** [CDockWidget::isClosed], lines 387-390. *)
Definition isClosed (this : WidgetId) : M bool :=
  p <- getD this ;; ret (Closed p).

(** [CDockWidget::setClosedState], lines 720-723. *)
Definition setClosedState (this : WidgetId) (closed : bool) : M unit :=
  modifyD this (set_Closed closed).

(** [CDockWidget::setDockManager], lines 329-332. *)
Definition setDockManager (this : WidgetId) (m : option ManagerId) : M unit :=
  modifyD this (set_DockManager m).

(** [CDockWidget::setDockArea], lines 491-495. *)
Definition setDockArea (this : WidgetId) (area : option AreaId) : M unit :=
  modifyD this (set_DockArea area) ;;
  closed <- isClosed this ;;
  QAction_setChecked this (isSome area && negb closed).

(** [CDockWidget::setToggleViewActionChecked], lines 233-239. *)
Definition setToggleViewActionChecked (this : WidgetId) (Checked : bool) : M unit :=
  QAction_blockSignals this true ;;
  QAction_setChecked this Checked ;;
  QAction_blockSignals this false.

(** [CDockWidget::setToggleViewActionMode], lines 401-413. *)
Definition setToggleViewActionMode (this : WidgetId)
    (Mode : eToggleViewActionMode) : M unit :=
  match Mode with
  | ActionModeToggle =>
      QAction_setCheckable this true ;;
      QAction_setIcon this None
  | ActionModeShow =>
      QAction_setCheckable this false ;;
      i <- Tab_icon this ;;
      QAction_setIcon this i
  end.

(** [CDockWidget::setIcon], lines 564-571. *)
Definition setIcon (this : WidgetId) (Icon : QIcon) : M unit :=
  Tab_setIcon this Icon ;;
  checkable <- QAction_isCheckable this ;;
  when (negb checkable) (QAction_setIcon this Icon).

(** Modelled from the spec: the constructor
    [CFloatingDockContainer] taking a dock widget is missing from the sources.  It
    makes a new floating top-level container for the detached widget: a
    floating window, the dock container it hosts and an area in it to
    which the widget is assigned, so that the widget has a dock container
    afterwards (the comment at lines 469-471). *)
Definition CFloatingDockContainer_new (w : WidgetId) : M FloatingId :=
  f <- gets nFloatings ;;
  c <- gets nContainers ;;
  a <- gets nAreas ;;
  (fun W => Done tt
     {| widgets := widgets W; nWidgets := nWidgets W;
        areas := upd (areas W) a
                   {| areaVisible := true; areaCurrent := Some w;
                      areaContainer := Some c; areaSplitters := [];
                      areaMenuOutdated := false |};
        nAreas := S a;
        containers := upd (containers W) c
                        {| contIsFloating := true;
                           contFloatingWidget := Some f |};
        nContainers := S c;
        floatings := upd (floatings W) f
                       {| floatVisible := false;
                          floatSize := {| width := 0; height := 0 |};
                          floatTitleUpdates := 0 |};
        nFloatings := S f;
        splitterVisible := splitterVisible W;
        log := log W ++ [NewFloatingDockContainer f w] |}) ;;
  setDockArea w (Some a) ;;
  ret f.

(** The loop of lines 134-139 along the splitters above the area. *)
Fixpoint showHiddenSplitters (ancestors : list SplitterId) : M unit :=
  match ancestors with
  | [] => ret tt
  | Splitter :: up =>
      visible <- QSplitter_isVisible Splitter ;;
      if negb visible then
        QSplitter_show Splitter ;;
        showHiddenSplitters up
      else ret tt
  end.

(** [DockWidgetPrivate::showDockWidget], lines 121-149. *)
Definition showDockWidget (this : WidgetId) : M unit :=
  p <- getD this ;;
  match DockArea p with
  | None =>
      FloatingWidget <- CFloatingDockContainer_new this ;;
      x <- getWidget this ;;
      Floating_resize FloatingWidget (qwSize x) ;;
      Floating_show FloatingWidget
  | Some area =>
      Area_toggleView area true ;;
      Area_setCurrentDockWidget area this ;;
      Tab_show this ;;
      ancestors <- Area_splitterAncestors area ;;
      showHiddenSplitters ancestors ;;
      Container <- Area_dockContainer area ;;
      c <- deref Container ;;
      floating <- Container_isFloating c ;;
      if floating then
        FloatingWidget <- Container_floatingWidget c ;;
        f <- deref FloatingWidget ;;
        Floating_show f
      else ret tt
  end.

(** [DockWidgetPrivate::updateParentDockArea], lines 161-177. *)
Definition updateParentDockArea (this : WidgetId) : M unit :=
  p <- getD this ;;
  match DockArea p with
  | None => ret tt
  | Some area =>
      NextDockWidget <- Area_nextOpenDockWidget area this ;;
      match NextDockWidget with
      | Some next => Area_setCurrentDockWidget area next
      | None => Area_hideAreaWithNoVisibleContent area
      end
  end.

(** [DockWidgetPrivate::hideDockWidget], lines 153-157. *)
Definition hideDockWidget (this : WidgetId) : M unit :=
  Tab_hide this ;;
  updateParentDockArea this.

(** [CDockWidget::dockContainer], lines 336-346. *)
Definition dockContainer (this : WidgetId) : M (option ContainerId) :=
  p <- getD this ;;
  match DockArea p with
  | Some area => Area_dockContainer area
  | None => ret None
  end.

(** [CDockWidget::isInFloatingContainer], lines 369-383. *)
Definition isInFloatingContainer (this : WidgetId) : M bool :=
  Container <- dockContainer this ;;
  match Container with
  | None => ret false
  | Some c =>
      floating <- Container_isFloating c ;;
      if negb floating then ret false else ret true
  end.

(** [CDockWidget::isFloating], lines 357-365. *)
Definition isFloating (this : WidgetId) : M bool :=
  inFloating <- isInFloatingContainer this ;;
  if negb inFloating then ret false
  else
    Container <- dockContainer this ;;
    c <- deref Container ;;
    top <- Container_topLevelDockWidget c ;;
    ret (WidgetPtr_eqb top (Some this)).

(** The container's top-level dock widget, or null without a container
    (lines 444-445 and 473-474). *)
Definition topLevelOf (DockContainer : option ContainerId) : M (option WidgetId) :=
  match DockContainer with
  | Some c => Container_topLevelDockWidget c
  | None => ret None
  end.

(** [CDockWidget::toggleViewInternal], lines 441-487. *)
Definition toggleViewInternal (this : WidgetId) (Open : bool) : M unit :=
  DockContainer <- dockContainer this ;;
  TopLevelDockWidgetBefore <- topLevelOf DockContainer ;;
  (if Open then showDockWidget this else hideDockWidget this) ;;
  modifyD this (set_Closed (negb Open)) ;;
  QAction_blockSignals this true ;;
  QAction_setChecked this Open ;;
  QAction_blockSignals this false ;;
  p <- getD this ;;
  match DockArea p with
  | Some area => Area_toggleDockWidgetView area this Open
  | None => ret tt
  end ;;
  when (Open && isSome TopLevelDockWidgetBefore)
       (emitTopLevelEventForWidget TopLevelDockWidgetBefore false) ;;
  DockContainer <- dockContainer this ;;
  TopLevelDockWidgetAfter <- topLevelOf DockContainer ;;
  emitTopLevelEventForWidget TopLevelDockWidgetAfter true ;;
  c <- deref DockContainer ;;
  FloatingContainer <- Container_floatingWidget c ;;
  match FloatingContainer with
  | Some f => Floating_updateWindowTitle f
  | None => ret tt
  end ;;
  when (negb Open) (trace (EmitClosed this)) ;;
  trace (EmitViewToggled this Open).

(** The pointer [d->ToggleViewAction]. *)
Definition toggleViewActionPtr (this : WidgetId) (p : DockWidgetPrivate)
  : option QActionRef :=
  match ToggleViewAction p with
  | Some _ => Some (ToggleViewActionOf this)
  | None => None
  end.

(** [CDockWidget::toggleView], lines 417-437; [Sender] is
    [qobject_cast<QAction*>(sender())]. *)
Definition toggleView (this : WidgetId) (Sender : option QActionRef)
    (Open : bool) : M unit :=
  p <- getD this ;;
  Open <- (if QActionPtr_eqb Sender (toggleViewActionPtr this p) then
             act <- deref (ToggleViewAction p) ;;
             ret (if negb (actCheckable act) then true else Open)
           else ret Open) ;;
  if negb (Bool.eqb (Closed p) (negb Open)) then
    toggleViewInternal this Open
  else
    match DockArea p with
    | Some area =>
        if Open then Area_setCurrentDockWidget area this else ret tt
    | None => ret tt
    end.

(** [CDockWidget::flagAsUnassigned], lines 509-516. *)
Definition flagAsUnassigned (this : WidgetId) : M unit :=
  modifyD this (set_Closed true) ;;
  p <- getD this ;;
  QWidget_setParent this (option_map RefDockManager (DockManager p)) ;;
  QWidget_setVisible this false ;;
  setDockArea this None ;;
  Tab_setParent this (Some (RefDockWidget this)).

(** [CDockWidget::event], lines 520-540.  The result is that of the base
    class and is not part of the model. *)
Definition event (this : WidgetId) (e : QEventType) : M unit :=
  match e with
  | WindowTitleChange =>
      x <- getWidget this ;;
      let title := qwWindowTitle x in
      when (isSome (TabWidget (d x))) (Tab_setText this title) ;;
      when (isSome (ToggleViewAction (d x))) (QAction_setText this title) ;;
      match DockArea (d x) with
      | Some area => Area_markTitleBarMenuOutdated area
      | None => ret tt
      end ;;
      trace (EmitTitleChanged this title)
  | OtherEvent => ret tt
  end.

(** [QWidget::setWindowTitle]: the title is stored and the widget receives
    a [WindowTitleChange] event. *)
Definition setWindowTitle (this : WidgetId) (title : string) : M unit :=
  modifyWidget this (set_qwWindowTitle title) ;;
  event this WindowTitleChange.

(** The [QToolBar*] that [setToolBar] is given: null, the toolbar that
    the dock widget has at the moment, or another toolbar. *)
Inductive QToolBarPtr :=
| NullToolBar
| OwnToolBar
| OtherToolBar (tb : QToolBar).

(** What such a pointer points to once the toolbar [old] of the dock
    widget has been deleted: a toolbar, nothing when it is null, and no
    object at all when it pointed to the deleted toolbar. *)
Definition pointee (old : option QToolBar) (p : QToolBarPtr)
  : option (option QToolBar) :=
  match p with
  | NullToolBar => Some None
  | OtherToolBar tb => Some (Some tb)
  | OwnToolBar =>
      match old with
      | Some _ => None
      | None => Some None
      end
  end.

(** [CDockWidget::setToolBar], lines 601-612.  The toolbar that the dock
    widget has is deleted first (lines 603-606); line 609 then uses the
    pointer given, which is a fault like the dereference of null when it
    points to the toolbar just deleted. *)
Definition setToolBar (this : WidgetId) (toolBar : QToolBarPtr) : M unit :=
  p <- getD this ;;
  when (isSome (ToolBar p)) (modifyD this (set_ToolBar None)) ;;
  tb <- deref (pointee (ToolBar p) toolBar) ;;
  modifyD this (set_ToolBar tb) ;;
  modifyWidget this (fun x => set_toolbarStyleSlots (S (toolbarStyleSlots x)) x) ;;
  floating <- isFloating this ;;
  setToolbarFloatingStyle this floating.

(** [CDockWidget::setToolBarStyle], lines 616-628. *)
Definition setToolBarStyle (this : WidgetId) (Style : ToolButtonStyle)
    (State : eState) : M unit :=
  match State with
  | StateFloating => modifyD this (set_ToolBarStyleFloating Style)
  | StateDocked => modifyD this (set_ToolBarStyleDocked Style)
  end ;;
  floating <- isFloating this ;;
  setToolbarFloatingStyle this floating.

(** [CDockWidget::setToolBarIconSize], lines 646-658. *)
Definition setToolBarIconSize (this : WidgetId) (IconSize : QSize)
    (State : eState) : M unit :=
  match State with
  | StateFloating => modifyD this (set_ToolBarIconSizeFloating IconSize)
  | StateDocked => modifyD this (set_ToolBarIconSizeDocked IconSize)
  end ;;
  floating <- isFloating this ;;
  setToolbarFloatingStyle this floating.

(** [CDockWidget::CDockWidget], lines 205-222.  Modelled from the spec: the
    constructor of [CDockWidgetTab] is missing from the sources; a new tab
    belongs to its dock widget and has no text and no icon yet. *)
Definition CDockWidget_new (title : string) (parent : option QObjectRef)
  : M WidgetId :=
  this <- gets nWidgets ;;
  (fun W => Done tt
     {| widgets := upd (widgets W) this
                     {| d := DockWidgetPrivate_init;
                        qwWindowTitle := EmptyString;
                        qwSize := {| width := 640; height := 480 |};
                        qwVisible := false;
                        qwParent := parent;
                        toolbarStyleSlots := 0 |};
        nWidgets := S this;
        areas := areas W; nAreas := nAreas W;
        containers := containers W; nContainers := nContainers W;
        floatings := floatings W; nFloatings := nFloatings W;
        splitterVisible := splitterVisible W;
        log := log W |}) ;;
  setWindowTitle this title ;;
  modifyD this (set_TabWidget
    (Some {| tabText := EmptyString; tabVisible := false;
             tabParent := Some (RefDockWidget this); tabIcon := None |})) ;;
  modifyD this (set_ToggleViewAction
    (Some {| actText := title; actCheckable := false; actChecked := false;
             actSignalsBlocked := false; actIcon := None |})) ;;
  QAction_setCheckable this true ;;
  setToolbarFloatingStyle this false ;;
  ret this.

(** ** Observations *)

Definition outWorld {A} (o : Outcome A) : World :=
  match o with
  | Done _ W => W
  | NullDeref W => W
  end.

Definition completes {A} (o : Outcome A) : bool :=
  match o with
  | Done _ _ => true
  | NullDeref _ => false
  end.

(** An empty world, and a world holding one freshly constructed widget. *)
Definition emptyWorld : World :=
  {| widgets := fun _ =>
       {| d := DockWidgetPrivate_init; qwWindowTitle := EmptyString;
          qwSize := {| width := 0; height := 0 |}; qwVisible := false;
          qwParent := None; toolbarStyleSlots := 0 |};
     nWidgets := 0;
     areas := fun _ =>
       {| areaVisible := false; areaCurrent := None; areaContainer := None;
          areaSplitters := []; areaMenuOutdated := false |};
     nAreas := 0;
     containers := fun _ =>
       {| contIsFloating := false; contFloatingWidget := None |};
     nContainers := 0;
     floatings := fun _ =>
       {| floatVisible := false; floatSize := {| width := 0; height := 0 |};
          floatTitleUpdates := 0 |};
     nFloatings := 0;
     splitterVisible := fun _ => true;
     log := [] |}.

(** ** Counting events *)

Definition isToolBarCall (e : Event) : bool :=
  match e with
  | ToolBarSetIconSize _ _ | ToolBarSetToolButtonStyle _ _ => true
  | _ => false
  end.

Definition isTopLevelChanged (e : Event) : bool :=
  match e with
  | EmitTopLevelChanged _ _ => true
  | _ => false
  end.

Definition isViewToggled (e : Event) : bool :=
  match e with
  | EmitViewToggled _ _ => true
  | _ => false
  end.

Definition isTitleChanged (e : Event) : bool :=
  match e with
  | EmitTitleChanged _ _ => true
  | _ => false
  end.

Definition isActionSignal (e : Event) : bool :=
  match e with
  | ActionEmits _ _ => true
  | _ => false
  end.

Definition countEvents (P : Event -> bool) (l : list Event) : nat :=
  List.length (filter P l).

(** ** Relating the world before and after an operation *)

Definition preserves (R : World -> World -> Prop) {A} (m : M A) : Prop :=
  forall W, R W (outWorld (m W)).

Definition always (R : World -> World -> Prop) {A} (m : M A) : Prop :=
  forall W, exists a W', m W = Done a W' /\ R W W'.

(** A dock widget without what toolbar style switching and the top-level
    notification write. *)
Definition eraseToolbarState (x : CDockWidget) : CDockWidget :=
  set_d (fun p => set_IsFloatingTopLevel false (set_ToolBar None p)) x.

(** The entries that the bookkeeping of a transition (lines 459-480) and
    the toolbar slot add to the log. *)
Definition quiet (e : Event) : bool :=
  match e with
  | ToolBarSetIconSize _ _
  | ToolBarSetToolButtonStyle _ _
  | AreaToggleDockWidgetView _ _ _
  | AreaUpdateTitleBarVisibility _
  | EmitTopLevelChanged _ _
  | FloatingUpdateWindowTitle _ => true
  | _ => false
  end.

(** [bookkeeping W W']: from [W] to [W'] only toolbars, cached top-level
    flags and the title refresh count of floating containers changed, and
    the log grew by quiet entries. *)
Record bookkeeping (W W' : World) : Prop := {
  bk_widgets : forall w,
    eraseToolbarState (widgets W' w) = eraseToolbarState (widgets W w);
  bk_nWidgets : nWidgets W' = nWidgets W;
  bk_areas : areas W' = areas W;
  bk_nAreas : nAreas W' = nAreas W;
  bk_containers : containers W' = containers W;
  bk_nContainers : nContainers W' = nContainers W;
  bk_floatVisible : forall f,
    floatVisible (floatings W' f) = floatVisible (floatings W f);
  bk_floatSize : forall f,
    floatSize (floatings W' f) = floatSize (floatings W f);
  bk_nFloatings : nFloatings W' = nFloatings W;
  bk_splitters : splitterVisible W' = splitterVisible W;
  bk_log : exists rest, log W' = log W ++ rest /\ forallb quiet rest = true
}.

(** [restyle W W']: from [W] to [W'] only toolbars changed, and the log
    grew by toolbar calls. *)
Record restyle (W W' : World) : Prop := {
  rs_widgets : forall w,
    set_d (set_ToolBar None) (widgets W' w) = set_d (set_ToolBar None) (widgets W w);
  rs_others : set_log [] (set_widgets (widgets W) W') = set_log [] W;
  rs_log : exists rest,
    log W' = log W ++ rest /\ forallb isToolBarCall rest = true
}.

(** ** Sample worlds *)

(** One dock widget titled Logs, as its constructor leaves it. *)
Definition freshWorld : World :=
  outWorld (CDockWidget_new "Logs" None emptyWorld).

(** The same widget after [setToolBar] with a toolbar in docked style. *)
Definition toolbarWorld : World :=
  outWorld (setToolBar 0
              (OtherToolBar
                 {| tbIconSize := {| width := 16; height := 16 |};
                    tbToolButtonStyle := ToolButtonIconOnly;
                    tbStyleIconSize := {| width := 24; height := 24 |} |})
              freshWorld).

(** The same widget, unassigned by [flagAsUnassigned] and then opened:
    it sits alone in a floating container. *)
Definition floatingWorld : World :=
  outWorld ((flagAsUnassigned 0 ;; toggleView 0 None true) freshWorld).

(** ** The blocks of [toggleViewInternal] *)

(** Lines 455-458: the closed flag and the checked state. *)
Definition updateClosedAndAction (this : WidgetId) (Open : bool) : M unit :=
  modifyD this (set_Closed (negb Open)) ;;
  QAction_blockSignals this true ;;
  QAction_setChecked this Open ;;
  QAction_blockSignals this false.

(** Lines 459-480: the area, the top-level widgets and the window title. *)
Definition notifyAreaAndTopLevel (this : WidgetId) (Open : bool)
    (TopLevelDockWidgetBefore : option WidgetId) : M unit :=
  p <- getD this ;;
  match DockArea p with
  | Some area => Area_toggleDockWidgetView area this Open
  | None => ret tt
  end ;;
  when (Open && isSome TopLevelDockWidgetBefore)
       (emitTopLevelEventForWidget TopLevelDockWidgetBefore false) ;;
  DockContainer <- dockContainer this ;;
  TopLevelDockWidgetAfter <- topLevelOf DockContainer ;;
  emitTopLevelEventForWidget TopLevelDockWidgetAfter true ;;
  c <- deref DockContainer ;;
  FloatingContainer <- Container_floatingWidget c ;;
  match FloatingContainer with
  | Some f => Floating_updateWindowTitle f
  | None => ret tt
  end.

(** Lines 482-486: the notifications of the transition. *)
Definition emitTransitionSignals (this : WidgetId) (Open : bool) : M unit :=
  when (negb Open) (trace (EmitClosed this)) ;;
  trace (EmitViewToggled this Open).

(** The values of the queries [dockContainer] and
    [topLevelDockWidget]. *)
Definition containerOf (W : World) (this : WidgetId) : option ContainerId :=
  match DockArea (d (widgets W this)) with
  | Some area => areaContainer (areas W area)
  | None => None
  end.

Definition topLevelIn (W : World) (DockContainer : option ContainerId)
  : option WidgetId :=
  match DockContainer with
  | Some c => topLevelDockWidget W c
  | None => None
  end.


(** ** Splitters above an area *)

(** The splitters that the loop of lines 134-139 shows, from the
    visibility it starts with. *)
Fixpoint shownSplitters (vis : SplitterId -> bool) (ancestors : list SplitterId)
  : list SplitterId :=
  match ancestors with
  | [] => []
  | s :: up => if vis s then [] else s :: shownSplitters (upd vis s true) up
  end.

(** [QWidget::isVisible] holds of a widget only if it holds of its
    ancestors: above a visible splitter every splitter is visible. *)
Fixpoint hereditaryb (vis : SplitterId -> bool) (ancestors : list SplitterId)
  : bool :=
  match ancestors with
  | [] => true
  | s :: up => (negb (vis s) || forallb vis up) && hereditaryb vis up
  end.

(** The chain of splitters above an area is well formed: no splitter
    occurs twice and visibility is hereditary. *)
Definition wellFormedAncestors (W : World) (a : AreaId) : Prop :=
  NoDup (areaSplitters (areas W a)) /\
  hereditaryb (splitterVisible W) (areaSplitters (areas W a)) = true.

(** The call of lines 142-147 to the owning floating container. *)
Definition floatingShows (W : World) (c : ContainerId) : list Event :=
  if contIsFloating (containers W c) then
    match contFloatingWidget (containers W c) with
    | Some f => [FloatingShow f]
    | None => []
    end
  else [].

(** No dock widget changes its dock area. *)
Definition keepsAssignment (W W' : World) : Prop :=
  forall w, DockArea (d (widgets W' w)) = DockArea (d (widgets W w)).

(** [transitionTail this Open act W1 W']: what lines 455-486 make of the
    world [W1] that the show or hide step left, when the toggle action of
    the widget was [act] there. *)
Record transitionTail (this : WidgetId) (Open : bool) (act : QAction)
    (W1 W' : World) : Prop := {
  tt_this :
    eraseToolbarState (widgets W' this) =
    eraseToolbarState
      (set_d (fun p =>
                set_ToggleViewAction
                  (Some (set_actSignalsBlocked false
                         (set_actChecked (actCheckable act && Open) act)))
                  (set_Closed (negb Open) p))
             (widgets W1 this));
  tt_others : forall w, w <> this ->
    eraseToolbarState (widgets W' w) = eraseToolbarState (widgets W1 w);
  tt_nWidgets : nWidgets W' = nWidgets W1;
  tt_areas : areas W' = areas W1;
  tt_containers : containers W' = containers W1;
  tt_floatVisible : forall f,
    floatVisible (floatings W' f) = floatVisible (floatings W1 f);
  tt_floatSize : forall f,
    floatSize (floatings W' f) = floatSize (floatings W1 f);
  tt_splitters : splitterVisible W' = splitterVisible W1;
  tt_log : exists rest,
    log W' = log W1 ++ rest ++ (if Open then [] else [EmitClosed this]) ++
               [EmitViewToggled this Open] /\
    forallb quiet rest = true
}.

(** The toggle action mirrors the state: checked exactly when the widget
    has a dock area and is not closed. *)
Definition toggleActionInSync (W : World) (this : WidgetId) : Prop :=
  option_map actChecked (ToggleViewAction (d (widgets W this))) =
  Some (isSome (DockArea (d (widgets W this))) &&
        negb (Closed (d (widgets W this)))).

(** The log grew, by entries that satisfy [P]. *)
Definition logGrows (P : Event -> bool) (W W' : World) : Prop :=
  exists rest, log W' = log W ++ rest /\ forallb P rest = true.

Definition isTriggered (e : Event) : bool :=
  match e with
  | ActionEmits _ (Triggered _) => true
  | _ => false
  end.

(** The state that a call of [toggleView] requests (lines 421-425): open
    when the toggle action in its non-checkable mode sends the call,
    the argument otherwise. *)
Definition requestedOpen (this : WidgetId) (Sender : option QActionRef)
    (Open : bool) (act : QAction) : bool :=
  if QActionPtr_eqb Sender (Some (ToggleViewActionOf this)) &&
     negb (actCheckable act)
  then true else Open.

(** What [toggleView] does when no transition is due: the widget becomes
    the current one of its area (lines 433-436). *)
Definition makeCurrent (this : WidgetId) : M unit :=
  p <- getD this ;;
  match DockArea p with
  | Some area => Area_setCurrentDockWidget area this
  | None => ret tt
  end.

(** The fresh widget after [flagAsUnassigned]: closed, without area. *)
Definition unassignedWorld : World :=
  outWorld (flagAsUnassigned 0 freshWorld).

(** A dock widget as it sits in an area of a dock manager. *)
Definition sampleWidget (title : string) (closed : bool) : CDockWidget :=
  {| d := {| TabWidget :=
               Some {| tabText := title; tabVisible := negb closed;
                       tabParent := None; tabIcon := None |};
             DockManager := Some 0;
             DockArea := Some 0;
             ToggleViewAction :=
               Some {| actText := title; actCheckable := true;
                       actChecked := negb closed; actSignalsBlocked := false;
                       actIcon := None |};
             Closed := closed;
             ToolBar := None;
             ToolBarStyleDocked := ToolButtonIconOnly;
             ToolBarStyleFloating := ToolButtonTextUnderIcon;
             ToolBarIconSizeDocked := {| width := 16; height := 16 |};
             ToolBarIconSizeFloating := {| width := 24; height := 24 |};
             IsFloatingTopLevel := false |};
     qwWindowTitle := title;
     qwSize := {| width := 300; height := 200 |};
     qwVisible := negb closed;
     qwParent := None;
     toolbarStyleSlots := 0 |}.

(** Logs, Output and Build, all open, in the one area of a main window;
    the area sits below two visible splitters. *)
Definition dockedWorld : World :=
  {| widgets := fun w =>
       match w with
       | 0 => sampleWidget "Logs" false
       | 1 => sampleWidget "Output" false
       | _ => sampleWidget "Build" false
       end;
     nWidgets := 3;
     areas := fun _ =>
       {| areaVisible := true; areaCurrent := Some 1; areaContainer := Some 0;
          areaSplitters := [0; 1]; areaMenuOutdated := false |};
     nAreas := 1;
     containers := fun _ =>
       {| contIsFloating := false; contFloatingWidget := None |};
     nContainers := 1;
     floatings := fun _ =>
       {| floatVisible := false; floatSize := {| width := 0; height := 0 |};
          floatTitleUpdates := 0 |};
     nFloatings := 0;
     splitterVisible := fun _ => true;
     log := [] |}.

(** Logs, closed, alone in the area of a hidden floating container; the
    area is hidden and so are the two splitters above it. *)
Definition tuckedWorld : World :=
  {| widgets := fun _ => sampleWidget "Logs" true;
     nWidgets := 1;
     areas := fun _ =>
       {| areaVisible := false; areaCurrent := None; areaContainer := Some 0;
          areaSplitters := [0; 1]; areaMenuOutdated := false |};
     nAreas := 1;
     containers := fun _ =>
       {| contIsFloating := true; contFloatingWidget := Some 0 |};
     nContainers := 1;
     floatings := fun _ =>
       {| floatVisible := false;
          floatSize := {| width := 300; height := 200 |};
          floatTitleUpdates := 0 |};
     nFloatings := 1;
     splitterVisible := fun _ => false;
     log := [] |}.


(** ** The toggle action in either mode *)

(** The toggle action is checked exactly when it is checkable, the dock
    widget has a dock area and the dock widget is not closed. *)
Definition toggleActionMirrors (W : World) (this : WidgetId) : Prop :=
  exists act,
    ToggleViewAction (d (widgets W this)) = Some act /\
    actChecked act =
      actCheckable act &&
      (isSome (DockArea (d (widgets W this))) &&
       negb (Closed (d (widgets W this)))).

(** Logs, Output and Build as in [dockedWorld], after Logs has been put
    into the show-only mode. *)
Definition showModeWorld : World :=
  outWorld (setToggleViewActionMode 0 ActionModeShow dockedWorld).

(** One freshly constructed dock widget, put into the show-only mode and
    then unassigned: closed, without dock area. *)
Definition showModeUnassignedWorld : World :=
  outWorld ((setToggleViewActionMode 0 ActionModeShow ;;
             flagAsUnassigned 0) freshWorld).

(** ** Further observations *)

Definition isClosedSignal (e : Event) : bool :=
  match e with
  | EmitClosed _ => true
  | _ => false
  end.

(** Neither [closed] nor [viewToggled]. *)
Definition notTransitionSignal (e : Event) : bool :=
  negb (isClosedSignal e) && negb (isViewToggled e).






(** ** Sequences of calls *)

(** The operations of a dock widget, without the two raw setters
    [setClosedState] and [setToggleViewActionChecked] and without
    [setToggleViewActionMode]: what the checked state of an action
    becomes when it stops being checkable is the toolkit's matter. *)
Inductive Operation :=
| OpToggleView (Sender : option QActionRef) (Open : bool)
| OpSetDockArea (area : option AreaId)
| OpFlagAsUnassigned
| OpSetDockManager (m : option ManagerId)
| OpSetWindowTitle (title : string)
| OpEvent (e : QEventType)
| OpSetIcon (Icon : QIcon)
| OpSetToolBar (toolBar : QToolBarPtr)
| OpSetToolBarStyle (Style : ToolButtonStyle) (State : eState)
| OpSetToolBarIconSize (IconSize : QSize) (State : eState)
| OpEmitTopLevelChanged (Floating : bool).

Definition perform (this : WidgetId) (op : Operation) : M unit :=
  match op with
  | OpToggleView Sender Open => toggleView this Sender Open
  | OpSetDockArea area => setDockArea this area
  | OpFlagAsUnassigned => flagAsUnassigned this
  | OpSetDockManager m => setDockManager this m
  | OpSetWindowTitle title => setWindowTitle this title
  | OpEvent e => event this e
  | OpSetIcon Icon => setIcon this Icon
  | OpSetToolBar toolBar => setToolBar this toolBar
  | OpSetToolBarStyle Style State => setToolBarStyle this Style State
  | OpSetToolBarIconSize IconSize State => setToolBarIconSize this IconSize State
  | OpEmitTopLevelChanged Floating => emitTopLevelChanged this Floating
  end.

(** A step of a client program: the construction of a dock widget or an
    operation on one. *)
Inductive Call :=
| Construct (title : string) (parent : option QObjectRef)
| Invoke (this : WidgetId) (op : Operation).

Definition call (c : Call) : M unit :=
  match c with
  | Construct title parent => _ <- CDockWidget_new title parent ;; ret tt
  | Invoke this op => perform this op
  end.

Fixpoint callAll (cs : list Call) : M unit :=
  match cs with
  | [] => ret tt
  | c :: rest => call c ;; callAll rest
  end.

(** ** Getters and the default toolbar *)

(** [CDockWidget::toolBarStyle], lines 632-642. *)
Definition toolBarStyle (this : WidgetId) (State : eState) : M ToolButtonStyle :=
  p <- getD this ;;
  match State with
  | StateFloating => ret (ToolBarStyleFloating p)
  | StateDocked => ret (ToolBarStyleDocked p)
  end.

(** [CDockWidget::toolBarIconSize], lines 662-672. *)
Definition toolBarIconSize (this : WidgetId) (State : eState) : M QSize :=
  p <- getD this ;;
  match State with
  | StateFloating => ret (ToolBarIconSizeFloating p)
  | StateDocked => ret (ToolBarIconSizeDocked p)
  end.

(** [CDockWidget::toolBar], lines 582-585. *)
Definition toolBar (this : WidgetId) : M (option QToolBar) :=
  p <- getD this ;; ret (ToolBar p).

(** [CDockWidget::icon], lines 575-578. *)
Definition icon (this : WidgetId) : M QIcon :=
  Tab_icon this.

(** [DockWidgetPrivate::setupToolBar], lines 181-190.  [fresh] is the
    toolbar as [new QToolBar] makes it; of the calls on it, the one that
    sets its icon size is followed here, as is the connection of
    [topLevelChanged] to [setToolbarFloatingStyle] at line 189. *)
Definition setupToolBar (this : WidgetId) (fresh : QToolBar) : M unit :=
  modifyD this (set_ToolBar (Some fresh)) ;;
  QToolBar_setIconSize this {| width := 16; height := 16 |} ;;
  modifyWidget this (fun x => set_toolbarStyleSlots (S (toolbarStyleSlots x)) x).

(** [CDockWidget::createDefaultToolBar], lines 589-597. *)
Definition createDefaultToolBar (this : WidgetId) (fresh : QToolBar)
  : M (option QToolBar) :=
  p <- getD this ;;
  when (negb (isSome (ToolBar p))) (setupToolBar this fresh) ;;
  p' <- getD this ;;
  ret (ToolBar p').

(** The value of [isFloating] (lines 357-365) in a world. *)
Definition floatingNow (W : World) (this : WidgetId) : bool :=
  match containerOf W this with
  | Some c =>
      if contIsFloating (containers W c)
      then WidgetPtr_eqb (topLevelDockWidget W c) (Some this)
      else false
  | None => false
  end.

(** The icon size and the button style that a dock widget keeps for a
    state. *)
Definition keptIconSize (p : DockWidgetPrivate) (Floating : bool) : QSize :=
  if Floating then ToolBarIconSizeFloating p else ToolBarIconSizeDocked p.

Definition keptStyle (p : DockWidgetPrivate) (Floating : bool)
  : ToolButtonStyle :=
  if Floating then ToolBarStyleFloating p else ToolBarStyleDocked p.

(** A toolbar in the style that a dock widget keeps for a state. *)
Definition styledFor (p : DockWidgetPrivate) (Floating : bool)
    (tb : QToolBar) : QToolBar :=
  {| tbIconSize := keptIconSize p Floating;
     tbToolButtonStyle := keptStyle p Floating;
     tbStyleIconSize := tbStyleIconSize tb |}.

Definition otherState (State : eState) : eState :=
  match State with
  | StateFloating => StateDocked
  | StateDocked => StateFloating
  end.

(** The state whose style [setToolbarFloatingStyle(isFloating())] applies. *)
Definition currentState (W : World) (this : WidgetId) : eState :=
  if floatingNow W this then StateFloating else StateDocked.

(** A dock widget in place: its tab and its toggle action exist, it is
    assigned to a dock area that has a dock container, and that container,
    if it is floating, has its floating window. *)
Definition placedb (W : World) (w : WidgetId) : bool :=
  isSome (TabWidget (d (widgets W w))) &&
  isSome (ToggleViewAction (d (widgets W w))) &&
  match containerOf W w with
  | Some c =>
      negb (contIsFloating (containers W c)) ||
      isSome (contFloatingWidget (containers W c))
  | None => false
  end.

(** What [placedb] looks at. *)
Definition placement (x : CDockWidget) : bool * bool * option AreaId :=
  (isSome (TabWidget (d x)), isSome (ToggleViewAction (d x)), DockArea (d x)).

Definition placementKept (W W' : World) : Prop :=
  (forall w, placement (widgets W' w) = placement (widgets W w)) /\
  (forall b, areaContainer (areas W' b) = areaContainer (areas W b)) /\
  containers W' = containers W.

(** Calls of [toggleView]: the widget, the sender and the argument. *)
Definition toggleViewCalls (ts : list (WidgetId * option QActionRef * bool))
  : list Call :=
  map (fun t => Invoke (fst (fst t)) (OpToggleView (snd (fst t)) (snd t))) ts.

(** ** The content of a dock widget

    The members [Layout], [Widget] and [ScrollArea] of
    [DockWidgetPrivate] (lines 62, 63 and 70) and the four functions
    that use them.  They touch nothing of the docking state above, so
    they have a state of their own: the three members, the scroll areas
    made so far with the widget each one shows, and the widgets handed
    in as content. *)
Module Content.

Definition ContentId := nat.
Definition ScrollAreaId := nat.

(** The argument [InsertMode]; the code only asks whether it is
    [ForceNoScrollArea]. *)
Inductive eInsertMode := ForceNoScrollArea | OtherInsertMode.

Definition eInsertMode_eqb (a b : eInsertMode) : bool :=
  match a, b with
  | ForceNoScrollArea, ForceNoScrollArea
  | OtherInsertMode, OtherInsertMode => true
  | _, _ => false
  end.

Inductive Owner :=
| OwnerDockWidget
| OwnerScrollArea (s : ScrollAreaId).

(** A widget handed in as content: whether it is a [QScrollArea], whether
    it then has a viewport, its parent, and the property
    [dockWidgetContent] on it and on its viewport. *)
Record QWidget := {
  isScrollArea : bool;
  hasViewport : bool;
  parent : option Owner;
  dockWidgetContent : bool;
  viewportDockWidgetContent : bool
}.

Inductive LayoutItem :=
| ItemScrollArea (s : ScrollAreaId)
| ItemWidget (c : ContentId).

Definition LayoutItem_eqb (a b : LayoutItem) : bool :=
  match a, b with
  | ItemScrollArea x, ItemScrollArea y => Nat.eqb x y
  | ItemWidget x, ItemWidget y => Nat.eqb x y
  | _, _ => false
  end.

Record Host := {
  Layout : option (list LayoutItem);
  Widget : option ContentId;
  ScrollArea : option ScrollAreaId;
  scrollAreaWidget : ScrollAreaId -> option ContentId;
  nScrollAreas : nat;
  qwidgets : ContentId -> QWidget
}.

Definition set_Layout (v : option (list LayoutItem)) (h : Host) :=
  {| Layout := v; Widget := Widget h; ScrollArea := ScrollArea h;
     scrollAreaWidget := scrollAreaWidget h; nScrollAreas := nScrollAreas h;
     qwidgets := qwidgets h |}.

Definition set_Widget (v : option ContentId) (h : Host) :=
  {| Layout := Layout h; Widget := v; ScrollArea := ScrollArea h;
     scrollAreaWidget := scrollAreaWidget h; nScrollAreas := nScrollAreas h;
     qwidgets := qwidgets h |}.

Definition set_scrollAreaWidget (v : ScrollAreaId -> option ContentId) (h : Host) :=
  {| Layout := Layout h; Widget := Widget h; ScrollArea := ScrollArea h;
     scrollAreaWidget := v; nScrollAreas := nScrollAreas h;
     qwidgets := qwidgets h |}.

Definition set_qwidgets (v : ContentId -> QWidget) (h : Host) :=
  {| Layout := Layout h; Widget := Widget h; ScrollArea := ScrollArea h;
     scrollAreaWidget := scrollAreaWidget h; nScrollAreas := nScrollAreas h;
     qwidgets := v |}.

Definition set_parent (v : option Owner) (x : QWidget) :=
  {| isScrollArea := isScrollArea x; hasViewport := hasViewport x;
     parent := v; dockWidgetContent := dockWidgetContent x;
     viewportDockWidgetContent := viewportDockWidgetContent x |}.

Definition set_dockWidgetContent (v : bool) (x : QWidget) :=
  {| isScrollArea := isScrollArea x; hasViewport := hasViewport x;
     parent := parent x; dockWidgetContent := v;
     viewportDockWidgetContent := viewportDockWidgetContent x |}.

Definition set_viewportDockWidgetContent (v : bool) (x : QWidget) :=
  {| isScrollArea := isScrollArea x; hasViewport := hasViewport x;
     parent := parent x; dockWidgetContent := dockWidgetContent x;
     viewportDockWidgetContent := v |}.

Inductive Result (A : Type) :=
| Ok (a : A) (h : Host)
| Null (h : Host).
Arguments Ok {A} a h.
Arguments Null {A} h.

Definition C (A : Type) := Host -> Result A.

Definition ret {A} (a : A) : C A := fun h => Ok a h.

Definition bind {A B} (m : C A) (k : A -> C B) : C B :=
  fun h => match m h with
           | Ok a h1 => k a h1
           | Null h1 => Null h1
           end.

Declare Scope content_scope.
Notation "x <- m ;; k" := (bind m (fun x => k))
  (at level 61, m at next level, right associativity) : content_scope.
Notation "m ;; k" := (bind m (fun _ => k))
  (at level 61, right associativity) : content_scope.
Local Open Scope content_scope.

Definition deref {A} (p : option A) : C A :=
  fun h => match p with
           | Some a => Ok a h
           | None => Null h
           end.

Definition when (b : bool) (m : C unit) : C unit :=
  if b then m else ret tt.

Definition gets {A} (f : Host -> A) : C A := fun h => Ok (f h) h.

Definition modify (f : Host -> Host) : C unit := fun h => Ok tt (f h).

Definition modifyQWidget (c : ContentId) (f : QWidget -> QWidget) : C unit :=
  modify (fun h => set_qwidgets (upd (qwidgets h) c (f (qwidgets h c))) h).

(** [QBoxLayout::addWidget]: the widget becomes the last item of the
    layout and a child of the dock widget; a null widget is refused with
    a warning. *)
Definition Layout_addWidget (l : list LayoutItem) (w : option ContentId) : C unit :=
  match w with
  | Some c =>
      modify (set_Layout (Some (l ++ [ItemWidget c]))) ;;
      modifyQWidget c (set_parent (Some OwnerDockWidget))
  | None => ret tt
  end.

(** [QLayout::removeWidget]: the item of the widget leaves the layout, if
    it has one there. *)
Definition Layout_removeWidget (w : option ContentId) : C unit :=
  match w with
  | Some c =>
      modify (fun h =>
        set_Layout
          (option_map
             (filter (fun i => negb (LayoutItem_eqb i (ItemWidget c))))
             (Layout h)) h)
  | None => ret tt
  end.

(** [QScrollArea::setWidget]: the widget becomes the widget of the scroll
    area and a child of it; a null widget is ignored. *)
Definition QScrollArea_setWidget (s : ScrollAreaId) (w : option ContentId) : C unit :=
  match w with
  | Some c =>
      modify (fun h => set_scrollAreaWidget (upd (scrollAreaWidget h) s (Some c)) h) ;;
      modifyQWidget c (set_parent (Some (OwnerScrollArea s)))
  | None => ret tt
  end.

(** [QScrollArea::takeWidget]: the scroll area gives up its widget, which
    loses its parent. *)
Definition QScrollArea_takeWidget (s : ScrollAreaId) : C (option ContentId) :=
  w <- gets (fun h => scrollAreaWidget h s) ;;
  modify (fun h => set_scrollAreaWidget (upd (scrollAreaWidget h) s None) h) ;;
  match w with
  | Some c => modifyQWidget c (set_parent None)
  | None => ret tt
  end ;;
  ret w.

(** [qobject_cast<QScrollArea*>(widget)]. *)
Definition asScrollArea (h : Host) (widget : option ContentId) : option ContentId :=
  match widget with
  | Some c => if isScrollArea (qwidgets h c) then Some c else None
  | None => None
  end.

(** [DockWidgetPrivate::setupScrollArea], lines 195-201. *)
Definition setupScrollArea : C unit :=
  s <- gets nScrollAreas ;;
  modify (fun h =>
    {| Layout := Layout h; Widget := Widget h; ScrollArea := Some s;
       scrollAreaWidget := upd (scrollAreaWidget h) s None;
       nScrollAreas := S s; qwidgets := qwidgets h |}) ;;
  layout <- gets Layout ;;
  l <- deref layout ;;
  modify (set_Layout (Some (l ++ [ItemScrollArea s]))).

(** [CDockWidget::setWidget], lines 243-262. *)
Definition setWidget (widget : option ContentId) (InsertMode : eInsertMode)
  : C unit :=
  ScrollAreaWidget <- gets (fun h => asScrollArea h widget) ;;
  (if isSome ScrollAreaWidget || eInsertMode_eqb ForceNoScrollArea InsertMode
   then
     layout <- gets Layout ;;
     l <- deref layout ;;
     Layout_addWidget l widget ;;
     match ScrollAreaWidget with
     | Some c =>
         x <- gets (fun h => qwidgets h c) ;;
         when (hasViewport x)
              (modifyQWidget c (set_viewportDockWidgetContent true))
     | None => ret tt
     end
   else
     setupScrollArea ;;
     area <- gets ScrollArea ;;
     s <- deref area ;;
     QScrollArea_setWidget s widget) ;;
  modify (set_Widget widget) ;;
  content <- gets Widget ;;
  w <- deref content ;;
  modifyQWidget w (set_dockWidgetContent true).

(** [CDockWidget::takeWidget], lines 266-272. *)
Definition takeWidget : C (option ContentId) :=
  area <- gets ScrollArea ;;
  s <- deref area ;;
  _ <- QScrollArea_takeWidget s ;;
  layout <- gets Layout ;;
  _ <- deref layout ;;
  content <- gets Widget ;;
  Layout_removeWidget content ;;
  w <- deref content ;;
  modifyQWidget w (set_parent None) ;;
  gets Widget.

(** [CDockWidget::widget], lines 276-279. *)
Definition widget : C (option ContentId) := gets Widget.

(** The members as the constructor leaves them (lines 209-212): an empty
    layout, no content and no scroll area. *)
Definition constructed (qw : ContentId -> QWidget) : Host :=
  {| Layout := Some []; Widget := None; ScrollArea := None;
     scrollAreaWidget := fun _ => None; nScrollAreas := 0; qwidgets := qw |}.

Definition outHost {A} (r : Result A) : Host :=
  match r with
  | Ok _ h => h
  | Null h => h
  end.

Definition plainWidget : QWidget :=
  {| isScrollArea := false; hasViewport := false; parent := None;
     dockWidgetContent := false; viewportDockWidgetContent := false |}.

(** A dock widget as constructed, where every widget that may be handed
    in is a plain widget without parent. *)
Definition plainHost : Host := constructed (fun _ => plainWidget).

End Content.
(** * Properties *)

(** ** The monad *)

Lemma bind_done {A B} (m : M A) (k : A -> M B) {W a W1} :
  m W = Done a W1 -> bind m k W = k a W1.
Proof. intros H. unfold bind. rewrite H. reflexivity. Qed.

Lemma bind_null {A B} (m : M A) (k : A -> M B) {W W1} :
  m W = NullDeref W1 -> bind m k W = NullDeref W1.
Proof. intros H. unfold bind. rewrite H. reflexivity. Qed.

Lemma bind_inv {A B} (m : M A) (k : A -> M B) W b W' :
  bind m k W = Done b W' ->
  exists a W1, m W = Done a W1 /\ k a W1 = Done b W'.
Proof.
  unfold bind. destruct (m W) as [a W1|W1]; intros H.
  - exists a, W1. split; [reflexivity|exact H].
  - discriminate H.
Qed.

Lemma bind_assoc {A B C} (m : M A) (k : A -> M B) (h : B -> M C) W :
  bind (bind m k) h W = bind m (fun a => bind (k a) h) W.
Proof. unfold bind. destruct (m W); reflexivity. Qed.

Lemma bind_ext {A B} (m : M A) (k k' : A -> M B) W :
  (forall a W1, m W = Done a W1 -> k a W1 = k' a W1) ->
  bind m k W = bind m k' W.
Proof.
  intros H. unfold bind. destruct (m W) as [a W1|W1]; [|reflexivity].
  apply H. reflexivity.
Qed.

Lemma QSize_eqb_refl s : QSize_eqb s s = true.
Proof. unfold QSize_eqb. rewrite !Z.eqb_refl. reflexivity. Qed.

Lemma QSize_eqb_eq a b : QSize_eqb a b = true -> a = b.
Proof.
  destruct a as [w1 h1], b as [w2 h2]. unfold QSize_eqb. simpl.
  intros H. apply andb_prop in H. destruct H as [H1 H2].
  apply Z.eqb_eq in H1. apply Z.eqb_eq in H2. subst. reflexivity.
Qed.

Lemma ToolButtonStyle_eqb_refl s : ToolButtonStyle_eqb s s = true.
Proof. destruct s; reflexivity. Qed.

Lemma ToolButtonStyle_eqb_eq a b : ToolButtonStyle_eqb a b = true -> a = b.
Proof. destruct a, b; simpl; intros H; try reflexivity; discriminate H. Qed.

Lemma upd_same {A} (f : nat -> A) (k : nat) (v : A) : upd f k v k = v.
Proof. unfold upd. rewrite Nat.eqb_refl. reflexivity. Qed.

Lemma upd_other {A} (f : nat -> A) (k : nat) (v : A) (k' : nat) :
  k' <> k -> upd f k v k' = f k'.
Proof.
  intros H. unfold upd. destruct (Nat.eqb_spec k' k); [contradiction|reflexivity].
Qed.

(** ** Toolbar style switching *)

Lemma setToolbarFloatingStyle_noop (W : World) (this : WidgetId) (Floating : bool)
    (tb : QToolBar) :
  ToolBar (d (widgets W this)) = Some tb ->
  (if Floating then ToolBarIconSizeFloating (d (widgets W this))
   else ToolBarIconSizeDocked (d (widgets W this))) = tbIconSize tb ->
  (if Floating then ToolBarStyleFloating (d (widgets W this))
   else ToolBarStyleDocked (d (widgets W this))) = tbToolButtonStyle tb ->
  setToolbarFloatingStyle this Floating W = Done tt W.
Proof.
  intros Htb Hsize Hstyle.
  unfold setToolbarFloatingStyle, bind, getD, gets.
  rewrite Htb, Hsize, Hstyle.
  rewrite QSize_eqb_refl, ToolButtonStyle_eqb_refl. reflexivity.
Qed.

(** ** Composition of operations that keep a relation *)

Section Preservation.
Variable R : World -> World -> Prop.
Hypothesis R_refl : forall W, R W W.
Hypothesis R_trans : forall W1 W2 W3, R W1 W2 -> R W2 W3 -> R W1 W3.

Lemma preserves_ret {A} (a : A) : preserves R (ret a).
Proof. intros W. apply R_refl. Qed.

Lemma preserves_gets {A} (f : World -> A) : preserves R (gets f).
Proof. intros W. apply R_refl. Qed.

Lemma preserves_deref {A} (p : option A) : preserves R (deref p).
Proof. intros W. destruct p; apply R_refl. Qed.

Lemma preserves_bind {A B} (m : M A) (k : A -> M B) :
  preserves R m -> (forall a, preserves R (k a)) -> preserves R (bind m k).
Proof.
  intros Hm Hk W. unfold bind. specialize (Hm W).
  destruct (m W) as [a W1|W1]; simpl in *.
  - eapply R_trans; [exact Hm|apply Hk].
  - exact Hm.
Qed.

Lemma preserves_when (b : bool) (m : M unit) :
  preserves R m -> preserves R (when b m).
Proof. intros Hm. destruct b; [exact Hm|apply preserves_ret]. Qed.

Lemma always_preserves {A} (m : M A) : always R m -> preserves R m.
Proof.
  intros Hm W. destruct (Hm W) as (a & W' & E & H). rewrite E. exact H.
Qed.

Lemma always_ret {A} (a : A) : always R (ret a).
Proof. intros W. exists a, W. split; [reflexivity|apply R_refl]. Qed.

Lemma always_gets {A} (f : World -> A) : always R (gets f).
Proof. intros W. exists (f W), W. split; [reflexivity|apply R_refl]. Qed.

Lemma always_bind {A B} (m : M A) (k : A -> M B) :
  always R m -> (forall a, always R (k a)) -> always R (bind m k).
Proof.
  intros Hm Hk W. destruct (Hm W) as (a & W1 & E1 & H1).
  destruct (Hk a W1) as (b & W2 & E2 & H2).
  exists b, W2. split.
  - rewrite (bind_done _ _ E1). exact E2.
  - eapply R_trans; eassumption.
Qed.

Lemma always_when (b : bool) (m : M unit) :
  always R m -> always R (when b m).
Proof. intros Hm. destruct b; [exact Hm|apply always_ret]. Qed.

Lemma always_invokeSlots (n : nat) (slot : M unit) :
  always R slot -> always R (invokeSlots n slot).
Proof.
  intros Hs. induction n as [|n IH]; simpl.
  - apply always_ret.
  - apply always_bind; [exact Hs|intros _; exact IH].
Qed.
Lemma preserves_invokeSlots (n : nat) (slot : M unit) :
  preserves R slot -> preserves R (invokeSlots n slot).
Proof.
  intros Hs. induction n as [|n IH]; simpl.
  - apply preserves_ret.
  - apply preserves_bind; [exact Hs|intros _; exact IH].
Qed.
End Preservation.

(** ** Bookkeeping *)

Lemma bookkeeping_refl W : bookkeeping W W.
Proof.
  constructor; try reflexivity.
  exists []. rewrite app_nil_r. split; reflexivity.
Qed.

Lemma bookkeeping_trans W1 W2 W3 :
  bookkeeping W1 W2 -> bookkeeping W2 W3 -> bookkeeping W1 W3.
Proof.
  intros [a1 a2 a3 a4 a5 a6 a7 a8 a9 a10 (r1 & l1 & q1)]
         [b1 b2 b3 b4 b5 b6 b7 b8 b9 b10 (r2 & l2 & q2)].
  constructor; try (intros; congruence).
  exists (r1 ++ r2). split.
  - rewrite l2, l1, app_assoc. reflexivity.
  - rewrite forallb_app, q1, q2. reflexivity.
Qed.

Lemma bookkeeping_trace e : quiet e = true -> always bookkeeping (trace e).
Proof.
  intros Hq W. exists tt. eexists. split; [reflexivity|].
  constructor; try reflexivity.
  exists [e]. split; [reflexivity|]. simpl. rewrite Hq. reflexivity.
Qed.

Lemma bookkeeping_modifyD this f :
  (forall x, eraseToolbarState (set_d f x) = eraseToolbarState x) ->
  always bookkeeping (modifyD this f).
Proof.
  intros Hf W. exists tt. eexists. split; [reflexivity|].
  constructor; try reflexivity.
  - intros w. simpl. unfold upd. destruct (Nat.eqb_spec w this).
    + subst. apply Hf.
    + reflexivity.
  - exists []. rewrite app_nil_r. split; reflexivity.
Qed.

(** ** Toolbar restyling *)

Lemma restyle_refl W : restyle W W.
Proof.
  constructor; try reflexivity.
  exists []. rewrite app_nil_r. split; reflexivity.
Qed.

Lemma restyle_trans W1 W2 W3 : restyle W1 W2 -> restyle W2 W3 -> restyle W1 W3.
Proof.
  intros [a1 a2 (r1 & l1 & q1)] [b1 b2 (r2 & l2 & q2)].
  constructor.
  - intros w. rewrite b1. apply a1.
  - rewrite <- a2.
    apply (f_equal (set_widgets (widgets W1))) in b2.
    exact b2.
  - exists (r1 ++ r2). split.
    + rewrite l2, l1, app_assoc. reflexivity.
    + rewrite forallb_app, q1, q2. reflexivity.
Qed.

Lemma forallb_weaken {A} (P Q : A -> bool) (l : list A) :
  (forall x, P x = true -> Q x = true) ->
  forallb P l = true -> forallb Q l = true.
Proof.
  intros H. induction l as [|x l IH]; simpl; [reflexivity|].
  intros E. apply andb_prop in E. destruct E as [E1 E2].
  rewrite (H _ E1), (IH E2). reflexivity.
Qed.

Lemma restyle_bookkeeping W W' : restyle W W' -> bookkeeping W W'.
Proof.
  intros [a1 a2 (r & l & q)].
  constructor.
  - intros w. specialize (a1 w).
    apply (f_equal (set_d (set_IsFloatingTopLevel false))) in a1.
    exact a1.
  - exact (f_equal nWidgets a2).
  - exact (f_equal areas a2).
  - exact (f_equal nAreas a2).
  - exact (f_equal containers a2).
  - exact (f_equal nContainers a2).
  - intros f. exact (f_equal (fun X => floatVisible (floatings X f)) a2).
  - intros f. exact (f_equal (fun X => floatSize (floatings X f)) a2).
  - exact (f_equal nFloatings a2).
  - exact (f_equal splitterVisible a2).
  - exists r. split; [exact l|].
    revert q. apply forallb_weaken. intros [] E; solve [reflexivity|discriminate E].
Qed.

Lemma restyle_toolbar_call this (g : QToolBar -> QToolBar) e W :
  isToolBarCall e = true ->
  ToolBar (d (widgets W this)) <> None ->
  exists W', (modifyToolBar this g ;; trace e) W = Done tt W' /\
             restyle W W' /\
             ToolBar (d (widgets W' this)) =
               option_map g (ToolBar (d (widgets W this))).
Proof.
  intros He Hsome.
  destruct (ToolBar (d (widgets W this))) as [tb0|] eqn:E0; [|congruence].
  eexists. split.
  - unfold modifyToolBar, bind, getD, gets, deref, modifyD, modifyWidget, trace.
    rewrite E0. reflexivity.
  - split.
    + constructor; try reflexivity.
      * intros w. simpl. unfold upd. destruct (Nat.eqb_spec w this);
          [subst; reflexivity|reflexivity].
      * exists [e]. split; [reflexivity|]. simpl. rewrite He. reflexivity.
    + simpl. rewrite upd_same. reflexivity.
Qed.

(** What [setToolbarFloatingStyle] does to a widget with a toolbar: it
    completes, it writes only the toolbar, and the toolbar then has the
    icon size and the button style of the requested state. *)
Lemma setToolbarFloatingStyle_spec (W : World) (this : WidgetId)
    (Floating : bool) (tb : QToolBar) :
  ToolBar (d (widgets W this)) = Some tb ->
  exists W', setToolbarFloatingStyle this Floating W = Done tt W' /\
    restyle W W' /\
    ToolBar (d (widgets W' this)) =
      Some {| tbIconSize :=
                (let sz :=
                   if Floating then ToolBarIconSizeFloating (d (widgets W this))
                   else ToolBarIconSizeDocked (d (widgets W this)) in
                 if QSize_eqb sz (tbIconSize tb) then sz
                 else storedIconSize tb sz);
              tbToolButtonStyle :=
                if Floating then ToolBarStyleFloating (d (widgets W this))
                else ToolBarStyleDocked (d (widgets W this));
              tbStyleIconSize := tbStyleIconSize tb |}.
Proof.
  intros Htb.
  assert (Hsome : ToolBar (d (widgets W this)) <> None) by congruence.
  unfold setToolbarFloatingStyle.
  unfold bind at 1. unfold getD at 1, gets at 1. rewrite Htb.
  cbv zeta.
  set (sz := if Floating then ToolBarIconSizeFloating (d (widgets W this))
             else ToolBarIconSizeDocked (d (widgets W this))).
  set (st := if Floating then ToolBarStyleFloating (d (widgets W this))
             else ToolBarStyleDocked (d (widgets W this))).
  destruct (QSize_eqb sz (tbIconSize tb)) eqn:E1;
    destruct (ToolButtonStyle_eqb st (tbToolButtonStyle tb)) eqn:E2; simpl.
  - exists W. split; [reflexivity|]. split; [apply restyle_refl|].
    apply QSize_eqb_eq in E1. apply ToolButtonStyle_eqb_eq in E2.
    rewrite Htb, E1, E2. destruct tb; reflexivity.
  - destruct (restyle_toolbar_call this (set_tbToolButtonStyle st)
                (ToolBarSetToolButtonStyle this st) W eq_refl Hsome)
      as (W2 & Eb & Bb & Sb).
    exists W2. split; [exact Eb|]. split; [exact Bb|].
    rewrite Sb, Htb. apply QSize_eqb_eq in E1. rewrite E1. reflexivity.
  - destruct (restyle_toolbar_call this
                (fun x => set_tbIconSize (storedIconSize x sz) x)
                (ToolBarSetIconSize this sz) W eq_refl Hsome)
      as (W1 & Ea & Ba & Sa).
    exists W1. split.
    + unfold QToolBar_setIconSize. rewrite (bind_done _ _ Ea). reflexivity.
    + split; [exact Ba|].
      rewrite Sa, Htb. apply ToolButtonStyle_eqb_eq in E2. rewrite E2.
      reflexivity.
  - destruct (restyle_toolbar_call this
                (fun x => set_tbIconSize (storedIconSize x sz) x)
                (ToolBarSetIconSize this sz) W eq_refl Hsome)
      as (W1 & Ea & Ba & Sa).
    assert (Hsome1 : ToolBar (d (widgets W1 this)) <> None).
    { rewrite Sa, Htb. discriminate. }
    destruct (restyle_toolbar_call this (set_tbToolButtonStyle st)
                (ToolBarSetToolButtonStyle this st) W1 eq_refl Hsome1)
      as (W2 & Eb & Bb & Sb).
    exists W2. split.
    + unfold QToolBar_setIconSize, QToolBar_setToolButtonStyle.
      rewrite (bind_done _ _ Ea). exact Eb.
    + split; [eapply restyle_trans; eassumption|].
      rewrite Sb, Sa, Htb. reflexivity.
Qed.

(** With a valid kept icon size the toolbar ends in the kept style. *)
Lemma setToolbarFloatingStyle_valid (W : World) (this : WidgetId)
    (Floating : bool) (tb : QToolBar) :
  ToolBar (d (widgets W this)) = Some tb ->
  QSize_isValid (keptIconSize (d (widgets W this)) Floating) = true ->
  exists W', setToolbarFloatingStyle this Floating W = Done tt W' /\
    restyle W W' /\
    ToolBar (d (widgets W' this)) =
      Some (styledFor (d (widgets W this)) Floating tb).
Proof.
  intros Htb Hv.
  destruct (setToolbarFloatingStyle_spec W this Floating tb Htb)
    as (W' & E & R & T).
  exists W'. split; [exact E|]. split; [exact R|].
  rewrite T. unfold styledFor, keptStyle, storedIconSize.
  cbv zeta. fold (keptIconSize (d (widgets W this)) Floating).
  rewrite Hv.
  destruct (QSize_eqb (keptIconSize (d (widgets W this)) Floating)
              (tbIconSize tb)); reflexivity.
Qed.

Lemma restyle_setToolbarFloatingStyle this Floating :
  always restyle (setToolbarFloatingStyle this Floating).
Proof.
  intros W. destruct (ToolBar (d (widgets W this))) as [tb|] eqn:Htb.
  - destruct (setToolbarFloatingStyle_spec W this Floating tb Htb)
      as (W' & E & R & _).
    exists tt, W'. split; assumption.
  - exists tt, W. split; [|apply restyle_refl].
    unfold setToolbarFloatingStyle, bind, getD, gets. rewrite Htb. reflexivity.
Qed.

Lemma restyle_field {X} (f : DockWidgetPrivate -> X) W W' w :
  (forall p, f (set_ToolBar None p) = f p) ->
  restyle W W' -> f (d (widgets W' w)) = f (d (widgets W w)).
Proof.
  intros Hf [a1 _ _]. specialize (a1 w).
  apply (f_equal (fun x => f (d x))) in a1. simpl in a1.
  rewrite !Hf in a1. exact a1.
Qed.

Lemma setToolbarFloatingStyle_idempotent (W : World) (this : WidgetId)
    (Floating : bool) :
  QSize_isValid (keptIconSize (d (widgets W this)) Floating) = true ->
  let W1 := outWorld (setToolbarFloatingStyle this Floating W) in
  setToolbarFloatingStyle this Floating W1 = Done tt W1.
Proof.
  intros Hv.
  destruct (ToolBar (d (widgets W this))) as [tb|] eqn:Htb.
  - destruct (setToolbarFloatingStyle_valid W this Floating tb Htb Hv)
      as (W' & E & R & T).
    rewrite E. simpl.
    apply setToolbarFloatingStyle_noop
      with (tb := styledFor (d (widgets W this)) Floating tb).
    + exact T.
    + simpl. unfold keptIconSize. destruct Floating.
      * apply (restyle_field ToolBarIconSizeFloating); [reflexivity|exact R].
      * apply (restyle_field ToolBarIconSizeDocked); [reflexivity|exact R].
    + simpl. unfold keptStyle. destruct Floating.
      * apply (restyle_field ToolBarStyleFloating); [reflexivity|exact R].
      * apply (restyle_field ToolBarStyleDocked); [reflexivity|exact R].
  - assert (E : setToolbarFloatingStyle this Floating W = Done tt W).
    { unfold setToolbarFloatingStyle, bind, getD, gets. rewrite Htb. reflexivity. }
    rewrite E. simpl. exact E.
Qed.

(** A world with one dock widget that carries a toolbar in docked style. *)
Example toolbarWorld_toolbar :
  ToolBar (d (widgets toolbarWorld 0)) =
    Some {| tbIconSize := {| width := 16; height := 16 |};
            tbToolButtonStyle := ToolButtonIconOnly;
            tbStyleIconSize := {| width := 24; height := 24 |} |}.
Proof. reflexivity. Qed.

(** C9: on a dock widget with a toolbar, [setToolbarFloatingStyle] with a
    flag whose icon size and button style are the ones the toolbar already
    has returns the world as it was: no [setIconSize] and no
    [setToolButtonStyle] call reaches the toolkit. *)
Theorem setToolbarFloatingStyle_unchanged_calls_nothing :
  forall (W : World) (this : WidgetId) (Floating : bool) (tb : QToolBar),
    ToolBar (d (widgets W this)) = Some tb ->
    (if Floating then ToolBarIconSizeFloating (d (widgets W this))
     else ToolBarIconSizeDocked (d (widgets W this))) = tbIconSize tb ->
    (if Floating then ToolBarStyleFloating (d (widgets W this))
     else ToolBarStyleDocked (d (widgets W this))) = tbToolButtonStyle tb ->
    setToolbarFloatingStyle this Floating W = Done tt W /\
    countEvents isToolBarCall
      (log (outWorld (setToolbarFloatingStyle this Floating W))) =
    countEvents isToolBarCall (log W).
Proof.
  intros W this Floating tb Htb Hsize Hstyle.
  rewrite (setToolbarFloatingStyle_noop W this Floating tb Htb Hsize Hstyle).
  split; reflexivity.
Qed.

Lemma setToolbarFloatingStyle_unchanged_calls_nothing_witness :
  setToolbarFloatingStyle 0 false toolbarWorld = Done tt toolbarWorld /\
  countEvents isToolBarCall
    (log (outWorld (setToolbarFloatingStyle 0 false toolbarWorld))) =
  countEvents isToolBarCall (log toolbarWorld).
Proof.
  apply (setToolbarFloatingStyle_unchanged_calls_nothing toolbarWorld 0 false
           {| tbIconSize := {| width := 16; height := 16 |};
              tbToolButtonStyle := ToolButtonIconOnly;
              tbStyleIconSize := {| width := 24; height := 24 |} |});
    reflexivity.
Defined.

(** ** The top-level notification *)

Lemma emitTopLevelChanged_same (W : World) (this : WidgetId) :
  emitTopLevelChanged this (IsFloatingTopLevel (d (widgets W this))) W = Done tt W.
Proof.
  unfold emitTopLevelChanged, bind, getD, gets.
  rewrite Bool.eqb_reflx. reflexivity.
Qed.

Lemma restyle_invokeSlots n this Floating :
  always restyle (invokeSlots n (setToolbarFloatingStyle this Floating)).
Proof.
  apply always_invokeSlots.
  - apply restyle_refl.
  - apply restyle_trans.
  - apply restyle_setToolbarFloatingStyle.
Qed.

Lemma isToolBarCall_not_topLevelChanged (l : list Event) :
  forallb isToolBarCall l = true -> countEvents isTopLevelChanged l = 0.
Proof.
  unfold countEvents. induction l as [|e l IH]; simpl; [reflexivity|].
  intros E. apply andb_prop in E. destruct E as [E1 E2].
  destruct e; simpl in *; try discriminate E1; apply IH; exact E2.
Qed.

Lemma emitTopLevelChanged_changed (W : World) (this : WidgetId) (Floating : bool) :
  Floating <> IsFloatingTopLevel (d (widgets W this)) ->
  exists W' rest,
    emitTopLevelChanged this Floating W = Done tt W' /\
    IsFloatingTopLevel (d (widgets W' this)) = Floating /\
    log W' = log W ++ EmitTopLevelChanged this Floating :: rest /\
    forallb isToolBarCall rest = true /\
    bookkeeping W W'.
Proof.
  intros Hne.
  unfold emitTopLevelChanged.
  unfold bind at 1. unfold getD at 1, gets at 1.
  assert (E : Bool.eqb Floating (IsFloatingTopLevel (d (widgets W this))) = false).
  { apply Bool.eqb_false_iff. exact Hne. }
  rewrite E. simpl.
  unfold bind at 1. unfold modifyD at 1, modifyWidget at 1.
  unfold bind at 1. unfold getD at 1, gets at 1.
  simpl. rewrite upd_same. simpl.
  unfold emit_topLevelChanged.
  unfold bind at 1. unfold trace at 1.
  unfold bind at 1. unfold getWidget at 1, gets at 1.
  match goal with
  | |- exists W' rest, invokeSlots ?n ?s ?W2 = _ /\ _ =>
      destruct (restyle_invokeSlots n this Floating W2) as ([] & W' & Es & Rs)
  end.
  destruct (rs_log _ _ Rs) as (rest & Hl & Hq).
  exists W', rest. split; [exact Es|]. split.
  - rewrite (restyle_field IsFloatingTopLevel _ _ this (fun _ => eq_refl) Rs).
    simpl. rewrite upd_same. reflexivity.
  - split.
    + rewrite Hl. simpl. rewrite <- app_assoc. reflexivity.
    + split; [exact Hq|].
      eapply bookkeeping_trans; [|apply restyle_bookkeeping; exact Rs].
      constructor; try reflexivity.
      * intros w. simpl. unfold upd.
        destruct (Nat.eqb_spec w this); [subst; reflexivity|reflexivity].
      * exists [EmitTopLevelChanged this Floating]. split; reflexivity.
Qed.

Lemma bookkeeping_emitTopLevelChanged this Floating :
  always bookkeeping (emitTopLevelChanged this Floating).
Proof.
  intros W.
  destruct (Bool.bool_dec Floating (IsFloatingTopLevel (d (widgets W this))))
    as [E|N].
  - exists tt, W. split; [|apply bookkeeping_refl].
    rewrite E. apply emitTopLevelChanged_same.
  - destruct (emitTopLevelChanged_changed W this Floating N)
      as (W' & rest & H1 & _ & _ & _ & H5).
    exists tt, W'. split; assumption.
Qed.

Lemma countEvents_app P l1 l2 :
  countEvents P (l1 ++ l2) = countEvents P l1 + countEvents P l2.
Proof. unfold countEvents. rewrite filter_app, length_app. reflexivity. Qed.

Lemma emitTopLevelEventForWidget_same (W : World) (t : WidgetId) :
  countEvents isTopLevelChanged
    (log (outWorld (emitTopLevelEventForWidget (Some t)
                      (IsFloatingTopLevel (d (widgets W t))) W))) =
  countEvents isTopLevelChanged (log W).
Proof.
  unfold emitTopLevelEventForWidget, dockAreaWidget, bind, getD, gets, ret.
  destruct (DockArea (d (widgets W t))) as [a|]; simpl; [|reflexivity].
  change (d (widgets W t)) with
    (d (widgets (set_log (log W ++ [AreaUpdateTitleBarVisibility a]) W) t)).
  rewrite emitTopLevelChanged_same. simpl.
  rewrite countEvents_app. simpl. apply Nat.add_0_r.
Qed.

(** C10: [emitTopLevelChanged f] with [f] different from the cached flag
    stores [f] and emits [topLevelChanged(f)] once; with [f] equal to the
    cached flag it returns the world as it was.  Hence a second call with
    the same value emits nothing, and [emitTopLevelEventForWidget] for a
    widget whose cached flag is the requested value adds no
    [topLevelChanged] to the log. *)
Theorem emitTopLevelChanged_emits_iff_flag_differs :
  forall (W : World) (this : WidgetId) (Floating : bool),
    (if Bool.eqb Floating (IsFloatingTopLevel (d (widgets W this))) then
       emitTopLevelChanged this Floating W = Done tt W
     else
       exists W' rest,
         emitTopLevelChanged this Floating W = Done tt W' /\
         IsFloatingTopLevel (d (widgets W' this)) = Floating /\
         log W' = log W ++ EmitTopLevelChanged this Floating :: rest /\
         countEvents isTopLevelChanged rest = 0) /\
    (let W1 := outWorld (emitTopLevelChanged this Floating W) in
     emitTopLevelChanged this Floating W1 = Done tt W1) /\
    countEvents isTopLevelChanged
      (log (outWorld (emitTopLevelEventForWidget (Some this)
                        (IsFloatingTopLevel (d (widgets W this))) W))) =
    countEvents isTopLevelChanged (log W).
Proof.
  intros W this Floating.
  split; [|split].
  - destruct (Bool.eqb Floating (IsFloatingTopLevel (d (widgets W this)))) eqn:E.
    + apply Bool.eqb_prop in E. rewrite E. apply emitTopLevelChanged_same.
    + apply Bool.eqb_false_iff in E.
      destruct (emitTopLevelChanged_changed W this Floating E)
        as (W' & rest & H1 & H2 & H3 & H4 & _).
      exists W', rest. repeat split; try assumption.
      apply isToolBarCall_not_topLevelChanged. exact H4.
  - destruct (Bool.bool_dec Floating (IsFloatingTopLevel (d (widgets W this))))
      as [E|N].
    + rewrite E. rewrite emitTopLevelChanged_same. simpl.
      apply emitTopLevelChanged_same.
    + destruct (emitTopLevelChanged_changed W this Floating N)
        as (W' & rest & H1 & H2 & _).
      rewrite H1. simpl. rewrite <- H2 at 1. apply emitTopLevelChanged_same.
  - apply emitTopLevelEventForWidget_same.
Qed.

Lemma world_eta W : set_widgets (widgets W) W = W.
Proof. destruct W. reflexivity. Qed.

(** ** The toggle action *)

(** [QAction_setChecked] and the function with the early return have the
    same outcome on every action that is checked only if it is checkable,
    which Qt's actions always are. *)
Lemma QAction_setChecked_guarded_agrees (W : World) (w : WidgetId) (b : bool) :
  (forall act,
     ToggleViewAction (d (widgets W w)) = Some act ->
     actChecked act = true -> actCheckable act = true) ->
  match QAction_setChecked w b W, QAction_setChecked_guarded w b W with
  | Done _ W1, Done _ W2 =>
      (forall x, widgets W1 x = widgets W2 x) /\
      log W1 = log W2 /\
      set_log (log W) (set_widgets (widgets W) W1) =
        set_log (log W) (set_widgets (widgets W) W2)
  | NullDeref W1, NullDeref W2 => W1 = W2
  | _, _ => False
  end.
Proof.
  intros Hwf.
  unfold QAction_setChecked, QAction_setChecked_guarded, bind, getD, gets,
    deref, modifyD, modifyWidget, when, trace, ret.
  cbv beta iota.
  destruct (widgets W w) as [p t sz v par n] eqn:Hw.
  destruct p as [tab m a [act|] c tb s1 s2 i1 i2 fl]; cbn [d ToggleViewAction];
    [|reflexivity].
  specialize (Hwf act eq_refl).
  destruct act as [txt ck cd bl ic]. cbn in Hwf |- *.
  assert (U : forall x,
             upd (widgets W) w
               {| d := {| TabWidget := tab; DockManager := m; DockArea := a;
                          ToggleViewAction :=
                            Some {| actText := txt; actCheckable := ck;
                                    actChecked := cd; actSignalsBlocked := bl;
                                    actIcon := ic |};
                          Closed := c; ToolBar := tb; ToolBarStyleDocked := s1;
                          ToolBarStyleFloating := s2;
                          ToolBarIconSizeDocked := i1;
                          ToolBarIconSizeFloating := i2;
                          IsFloatingTopLevel := fl |};
                  qwWindowTitle := t; qwSize := sz; qwVisible := v;
                  qwParent := par; toolbarStyleSlots := n |} x =
             widgets W x).
  { intros x. unfold upd. destruct (Nat.eqb_spec x w) as [->|_];
      [symmetry; exact Hw|reflexivity]. }
  destruct ck, cd, b, bl; cbn; rewrite ?Hw; cbn;
    try (specialize (Hwf eq_refl); discriminate Hwf);
    (split; [intros x; try reflexivity; apply U
            |split; [reflexivity|destruct W; reflexivity]]).
Qed.

Lemma setToggleViewActionChecked_spec (W : World) (this : WidgetId)
    (Checked : bool) (act : QAction) :
  ToggleViewAction (d (widgets W this)) = Some act ->
  exists W',
    setToggleViewActionChecked this Checked W = Done tt W' /\
    widgets W' this =
      set_d (set_ToggleViewAction
               (Some (set_actSignalsBlocked false
                        (set_actChecked (actCheckable act && Checked) act))))
            (widgets W this) /\
    (forall w, w <> this -> widgets W' w = widgets W w) /\
    set_widgets (widgets W) W' = W.
Proof.
  intros Hact. eexists. split.
  - unfold setToggleViewActionChecked, QAction_blockSignals, QAction_setChecked,
      modifyAction, bind, getD, gets, deref, modifyD, modifyWidget, when, ret.
    simpl. rewrite Hact. simpl. rewrite !upd_same. simpl. rewrite upd_same.
    simpl. reflexivity.
  - split; [|split].
    + simpl. repeat (rewrite upd_same; simpl). reflexivity.
    + intros w Hw. simpl. rewrite !upd_other by exact Hw. reflexivity.
    + destruct W. reflexivity.
Qed.

Lemma setToggleViewActionChecked_null (W : World) (this : WidgetId)
    (Checked : bool) :
  ToggleViewAction (d (widgets W this)) = None ->
  setToggleViewActionChecked this Checked W = NullDeref W.
Proof.
  intros Hact.
  unfold setToggleViewActionChecked, QAction_blockSignals, modifyAction, bind,
    getD, gets, deref.
  rewrite Hact. reflexivity.
Qed.

Lemma setToggleViewActionChecked_log (W : World) (this : WidgetId)
    (Checked : bool) :
  log (outWorld (setToggleViewActionChecked this Checked W)) = log W.
Proof.
  destruct (ToggleViewAction (d (widgets W this))) as [act|] eqn:Hact.
  - destruct (setToggleViewActionChecked_spec W this Checked act Hact)
      as (W' & E & _ & _ & H).
    rewrite E. simpl. exact (f_equal log H).
  - rewrite (setToggleViewActionChecked_null W this Checked Hact). reflexivity.
Qed.

Lemma updateClosedAndAction_spec (W : World) (this : WidgetId) (Open : bool)
    (act : QAction) :
  ToggleViewAction (d (widgets W this)) = Some act ->
  exists W',
    updateClosedAndAction this Open W = Done tt W' /\
    widgets W' this =
      set_d (fun p =>
               set_ToggleViewAction
                 (Some (set_actSignalsBlocked false
                         (set_actChecked (actCheckable act && Open) act)))
                 (set_Closed (negb Open) p))
            (widgets W this) /\
    (forall w, w <> this -> widgets W' w = widgets W w) /\
    set_widgets (widgets W) W' = W.
Proof.
  intros Hact.
  unfold updateClosedAndAction.
  unfold bind at 1. unfold modifyD at 1, modifyWidget at 1.
  match goal with
  | |- exists W', ?m ?W1 = _ /\ _ =>
      destruct (setToggleViewActionChecked_spec W1 this Open act)
        as (W' & E & Hd & Ho & Hr)
  end.
  { simpl. rewrite upd_same. simpl. exact Hact. }
  exists W'. split; [exact E|]. split; [|split].
  - rewrite Hd. simpl. rewrite upd_same. reflexivity.
  - intros w Hw. rewrite (Ho w Hw). simpl. apply upd_other. exact Hw.
  - apply (f_equal (set_widgets (widgets W))) in Hr.
    etransitivity; [|apply world_eta]. exact Hr.
Qed.

Lemma updateClosedAndAction_null (W : World) (this : WidgetId) (Open : bool) :
  ToggleViewAction (d (widgets W this)) = None ->
  completes (updateClosedAndAction this Open W) = false /\
  log (outWorld (updateClosedAndAction this Open W)) = log W.
Proof.
  intros Hact.
  unfold updateClosedAndAction, QAction_blockSignals, modifyAction, bind,
    getD, gets, deref, modifyD, modifyWidget.
  simpl. rewrite upd_same. simpl. rewrite Hact. split; reflexivity.
Qed.

(** ** [setDockArea] *)

Lemma setDockArea_spec (W : World) (this : WidgetId) (area : option AreaId)
    (act : QAction) :
  ToggleViewAction (d (widgets W this)) = Some act ->
  exists W',
    setDockArea this area W = Done tt W' /\
    widgets W' this =
      set_d (fun p =>
               set_ToggleViewAction
                 (Some (set_actChecked
                          (actCheckable act &&
                           (isSome area && negb (Closed (d (widgets W this)))))
                          act))
                 (set_DockArea area p))
            (widgets W this) /\
    (forall w, w <> this -> widgets W' w = widgets W w) /\
    set_log [] (set_widgets (widgets W) W') = set_log [] W /\
    exists rest, log W' = log W ++ rest /\
      Forall (fun e => exists b, e = ActionEmits this (Toggled b)) rest.
Proof.
  intros Hact.
  unfold setDockArea, isClosed, QAction_setChecked.
  unfold bind, modifyD, modifyWidget, getD, gets, deref, ret, when, trace.
  simpl. rewrite !upd_same. simpl. rewrite Hact.
  destruct (negb (actSignalsBlocked act) &&
            negb (Bool.eqb (actChecked act)
                    (actCheckable act &&
                     (isSome area && negb (Closed (d (widgets W this)))))));
    eexists; (split; [reflexivity|]); simpl; rewrite ?upd_same; simpl;
    (split; [reflexivity|]);
    (split; [intros w Hw; rewrite !upd_other by exact Hw; reflexivity|]);
    (split; [reflexivity|]).
  - eexists. split; [reflexivity|]. constructor; [eexists; reflexivity|constructor].
  - exists []. rewrite app_nil_r. split; [reflexivity|constructor].
Qed.

(** ** Title propagation *)

(** C8: on a dock widget (its tab and its toggle action exist), a
    [WindowTitleChange] event sets the tab text and the text of the toggle
    action to the window title, marks the title bar menu of the assigned
    area (if any) outdated, and emits [titleChanged] with that title
    exactly once. *)
Theorem event_WindowTitleChange_propagates_title :
  forall (W : World) (this : WidgetId) (tab : CDockWidgetTab) (act : QAction),
    TabWidget (d (widgets W this)) = Some tab ->
    ToggleViewAction (d (widgets W this)) = Some act ->
    exists W',
      event this WindowTitleChange W = Done tt W' /\
      TabWidget (d (widgets W' this)) =
        Some (set_tabText (qwWindowTitle (widgets W this)) tab) /\
      ToggleViewAction (d (widgets W' this)) =
        Some (set_actText (qwWindowTitle (widgets W this)) act) /\
      match DockArea (d (widgets W this)) with
      | Some a =>
          areaMenuOutdated (areas W' a) = true /\
          log W' = log W ++ [TabSetText this (qwWindowTitle (widgets W this));
                             AreaMarkTitleBarMenuOutdated a;
                             EmitTitleChanged this (qwWindowTitle (widgets W this))]
      | None =>
          areas W' = areas W /\
          log W' = log W ++ [TabSetText this (qwWindowTitle (widgets W this));
                             EmitTitleChanged this (qwWindowTitle (widgets W this))]
      end /\
      countEvents isTitleChanged (log W') =
        S (countEvents isTitleChanged (log W)).
Proof.
  intros W this tab act Htab Hact.
  unfold event, Tab_setText, QAction_setText, modifyTab, modifyAction,
    Area_markTitleBarMenuOutdated, modifyArea.
  unfold bind, getWidget, getD, gets, deref, modifyD, modifyWidget, when,
    trace, ret.
  rewrite Htab, Hact. simpl. rewrite Htab. simpl. rewrite upd_same. simpl.
  rewrite Hact.
  destruct (DockArea (d (widgets W this))) as [a|] eqn:Harea;
    eexists; (split; [reflexivity|]); simpl; rewrite ?upd_same; simpl.
  - split; [reflexivity|]. split; [reflexivity|]. split.
    + split; [reflexivity|]. rewrite <- !app_assoc. reflexivity.
    + rewrite <- !app_assoc, countEvents_app. simpl. apply Nat.add_1_r.
  - split; [reflexivity|]. split; [reflexivity|]. split.
    + split; [reflexivity|]. rewrite <- !app_assoc. reflexivity.
    + rewrite <- !app_assoc, countEvents_app. simpl. apply Nat.add_1_r.
Qed.

Lemma event_WindowTitleChange_propagates_title_witness :
  exists W',
    event 0 WindowTitleChange floatingWorld = Done tt W' /\
    option_map tabText (TabWidget (d (widgets W' 0))) = Some "Logs"%string /\
    option_map actText (ToggleViewAction (d (widgets W' 0))) = Some "Logs"%string /\
    areaMenuOutdated (areas W' 0) = true /\
    countEvents isTitleChanged (log W') =
      S (countEvents isTitleChanged (log floatingWorld)).
Proof.
  destruct (event_WindowTitleChange_propagates_title floatingWorld 0
              {| tabText := EmptyString; tabVisible := false;
                 tabParent := Some (RefDockWidget 0); tabIcon := None |}
              {| actText := "Logs"; actCheckable := true; actChecked := true;
                 actSignalsBlocked := false; actIcon := None |}
              eq_refl eq_refl)
    as (W' & E & Ht & Ha & Hm & Hc).
  exists W'. split; [exact E|].
  rewrite Ht, Ha. split; [reflexivity|]. split; [reflexivity|].
  split; [exact (proj1 Hm)|exact Hc].
Defined.

(** ** Unassigning *)

(** C6: on a dock widget (its tab and its toggle action exist), in any
    state, [flagAsUnassigned] completes and leaves the widget closed,
    without dock area, with its toggle action unchecked, hidden, with the
    dock manager it refers to as parent, and with its tab reparented under
    the widget itself. *)
Theorem flagAsUnassigned_leaves_widget_unassigned :
  forall (W : World) (this : WidgetId) (tab : CDockWidgetTab) (act : QAction),
    TabWidget (d (widgets W this)) = Some tab ->
    ToggleViewAction (d (widgets W this)) = Some act ->
    exists W',
      flagAsUnassigned this W = Done tt W' /\
      Closed (d (widgets W' this)) = true /\
      DockArea (d (widgets W' this)) = None /\
      option_map actChecked (ToggleViewAction (d (widgets W' this))) = Some false /\
      qwVisible (widgets W' this) = false /\
      qwParent (widgets W' this) =
        option_map RefDockManager (DockManager (d (widgets W this))) /\
      option_map tabParent (TabWidget (d (widgets W' this))) =
        Some (Some (RefDockWidget this)).
Proof.
  intros W this tab act Htab Hact.
  unfold flagAsUnassigned, setDockArea, isClosed, QWidget_setParent,
    QWidget_setVisible, Tab_setParent, QAction_setChecked, modifyTab.
  unfold bind, getD, gets, deref, modifyD, modifyWidget, when, trace, ret.
  simpl. repeat (rewrite upd_same; simpl). rewrite Hact. simpl.
  rewrite ?Bool.andb_false_r.
  destruct (negb (actSignalsBlocked act) && negb (Bool.eqb (actChecked act) false));
    simpl; repeat (rewrite upd_same; simpl); rewrite Htab;
    eexists; (split; [reflexivity|]); simpl;
    repeat (rewrite upd_same; simpl); repeat split; reflexivity.
Qed.

Lemma flagAsUnassigned_leaves_widget_unassigned_witness :
  exists W',
    flagAsUnassigned 2 dockedWorld = Done tt W' /\
    Closed (d (widgets W' 2)) = true /\
    DockArea (d (widgets W' 2)) = None /\
    option_map actChecked (ToggleViewAction (d (widgets W' 2))) = Some false /\
    qwVisible (widgets W' 2) = false /\
    qwParent (widgets W' 2) = Some (RefDockManager 0) /\
    option_map tabParent (TabWidget (d (widgets W' 2))) =
      Some (Some (RefDockWidget 2)).
Proof.
  assert (Ht : TabWidget (d (widgets dockedWorld 2)) =
               Some {| tabText := "Build"; tabVisible := true;
                       tabParent := None; tabIcon := None |})
    by reflexivity.
  assert (Ha : ToggleViewAction (d (widgets dockedWorld 2)) =
               Some {| actText := "Build"; actCheckable := true;
                       actChecked := true; actSignalsBlocked := false;
                       actIcon := None |})
    by reflexivity.
  exact (flagAsUnassigned_leaves_widget_unassigned dockedWorld 2 _ _ Ht Ha).
Defined.

(** ** The blocks of a transition *)

Lemma dockContainer_value this W :
  dockContainer this W = Done (containerOf W this) W.
Proof.
  unfold dockContainer, containerOf, bind, getD, gets, Area_dockContainer, gets, ret.
  destruct (DockArea (d (widgets W this))); reflexivity.
Qed.

Lemma topLevelOf_value dc W : topLevelOf dc W = Done (topLevelIn W dc) W.
Proof. destruct dc; reflexivity. Qed.

Lemma toggleViewInternal_blocks this Open W :
  toggleViewInternal this Open W =
  ((if Open then showDockWidget this else hideDockWidget this) ;;
   updateClosedAndAction this Open ;;
   notifyAreaAndTopLevel this Open (topLevelIn W (containerOf W this)) ;;
   emitTransitionSignals this Open) W.
Proof.
  unfold toggleViewInternal.
  rewrite (bind_done _ _ (dockContainer_value this W)).
  rewrite (bind_done _ _ (topLevelOf_value _ W)).
  apply bind_ext. intros _ W1 _.
  unfold updateClosedAndAction, notifyAreaAndTopLevel, emitTransitionSignals.
  repeat (rewrite ?bind_assoc; apply bind_ext; intros).
  reflexivity.
Qed.

Ltac bookkeeping_steps :=
  repeat match goal with
  | |- preserves _ (ret _) => apply preserves_ret; apply bookkeeping_refl
  | |- preserves _ (gets _) => apply preserves_gets; apply bookkeeping_refl
  | |- preserves _ (getD _) => apply preserves_gets; apply bookkeeping_refl
  | |- preserves _ (deref _) => apply preserves_deref; apply bookkeeping_refl
  | |- preserves _ (trace _) =>
      apply always_preserves; apply bookkeeping_trace; reflexivity
  | |- preserves _ (bind _ _) =>
      apply preserves_bind; [apply bookkeeping_trans| |intros]
  | |- preserves _ (when _ _) => apply preserves_when; [apply bookkeeping_refl|]
  | |- preserves _ (match ?x with _ => _ end) => destruct x
  end.

Lemma bookkeeping_Floating_updateWindowTitle f :
  always bookkeeping (Floating_updateWindowTitle f).
Proof.
  intros W. exists tt. eexists. split; [reflexivity|].
  constructor; try reflexivity.
  - intros g. simpl. unfold upd. destruct (Nat.eqb g f) eqn:E; [|reflexivity].
    apply Nat.eqb_eq in E. subst. reflexivity.
  - intros g. simpl. unfold upd. destruct (Nat.eqb g f) eqn:E; [|reflexivity].
    apply Nat.eqb_eq in E. subst. reflexivity.
  - exists [FloatingUpdateWindowTitle f]. split; reflexivity.
Qed.

Lemma bookkeeping_emitTopLevelEventForWidget T Floating :
  preserves bookkeeping (emitTopLevelEventForWidget T Floating).
Proof.
  unfold emitTopLevelEventForWidget, dockAreaWidget, Area_updateTitleBarVisibility.
  bookkeeping_steps.
  apply always_preserves. apply bookkeeping_emitTopLevelChanged.
Qed.

Lemma bookkeeping_notifyAreaAndTopLevel this Open Before :
  preserves bookkeeping (notifyAreaAndTopLevel this Open Before).
Proof.
  unfold notifyAreaAndTopLevel, Area_toggleDockWidgetView, dockContainer,
    topLevelOf, Area_dockContainer, Container_topLevelDockWidget,
    Container_floatingWidget.
  bookkeeping_steps;
    try apply bookkeeping_emitTopLevelEventForWidget;
    apply always_preserves; apply bookkeeping_Floating_updateWindowTitle.
Qed.

(** Fields that bookkeeping leaves alone. *)
Lemma bookkeeping_field {X} (f : CDockWidget -> X) W W' w :
  (forall x, f (eraseToolbarState x) = f x) ->
  bookkeeping W W' -> f (widgets W' w) = f (widgets W w).
Proof.
  intros Hf B. pose proof (bk_widgets _ _ B w) as E.
  apply (f_equal f) in E. rewrite !Hf in E. exact E.
Qed.

Lemma bookkeeping_containerOf W W' this :
  bookkeeping W W' -> containerOf W' this = containerOf W this.
Proof.
  intros B. unfold containerOf.
  rewrite (bookkeeping_field (fun x => DockArea (d x)) _ _ this (fun _ => eq_refl) B).
  rewrite (bk_areas _ _ B). reflexivity.
Qed.

Lemma topLevelDockWidget_assigned W c t :
  topLevelDockWidget W c = Some t -> DockArea (d (widgets W t)) <> None.
Proof.
  unfold topLevelDockWidget.
  destruct (contIsFloating (containers W c)); [|discriminate].
  destruct (filter _ _) as [|x [|y l]] eqn:E; try discriminate.
  intros H. injection H as ->.
  assert (Hin : In t (filter (fun x => inContainer W c x && isOpen W x)
                        (seq 0 (nWidgets W)))).
  { rewrite E. left. reflexivity. }
  apply filter_In in Hin. destruct Hin as [_ Hp].
  apply andb_prop in Hp. destruct Hp as [Hc _].
  unfold inContainer in Hc.
  destruct (DockArea (d (widgets W t))); [discriminate|discriminate Hc].
Qed.

Lemma emitTopLevelEventForWidget_completes W T Floating :
  (forall t, T = Some t -> DockArea (d (widgets W t)) <> None) ->
  exists W', emitTopLevelEventForWidget T Floating W = Done tt W' /\
             bookkeeping W W'.
Proof.
  intros HT. destruct T as [t|].
  - unfold emitTopLevelEventForWidget, dockAreaWidget, bind, getD, gets, ret.
    destruct (DockArea (d (widgets W t))) as [a|] eqn:Ha.
    + simpl.
      match goal with
      | |- exists W', emitTopLevelChanged t Floating ?W1 = _ /\ _ =>
          destruct (bookkeeping_emitTopLevelChanged t Floating W1)
            as ([] & W' & E & B)
      end.
      exists W'. split; [exact E|].
      eapply bookkeeping_trans; [|exact B].
      destruct (bookkeeping_trace (AreaUpdateTitleBarVisibility a) eq_refl W)
        as ([] & W1 & E1 & B1).
      injection E1 as <-. exact B1.
    + exfalso. apply (HT t eq_refl). exact Ha.
  - exists W. split; [reflexivity|apply bookkeeping_refl].
Qed.

Lemma notifyAreaAndTopLevel_completes W this Open Before :
  (Open = true ->
   forall t, Before = Some t -> DockArea (d (widgets W t)) <> None) ->
  containerOf W this <> None ->
  exists W', notifyAreaAndTopLevel this Open Before W = Done tt W' /\
             bookkeeping W W'.
Proof.
  intros HB HC.
  unfold notifyAreaAndTopLevel.
  unfold bind at 1. unfold getD at 1, gets at 1.
  assert (S1 : exists W1,
    (match DockArea (d (widgets W this)) with
     | Some area => Area_toggleDockWidgetView area this Open
     | None => ret tt
     end) W = Done tt W1 /\ bookkeeping W W1).
  { destruct (DockArea (d (widgets W this))) as [a|].
    - destruct (bookkeeping_trace (AreaToggleDockWidgetView a this Open) eq_refl W)
        as ([] & W1 & E1 & B1).
      exists W1. split; assumption.
    - exists W. split; [reflexivity|apply bookkeeping_refl]. }
  destruct S1 as (W1 & E1 & B1).
  rewrite (bind_done _ _ E1).
  assert (S2 : exists W2,
    when (Open && isSome Before) (emitTopLevelEventForWidget Before false) W1 =
      Done tt W2 /\ bookkeeping W1 W2).
  { unfold when. destruct Open; cbn [andb isSome].
    - destruct Before as [t|]; cbn [andb isSome].
      + apply emitTopLevelEventForWidget_completes.
        intros t' Ht'. injection Ht' as <-.
        rewrite (bookkeeping_field (fun x => DockArea (d x)) _ _ t (fun _ => eq_refl) B1).
        apply HB; reflexivity.
      + exists W1. split; [reflexivity|apply bookkeeping_refl].
    - exists W1. split; [reflexivity|apply bookkeeping_refl]. }
  destruct S2 as (W2 & E2 & B2).
  rewrite (bind_done _ _ E2).
  rewrite (bind_done _ _ (dockContainer_value this W2)).
  rewrite (bind_done _ _ (topLevelOf_value _ W2)).
  assert (B02 : bookkeeping W W2) by (eapply bookkeeping_trans; eassumption).
  assert (C2 : containerOf W2 this = containerOf W this)
    by (apply bookkeeping_containerOf; exact B02).
  destruct (containerOf W this) as [c|] eqn:Ec; [|congruence].
  rewrite C2.
  destruct (emitTopLevelEventForWidget_completes W2 (topLevelIn W2 (Some c)) true)
    as (W3 & E3 & B3).
  { intros t Ht. simpl in Ht. eapply topLevelDockWidget_assigned. exact Ht. }
  rewrite (bind_done _ _ E3).
  unfold deref at 1. unfold bind at 1.
  unfold bind at 1. unfold Container_floatingWidget at 1, gets at 1.
  destruct (contFloatingWidget (containers W3 c)) as [f|].
  - destruct (bookkeeping_Floating_updateWindowTitle f W3) as ([] & W4 & E4 & B4).
    exists W4. split; [exact E4|].
    eapply bookkeeping_trans; [exact B02|].
    eapply bookkeeping_trans; eassumption.
  - exists W3. split; [reflexivity|].
    eapply bookkeeping_trans; eassumption.
Qed.

(** ** Showing *)

Lemma showHiddenSplitters_spec (ancestors : list SplitterId) :
  forall W, exists W',
    showHiddenSplitters ancestors W = Done tt W' /\
    set_log [] (set_splitterVisible (splitterVisible W) W') = set_log [] W /\
    log W' = log W ++ map SplitterShow (shownSplitters (splitterVisible W) ancestors) /\
    (forall s, splitterVisible W' s =
               splitterVisible W s ||
               existsb (Nat.eqb s) (shownSplitters (splitterVisible W) ancestors)).
Proof.
  induction ancestors as [|s up IH]; intros W.
  - exists W. split; [reflexivity|]. split; [destruct W; reflexivity|].
    split; [simpl; rewrite app_nil_r; reflexivity|].
    intros s. simpl. rewrite orb_false_r. reflexivity.
  - simpl. unfold bind at 1. unfold QSplitter_isVisible at 1, gets at 1.
    destruct (splitterVisible W s) eqn:Hs; simpl.
    + exists W. split; [reflexivity|]. split; [destruct W; reflexivity|].
      split; [rewrite app_nil_r; reflexivity|].
      intros s'. rewrite orb_false_r. reflexivity.
    + unfold QSplitter_show. unfold bind at 1. unfold bind at 1.
      unfold trace at 1.
      match goal with
      | |- exists W', showHiddenSplitters up ?W1 = _ /\ _ =>
          destruct (IH W1) as (W' & E & Ho & Hl & Hv)
      end.
      exists W'. split; [exact E|]. split; [|split].
      * apply (f_equal (set_splitterVisible (splitterVisible W))) in Ho.
        etransitivity; [exact Ho|]. destruct W; reflexivity.
      * rewrite Hl. simpl. rewrite <- app_assoc. reflexivity.
      * intros s'. rewrite Hv. simpl. unfold upd at 1.
        destruct (Nat.eqb_spec s' s) as [->|N].
        -- rewrite Hs. reflexivity.
        -- destruct (splitterVisible W s'); reflexivity.
Qed.

Lemma forallb_upd_true (vis : SplitterId -> bool) s l :
  forallb vis l = true -> forallb (upd vis s true) l = true.
Proof.
  apply forallb_weaken. intros x Hx. unfold upd.
  destruct (Nat.eqb x s); [reflexivity|exact Hx].
Qed.

Lemma hereditaryb_upd (vis : SplitterId -> bool) s l :
  ~ In s l -> hereditaryb vis l = true -> hereditaryb (upd vis s true) l = true.
Proof.
  induction l as [|x l IH]; simpl; [reflexivity|].
  intros Hn H. apply andb_prop in H. destruct H as [H1 H2].
  rewrite IH by tauto. rewrite andb_true_r.
  rewrite upd_other by (intros ->; apply Hn; left; reflexivity).
  destruct (vis x); simpl in *; [|reflexivity].
  apply forallb_upd_true. exact H1.
Qed.

(** With a well-formed chain, every splitter of the chain is visible at
    the start or is shown by the loop. *)
Lemma shownSplitters_covers_hidden (ancestors : list SplitterId) :
  forall vis, NoDup ancestors -> hereditaryb vis ancestors = true ->
  forall s, In s ancestors ->
    vis s = true \/ In s (shownSplitters vis ancestors).
Proof.
  induction ancestors as [|x up IH]; intros vis Hnd Hh s Hin; [destruct Hin|].
  simpl in Hh. apply andb_prop in Hh. destruct Hh as [H1 H2].
  inversion Hnd as [|? ? Hnx Hnd']; subst.
  simpl. destruct (vis x) eqn:Hx.
  - left. destruct Hin as [<-|Hin]; [exact Hx|].
    simpl in H1. rewrite forallb_forall in H1. apply H1. exact Hin.
  - destruct Hin as [<-|Hin]; [right; left; reflexivity|].
    destruct (IH (upd vis x true) Hnd' (hereditaryb_upd vis x up Hnx H2) s Hin)
      as [Hv|Hs].
    + assert (s <> x) by (intros ->; contradiction).
      rewrite upd_other in Hv by assumption. left. exact Hv.
    + right. right. exact Hs.
Qed.

Lemma existsb_eqb_In s l : In s l -> existsb (Nat.eqb s) l = true.
Proof.
  intros H. apply existsb_exists. exists s. split; [exact H|apply Nat.eqb_refl].
Qed.

Lemma Area_toggleView_run a b W :
  Area_toggleView a b W =
  Done tt (set_log (log W ++ [AreaToggleView a b])
             (set_areas (upd (areas W) a (set_areaVisible b (areas W a))) W)).
Proof. reflexivity. Qed.

Lemma Area_setCurrentDockWidget_run a w W :
  Area_setCurrentDockWidget a w W =
  Done tt (set_log (log W ++ [AreaSetCurrentDockWidget a w])
             (set_areas (upd (areas W) a (set_areaCurrent (Some w) (areas W a))) W)).
Proof. reflexivity. Qed.

Lemma Area_hideAreaWithNoVisibleContent_run a W :
  Area_hideAreaWithNoVisibleContent a W =
  Done tt (set_log (log W ++ [AreaHideAreaWithNoVisibleContent a])
             (set_areas (upd (areas W) a (set_areaVisible false (areas W a))) W)).
Proof. reflexivity. Qed.

Lemma Tab_show_run this tab W :
  TabWidget (d (widgets W this)) = Some tab ->
  Tab_show this W =
  Done tt (set_log (log W ++ [TabShow this])
             (set_widgets
                (upd (widgets W) this
                   (set_d (set_TabWidget (Some (set_tabVisible true tab)))
                      (widgets W this))) W)).
Proof.
  intros H. unfold Tab_show, modifyTab, bind, getD, gets, deref.
  rewrite H. reflexivity.
Qed.

Lemma Tab_hide_run this tab W :
  TabWidget (d (widgets W this)) = Some tab ->
  Tab_hide this W =
  Done tt (set_log (log W ++ [TabHide this])
             (set_widgets
                (upd (widgets W) this
                   (set_d (set_TabWidget (Some (set_tabVisible false tab)))
                      (widgets W this))) W)).
Proof.
  intros H. unfold Tab_hide, modifyTab, bind, getD, gets, deref.
  rewrite H. reflexivity.
Qed.

Lemma Floating_show_run f W :
  Floating_show f W =
  Done tt (set_log (log W ++ [FloatingShow f])
             (set_floatings
                (upd (floatings W) f (set_floatVisible true (floatings W f))) W)).
Proof. reflexivity. Qed.

Lemma Floating_resize_run f sz W :
  Floating_resize f sz W =
  Done tt (set_log (log W ++ [FloatingResize f sz])
             (set_floatings
                (upd (floatings W) f (set_floatSize sz (floatings W f))) W)).
Proof. reflexivity. Qed.

Lemma getD_run this W : getD this W = Done (d (widgets W this)) W.
Proof. reflexivity. Qed.

(** [showDockWidget] on a dock widget assigned to an area. *)
Lemma showDockWidget_assigned (W : World) (this : WidgetId) (a : AreaId)
    (tab : CDockWidgetTab) (c : ContainerId) :
  DockArea (d (widgets W this)) = Some a ->
  TabWidget (d (widgets W this)) = Some tab ->
  areaContainer (areas W a) = Some c ->
  (contIsFloating (containers W c) = true ->
   contFloatingWidget (containers W c) <> None) ->
  exists W1,
    showDockWidget this W = Done tt W1 /\
    widgets W1 this =
      set_d (set_TabWidget (Some (set_tabVisible true tab))) (widgets W this) /\
    (forall w, w <> this -> widgets W1 w = widgets W w) /\
    nWidgets W1 = nWidgets W /\
    areas W1 a = set_areaCurrent (Some this) (set_areaVisible true (areas W a)) /\
    (forall b, b <> a -> areas W1 b = areas W b) /\
    containers W1 = containers W /\
    (forall s, splitterVisible W1 s =
       splitterVisible W s ||
       existsb (Nat.eqb s)
         (shownSplitters (splitterVisible W) (areaSplitters (areas W a)))) /\
    (forall f, contIsFloating (containers W c) = true ->
               contFloatingWidget (containers W c) = Some f ->
               floatVisible (floatings W1 f) = true) /\
    log W1 = log W ++
      [AreaToggleView a true; AreaSetCurrentDockWidget a this; TabShow this] ++
      map SplitterShow
        (shownSplitters (splitterVisible W) (areaSplitters (areas W a))) ++
      floatingShows W c.
Proof.
  intros Harea Htab Hcont Hfloat.
  unfold showDockWidget.
  rewrite (bind_done _ _ (getD_run this W)). rewrite Harea.
  rewrite (bind_done _ _ (Area_toggleView_run a true W)).
  rewrite (bind_done _ _ (Area_setCurrentDockWidget_run a this _)).
  match goal with
  | |- context [bind (Tab_show this) _ ?Wc] =>
      rewrite (bind_done _ _ (Tab_show_run this tab Wc Htab))
  end.
  unfold bind at 1. unfold Area_splitterAncestors at 1, gets at 1.
  cbn [areas set_log set_widgets set_areas]. rewrite upd_same.
  cbn [areaSplitters set_areaCurrent]. rewrite upd_same.
  cbn [areaSplitters set_areaVisible].
  match goal with
  | |- exists W1, bind (showHiddenSplitters ?l) _ ?Wa = _ /\ _ =>
      destruct (showHiddenSplitters_spec l Wa) as (Wb & Eb & Ho & Hl & Hv)
  end.
  rewrite (bind_done _ _ Eb).
  pose proof (f_equal widgets Ho) as Hw. cbn in Hw.
  pose proof (f_equal areas Ho) as Ha. cbn in Ha.
  pose proof (f_equal containers Ho) as Hc. cbn in Hc.
  pose proof (f_equal floatings Ho) as Hf. cbn in Hf.
  pose proof (f_equal nWidgets Ho) as Hn. cbn in Hn.
  cbn in Hl. cbn in Hv.
  unfold bind at 1. unfold Area_dockContainer at 1, gets at 1.
  rewrite Ha. rewrite !upd_same. cbn [areaContainer set_areaCurrent set_areaVisible].
  rewrite Hcont. unfold bind at 1. unfold deref at 1.
  unfold bind at 1. unfold Container_isFloating at 1, gets at 1.
  rewrite Hc. unfold floatingShows.
  destruct (contIsFloating (containers W c)) eqn:Hfl.
  - unfold bind at 1. unfold Container_floatingWidget at 1, gets at 1.
    rewrite Hc.
    destruct (contFloatingWidget (containers W c)) as [f|] eqn:Hown;
      [|exfalso; apply Hfloat; reflexivity].
    unfold bind at 1. unfold deref at 1.
    eexists. split; [apply Floating_show_run|].
    cbn. rewrite Hw, Hn, Ha, Hc, Hl.
    split; [apply upd_same|].
    split; [intros w Hne; apply upd_other; exact Hne|].
    split; [reflexivity|].
    split; [rewrite !upd_same; reflexivity|].
    split; [intros b Hne; rewrite !upd_other by exact Hne; reflexivity|].
    split; [reflexivity|].
    split; [exact Hv|].
    split; [intros f' _ Hf'; injection Hf' as <-; rewrite upd_same; reflexivity|].
    rewrite <- !app_assoc. reflexivity.
  - eexists. split; [reflexivity|].
    rewrite Hw, Hn, Ha, Hc, Hl.
    split; [apply upd_same|].
    split; [intros w Hne; apply upd_other; exact Hne|].
    split; [reflexivity|].
    split; [rewrite !upd_same; reflexivity|].
    split; [intros b Hne; rewrite !upd_other by exact Hne; reflexivity|].
    split; [reflexivity|].
    split; [exact Hv|].
    split; [intros f' Hx; discriminate Hx|].
    rewrite app_nil_r, <- !app_assoc. reflexivity.
Qed.


Lemma gets_run {A} (f : World -> A) W : gets f W = Done (f W) W.
Proof. reflexivity. Qed.

(** [showDockWidget] on a dock widget without dock area. *)
Lemma showDockWidget_unassigned (W : World) (this : WidgetId) (act : QAction) :
  DockArea (d (widgets W this)) = None ->
  ToggleViewAction (d (widgets W this)) = Some act ->
  exists W1 sig,
    showDockWidget this W = Done tt W1 /\
    widgets W1 this =
      set_d (fun p =>
               set_ToggleViewAction
                 (Some (set_actChecked
                          (actCheckable act &&
                           negb (Closed (d (widgets W this)))) act))
                 (set_DockArea (Some (nAreas W)) p))
            (widgets W this) /\
    (forall w, w <> this -> widgets W1 w = widgets W w) /\
    nWidgets W1 = nWidgets W /\
    areas W1 (nAreas W) =
      {| areaVisible := true; areaCurrent := Some this;
         areaContainer := Some (nContainers W); areaSplitters := [];
         areaMenuOutdated := false |} /\
    containers W1 (nContainers W) =
      {| contIsFloating := true; contFloatingWidget := Some (nFloatings W) |} /\
    floatings W1 (nFloatings W) =
      {| floatVisible := true; floatSize := qwSize (widgets W this);
         floatTitleUpdates := 0 |} /\
    log W1 = log W ++ [NewFloatingDockContainer (nFloatings W) this] ++ sig ++
               [FloatingResize (nFloatings W) (qwSize (widgets W this));
                FloatingShow (nFloatings W)] /\
    Forall (fun e => exists b, e = ActionEmits this (Toggled b)) sig.
Proof.
  intros Harea Hact.
  unfold showDockWidget.
  rewrite (bind_done _ _ (getD_run this W)). rewrite Harea.
  unfold CFloatingDockContainer_new.
  rewrite !bind_assoc.
  rewrite (bind_done _ _ (gets_run nFloatings W)).
  rewrite bind_assoc.
  rewrite (bind_done _ _ (gets_run nContainers W)).
  rewrite bind_assoc.
  rewrite (bind_done _ _ (gets_run nAreas W)).
  rewrite bind_assoc.
  unfold bind at 1. cbv beta iota.
  rewrite bind_assoc.
  match goal with
  | |- exists W1 sig, bind (setDockArea this ?ar) _ ?W0 = _ /\ _ =>
      destruct (setDockArea_spec W0 this ar act Hact)
        as (Wd & Ed & Hd & Ho & Hr & sig & Hl & Hs);
      rewrite (bind_done _ _ Ed)
  end.
  cbn [widgets nWidgets areas containers floatings log isSome andb set_log
       set_widgets nAreas nContainers nFloatings] in Hd, Ho, Hr, Hl.
  unfold bind at 1. unfold ret at 1.
  unfold getWidget. rewrite (bind_done _ _ (gets_run _ Wd)).
  rewrite (bind_done _ _ (Floating_resize_run _ _ Wd)).
  pose proof (f_equal areas Hr) as Ha.
  pose proof (f_equal containers Hr) as Hc.
  pose proof (f_equal floatings Hr) as Hf.
  pose proof (f_equal nWidgets Hr) as Hn.
  cbn [widgets nWidgets areas containers floatings log set_log set_widgets]
    in Ha, Hc, Hf, Hn.
  eexists. exists sig.
  split; [apply Floating_show_run|].
  cbn [widgets nWidgets areas containers floatings log set_log set_widgets
       set_floatings].
  rewrite Ha, Hc, Hf, Hn, Hl, Hd. rewrite !upd_same.
  split; [reflexivity|].
  split; [exact Ho|].
  split; [reflexivity|]. split; [reflexivity|]. split; [reflexivity|].
  split; [reflexivity|].
  split; [rewrite <- !app_assoc; reflexivity|exact Hs].
Qed.

Lemma showDockWidget_unassigned_null (W : World) (this : WidgetId) :
  DockArea (d (widgets W this)) = None ->
  ToggleViewAction (d (widgets W this)) = None ->
  completes (showDockWidget this W) = false.
Proof.
  intros Harea Hact.
  unfold showDockWidget.
  rewrite (bind_done _ _ (getD_run this W)). rewrite Harea.
  unfold CFloatingDockContainer_new.
  rewrite !bind_assoc.
  rewrite (bind_done _ _ (gets_run nFloatings W)).
  rewrite bind_assoc.
  rewrite (bind_done _ _ (gets_run nContainers W)).
  rewrite bind_assoc.
  rewrite (bind_done _ _ (gets_run nAreas W)).
  rewrite bind_assoc.
  unfold bind at 1. cbv beta iota.
  rewrite bind_assoc.
  unfold setDockArea. rewrite !bind_assoc.
  unfold bind at 1. unfold modifyD at 1, modifyWidget at 1.
  rewrite bind_assoc.
  unfold bind at 1. unfold isClosed at 1, bind at 1, getD at 1, gets at 1, ret at 1.
  unfold QAction_setChecked. rewrite !bind_assoc.
  unfold bind at 1. unfold getD at 1, gets at 1.
  rewrite bind_assoc.
  cbn [widgets set_widgets]. rewrite upd_same.
  cbn [d set_d ToggleViewAction set_DockArea]. rewrite Hact.
  reflexivity.
Qed.

(** ** Hiding *)

Ltac run_gets :=
  match goal with
  | |- context [bind (getD ?t) ?k ?Wc] =>
      rewrite (bind_done (getD t) k (getD_run t Wc))
  | |- context [bind (gets ?f) ?k ?Wc] =>
      rewrite (bind_done (gets f) k (gets_run f Wc))
  end.

Lemma find_ext_in {A} (f g : A -> bool) (l : list A) :
  (forall x, In x l -> f x = g x) -> find f l = find g l.
Proof.
  induction l as [|x l IH]; intros H; simpl; [reflexivity|].
  rewrite (H x (or_introl eq_refl)).
  destruct (g x); [reflexivity|].
  apply IH. intros y Hy. apply H. right. exact Hy.
Qed.

Lemma nextOpenDockWidget_ext W W' a w :
  nWidgets W' = nWidgets W ->
  (forall x, DockArea (d (widgets W' x)) = DockArea (d (widgets W x))) ->
  (forall x, Closed (d (widgets W' x)) = Closed (d (widgets W x))) ->
  nextOpenDockWidget W' a w = nextOpenDockWidget W a w.
Proof.
  intros Hn Ha Hc. unfold nextOpenDockWidget. rewrite Hn.
  apply find_ext_in. intros x _.
  unfold assignedTo, isOpen. rewrite Ha, Hc. reflexivity.
Qed.

Lemma updateParentDockArea_assigned W this a :
  DockArea (d (widgets W this)) = Some a ->
  updateParentDockArea this W =
  match nextOpenDockWidget W a this with
  | Some next => Area_setCurrentDockWidget a next W
  | None => Area_hideAreaWithNoVisibleContent a W
  end.
Proof.
  intros H. unfold updateParentDockArea.
  run_gets. rewrite H. unfold Area_nextOpenDockWidget. run_gets.
  destruct (nextOpenDockWidget W a this); reflexivity.
Qed.

(** [hideDockWidget] on a dock widget assigned to an area. *)
Lemma hideDockWidget_assigned (W : World) (this : WidgetId) (a : AreaId)
    (tab : CDockWidgetTab) :
  DockArea (d (widgets W this)) = Some a ->
  TabWidget (d (widgets W this)) = Some tab ->
  exists W1,
    hideDockWidget this W = Done tt W1 /\
    widgets W1 this =
      set_d (set_TabWidget (Some (set_tabVisible false tab))) (widgets W this) /\
    (forall w, w <> this -> widgets W1 w = widgets W w) /\
    nWidgets W1 = nWidgets W /\
    containers W1 = containers W /\
    (forall b, b <> a -> areas W1 b = areas W b) /\
    match nextOpenDockWidget W a this with
    | Some next =>
        areas W1 a = set_areaCurrent (Some next) (areas W a) /\
        log W1 = log W ++ [TabHide this; AreaSetCurrentDockWidget a next]
    | None =>
        areas W1 a = set_areaVisible false (areas W a) /\
        log W1 = log W ++ [TabHide this; AreaHideAreaWithNoVisibleContent a]
    end.
Proof.
  intros Harea Htab.
  unfold hideDockWidget.
  rewrite (bind_done _ _ (Tab_hide_run this tab W Htab)).
  match goal with
  | |- context [updateParentDockArea this ?Wc] =>
      assert (Ht : DockArea (d (widgets Wc this)) = Some a)
        by (cbn [widgets set_log set_widgets]; rewrite upd_same; exact Harea);
      rewrite (updateParentDockArea_assigned Wc this a Ht);
      rewrite (nextOpenDockWidget_ext W Wc a this)
  end.
  2:{ reflexivity. }
  2:{ intros x. cbn [widgets set_log set_widgets]. unfold upd.
      destruct (Nat.eqb_spec x this); [subst; reflexivity|reflexivity]. }
  2:{ intros x. cbn [widgets set_log set_widgets]. unfold upd.
      destruct (Nat.eqb_spec x this); [subst; reflexivity|reflexivity]. }
  destruct (nextOpenDockWidget W a this) as [next|].
  - eexists. split; [apply Area_setCurrentDockWidget_run|].
    cbn [widgets nWidgets areas containers log set_log set_widgets set_areas].
    split; [apply upd_same|].
    split; [intros w Hne; apply upd_other; exact Hne|].
    split; [reflexivity|]. split; [reflexivity|].
    split; [intros b Hne; apply upd_other; exact Hne|].
    split; [apply upd_same|].
    rewrite <- app_assoc. reflexivity.
  - eexists. split; [apply Area_hideAreaWithNoVisibleContent_run|].
    cbn [widgets nWidgets areas containers log set_log set_widgets set_areas].
    split; [apply upd_same|].
    split; [intros w Hne; apply upd_other; exact Hne|].
    split; [reflexivity|]. split; [reflexivity|].
    split; [intros b Hne; apply upd_other; exact Hne|].
    split; [apply upd_same|].
    rewrite <- app_assoc. reflexivity.
Qed.

(** [hideDockWidget] on a dock widget without dock area. *)
Lemma hideDockWidget_unassigned (W : World) (this : WidgetId)
    (tab : CDockWidgetTab) :
  DockArea (d (widgets W this)) = None ->
  TabWidget (d (widgets W this)) = Some tab ->
  hideDockWidget this W =
  Done tt (set_log (log W ++ [TabHide this])
             (set_widgets
                (upd (widgets W) this
                   (set_d (set_TabWidget (Some (set_tabVisible false tab)))
                      (widgets W this))) W)).
Proof.
  intros Harea Htab.
  unfold hideDockWidget.
  rewrite (bind_done _ _ (Tab_hide_run this tab W Htab)).
  unfold updateParentDockArea.
  run_gets.
  cbn [widgets set_log set_widgets]. rewrite upd_same.
  cbn [d set_d DockArea set_TabWidget]. rewrite Harea.
  reflexivity.
Qed.

(** ** A whole transition *)

Lemma emitTransitionSignals_run this Open W :
  emitTransitionSignals this Open W =
  Done tt (set_log (log W ++ (if Open then [] else [EmitClosed this]) ++
                    [EmitViewToggled this Open]) W).
Proof.
  destruct Open; unfold emitTransitionSignals, when, bind, trace, ret; simpl.
  - reflexivity.
  - rewrite <- app_assoc. reflexivity.
Qed.

(** What a completed transition did after its show or hide step. *)
Lemma toggleViewInternal_inv (W : World) (this : WidgetId) (Open : bool)
    (W' : World) :
  toggleViewInternal this Open W = Done tt W' ->
  exists W1 act W2 W3,
    (if Open then showDockWidget this else hideDockWidget this) W = Done tt W1 /\
    ToggleViewAction (d (widgets W1 this)) = Some act /\
    widgets W2 this =
      set_d (fun p =>
               set_ToggleViewAction
                 (Some (set_actSignalsBlocked false
                         (set_actChecked (actCheckable act && Open) act)))
                 (set_Closed (negb Open) p))
            (widgets W1 this) /\
    (forall w, w <> this -> widgets W2 w = widgets W1 w) /\
    set_widgets (widgets W1) W2 = W1 /\
    bookkeeping W2 W3 /\
    W' = set_log (log W3 ++ (if Open then [] else [EmitClosed this]) ++
                  [EmitViewToggled this Open]) W3.
Proof.
  intros H. rewrite toggleViewInternal_blocks in H.
  apply bind_inv in H. destruct H as ([] & W1 & E1 & H).
  apply bind_inv in H. destruct H as ([] & W2 & E2 & H).
  apply bind_inv in H. destruct H as ([] & W3 & E3 & H).
  rewrite emitTransitionSignals_run in H. injection H as <-.
  destruct (ToggleViewAction (d (widgets W1 this))) as [act|] eqn:Hact.
  - destruct (updateClosedAndAction_spec W1 this Open act Hact)
      as (W2' & E2' & Hd & Ho & Hr).
    rewrite E2 in E2'. injection E2' as <-.
    exists W1, act, W2, W3.
    split; [exact E1|]. split; [exact Hact|].
    split; [exact Hd|]. split; [exact Ho|]. split; [exact Hr|].
    split; [|reflexivity].
    pose proof (bookkeeping_notifyAreaAndTopLevel this Open
                  (topLevelIn W (containerOf W this)) W2) as B.
    rewrite E3 in B. exact B.
  - destruct (updateClosedAndAction_null W1 this Open Hact) as [Hc _].
    rewrite E2 in Hc. discriminate Hc.
Qed.

(** When a transition completes. *)
Lemma toggleViewInternal_completes (W : World) (this : WidgetId) (Open : bool)
    (W1 : World) (act : QAction) :
  (if Open then showDockWidget this else hideDockWidget this) W = Done tt W1 ->
  ToggleViewAction (d (widgets W1 this)) = Some act ->
  (Open = true ->
   forall t, topLevelIn W (containerOf W this) = Some t ->
             DockArea (d (widgets W1 t)) <> None) ->
  containerOf W1 this <> None ->
  exists W', toggleViewInternal this Open W = Done tt W'.
Proof.
  intros E1 Hact HB HC.
  rewrite toggleViewInternal_blocks.
  rewrite (bind_done _ _ E1).
  destruct (updateClosedAndAction_spec W1 this Open act Hact)
    as (W2 & E2 & Hd & Ho & Hr).
  rewrite (bind_done _ _ E2).
  assert (HA : forall x, DockArea (d (widgets W2 x)) = DockArea (d (widgets W1 x))).
  { intros x. destruct (Nat.eq_dec x this) as [->|N].
    - rewrite Hd. reflexivity.
    - rewrite (Ho x N). reflexivity. }
  destruct (notifyAreaAndTopLevel_completes W2 this Open
              (topLevelIn W (containerOf W this))) as (W3 & E3 & B3).
  - intros HO t Ht. rewrite HA. apply HB; assumption.
  - unfold containerOf. rewrite HA.
    replace (areas W2) with (areas W1); [exact HC|].
    exact (eq_sym (f_equal areas Hr)).
  - rewrite (bind_done _ _ E3). rewrite emitTransitionSignals_run.
    eexists. reflexivity.
Qed.

Lemma toggleViewInternal_tail (W : World) (this : WidgetId) (Open : bool)
    (W' : World) :
  toggleViewInternal this Open W = Done tt W' ->
  exists W1 act,
    (if Open then showDockWidget this else hideDockWidget this) W = Done tt W1 /\
    ToggleViewAction (d (widgets W1 this)) = Some act /\
    transitionTail this Open act W1 W'.
Proof.
  intros H. apply toggleViewInternal_inv in H.
  destruct H as (W1 & act & W2 & W3 & E1 & Hact & Hd & Ho & Hr & B & ->).
  exists W1, act. split; [exact E1|]. split; [exact Hact|].
  destruct B as [b1 b2 b3 b4 b5 b6 b7 b8 b9 b10 (rest & Hl & Hq)].
  constructor; cbn [widgets nWidgets areas containers floatings splitterVisible
                    log set_log].
  - rewrite b1, Hd. reflexivity.
  - intros w Hw. rewrite b1, (Ho w Hw). reflexivity.
  - rewrite b2. exact (f_equal nWidgets Hr).
  - rewrite b3. exact (f_equal areas Hr).
  - rewrite b5. exact (f_equal containers Hr).
  - intros f. rewrite b7.
    exact (f_equal (fun X => floatVisible (floatings X f)) Hr).
  - intros f. rewrite b8.
    exact (f_equal (fun X => floatSize (floatings X f)) Hr).
  - rewrite b10. exact (f_equal splitterVisible Hr).
  - exists rest. split; [|exact Hq].
    rewrite Hl. replace (log W2) with (log W1) by exact (eq_sym (f_equal log Hr)).
    rewrite <- !app_assoc. reflexivity.
Qed.

(** Fields of the widget after the tail of a transition. *)
Lemma transitionTail_this_field {X} (g : CDockWidget -> X) {this Open act W1 W'} :
  (forall x, g (eraseToolbarState x) = g x) ->
  transitionTail this Open act W1 W' ->
  g (widgets W' this) =
  g (set_d (fun p =>
              set_ToggleViewAction
                (Some (set_actSignalsBlocked false
                         (set_actChecked (actCheckable act && Open) act)))
                (set_Closed (negb Open) p))
           (widgets W1 this)).
Proof.
  intros Hg T. pose proof (tt_this _ _ _ _ _ T) as E.
  apply (f_equal g) in E. rewrite !Hg in E. exact E.
Qed.

(** ** Operations that keep every dock area reference *)

Lemma keepsAssignment_refl W : keepsAssignment W W.
Proof. intros w. reflexivity. Qed.

Lemma keepsAssignment_trans W1 W2 W3 :
  keepsAssignment W1 W2 -> keepsAssignment W2 W3 -> keepsAssignment W1 W3.
Proof. intros H1 H2 w. rewrite H2. apply H1. Qed.

Lemma keepsAssignment_modifyD this f :
  (forall p, DockArea (f p) = DockArea p) ->
  preserves keepsAssignment (modifyD this f).
Proof.
  intros Hf W w. simpl. unfold upd.
  destruct (Nat.eqb_spec w this); [subst; simpl; apply Hf|reflexivity].
Qed.

Ltac keeps_steps :=
  repeat match goal with
  | |- preserves _ (ret _) => apply preserves_ret; apply keepsAssignment_refl
  | |- preserves _ (gets _) => apply preserves_gets; apply keepsAssignment_refl
  | |- preserves _ (getD _) => apply preserves_gets; apply keepsAssignment_refl
  | |- preserves _ (deref _) => apply preserves_deref; apply keepsAssignment_refl
  | |- preserves _ (trace _) => intros ? ?; reflexivity
  | |- preserves _ (modifyArea _ _) => intros ? ?; reflexivity
  | |- preserves _ (modifyFloating _ _) => intros ? ?; reflexivity
  | |- preserves _ (modifyD _ _) =>
      apply keepsAssignment_modifyD; intros; reflexivity
  | |- preserves _ (bind _ _) =>
      apply preserves_bind; [apply keepsAssignment_trans| |intros]
  | |- preserves _ (when _ _) =>
      apply preserves_when; [apply keepsAssignment_refl|]
  | |- preserves _ (match ?x with _ => _ end) => destruct x
  end.

Lemma keepsAssignment_showHiddenSplitters l :
  preserves keepsAssignment (showHiddenSplitters l).
Proof.
  intros W. destruct (showHiddenSplitters_spec l W) as (W' & E & Ho & _).
  rewrite E. intros w. simpl.
  exact (f_equal (fun X => DockArea (d (widgets X w))) Ho).
Qed.

Lemma showDockWidget_assigns (W : World) (this : WidgetId) (W1 : World) :
  showDockWidget this W = Done tt W1 ->
  DockArea (d (widgets W1 this)) <> None.
Proof.
  intros H.
  destruct (DockArea (d (widgets W this))) as [a|] eqn:Harea.
  - assert (K : keepsAssignment W W1).
    { unfold showDockWidget in H. rewrite (bind_done _ _ (getD_run this W)) in H.
      rewrite Harea in H.
      match type of H with
      | ?m W = _ => assert (P : preserves keepsAssignment m)
      end.
      { unfold Area_toggleView, Area_setCurrentDockWidget, Tab_show, modifyTab,
          Area_splitterAncestors, Area_dockContainer, Container_isFloating,
          Container_floatingWidget, Floating_show.
        keeps_steps; apply keepsAssignment_showHiddenSplitters. }
      specialize (P W). rewrite H in P. exact P. }
    rewrite K, Harea. discriminate.
  - destruct (ToggleViewAction (d (widgets W this))) as [act|] eqn:Hact.
    + destruct (showDockWidget_unassigned W this act Harea Hact)
        as (W1' & sig & E & Hd & _).
      rewrite H in E. injection E as <-. rewrite Hd. discriminate.
    + pose proof (showDockWidget_unassigned_null W this Harea Hact) as N.
      rewrite H in N. discriminate N.
Qed.

Lemma setDockArea_null (W : World) (this : WidgetId) (area : option AreaId) :
  ToggleViewAction (d (widgets W this)) = None ->
  completes (setDockArea this area W) = false.
Proof.
  intros Hact.
  unfold setDockArea, isClosed, QAction_setChecked, bind, modifyD, modifyWidget,
    getD, gets, deref, ret.
  simpl. rewrite upd_same. simpl. rewrite Hact. reflexivity.
Qed.

(** ** The toggle action mirrors the state *)

(** C2, as amended: when [setDockArea] returns, and when a real transition
    ([toggleViewInternal]) returns, the toggle action is checked exactly
    when it is checkable, the dock area reference is not null and the
    widget is not closed.  A checkable action is thus checked exactly
    when the widget is assigned and open, and an action in the show-only
    mode stays unchecked. *)
Theorem toggle_action_checked_iff_checkable_assigned_and_open :
  forall (W : World) (this : WidgetId),
    (forall (area : option AreaId) (W' : World),
       setDockArea this area W = Done tt W' ->
       toggleActionMirrors W' this /\
       option_map actCheckable (ToggleViewAction (d (widgets W' this))) =
         option_map actCheckable (ToggleViewAction (d (widgets W this)))) /\
    (forall (Open : bool) (W' : World),
       toggleViewInternal this Open W = Done tt W' ->
       toggleActionMirrors W' this) /\
    (forall W',
       toggleActionMirrors W' this ->
       option_map actCheckable (ToggleViewAction (d (widgets W' this))) =
         Some true ->
       toggleActionInSync W' this).
Proof.
  intros W this. split; [|split].
  - intros area W' H.
    destruct (ToggleViewAction (d (widgets W this))) as [act|] eqn:Hact.
    + destruct (setDockArea_spec W this area act Hact) as (W2 & E & Hd & _).
      rewrite H in E. injection E as <-.
      unfold toggleActionMirrors. rewrite Hd. split; [|reflexivity].
      eexists. split; reflexivity.
    + pose proof (setDockArea_null W this area Hact) as N.
      rewrite H in N. discriminate N.
  - intros Open W' H.
    destruct (toggleViewInternal_tail W this Open W' H)
      as (W1 & act & E1 & Hact & T).
    unfold toggleActionMirrors.
    rewrite (transitionTail_this_field (fun x => ToggleViewAction (d x))
               (fun _ => eq_refl) T).
    rewrite (transitionTail_this_field (fun x => DockArea (d x))
               (fun _ => eq_refl) T).
    rewrite (transitionTail_this_field (fun x => Closed (d x))
               (fun _ => eq_refl) T).
    eexists. split; [reflexivity|].
    cbn. destruct Open.
    + apply showDockWidget_assigns in E1.
      destruct (DockArea (d (widgets W1 this))); [reflexivity|congruence].
    + rewrite !andb_false_r. reflexivity.
  - intros W' (act & Hact & Hc) Hk. unfold toggleActionInSync.
    rewrite Hact in *. cbn in Hk. injection Hk as Hk. rewrite Hk in Hc.
    cbn. rewrite Hc. reflexivity.
Qed.

(** C2 as stated fails in the show-only mode: Logs, open and assigned to
    its area, is put into that mode and [setDockArea] is called with the
    area; the call returns and the action is not checked. *)
Lemma show_mode_action_unchecked_though_assigned_and_open :
  exists W',
    setDockArea 0 (Some 0) showModeWorld = Done tt W' /\
    isSome (DockArea (d (widgets W' 0))) && negb (Closed (d (widgets W' 0))) =
      true /\
    option_map actChecked (ToggleViewAction (d (widgets W' 0))) = Some false /\
    ~ toggleActionInSync W' 0.
Proof.
  exists (outWorld (setDockArea 0 (Some 0) showModeWorld)).
  split; [vm_compute; reflexivity|].
  split; [vm_compute; reflexivity|].
  split; [vm_compute; reflexivity|].
  unfold toggleActionInSync.
  assert (A : option_map actChecked
                (ToggleViewAction
                   (d (widgets (outWorld (setDockArea 0 (Some 0) showModeWorld))
                         0))) = Some false) by (vm_compute; reflexivity).
  assert (B : isSome (DockArea
                (d (widgets (outWorld (setDockArea 0 (Some 0) showModeWorld)) 0)))
              && negb (Closed
                (d (widgets (outWorld (setDockArea 0 (Some 0) showModeWorld)) 0)))
              = true) by (vm_compute; reflexivity).
  rewrite A, B. discriminate.
Qed.

(** ** Opening *)

Lemma transitionTail_log_prefix {this Open act W1 W' pre} :
  transitionTail this Open act W1 W' ->
  log W1 = pre ->
  exists rest,
    log W' = pre ++ rest ++ (if Open then [] else [EmitClosed this]) ++
               [EmitViewToggled this Open] /\
    forallb quiet rest = true.
Proof.
  intros T <-. exact (tt_log _ _ _ _ _ T).
Qed.

(** C4, as amended: a real open transition.  On a dock widget without
    dock area that is closed, it makes a new floating container, resizes
    it to the size of the widget and shows it; the widget then sits in the
    container of that floating container, [isClosed] answers false and the
    toggle action is checked if it is checkable (in the show-only mode it
    stays unchecked).  On a dock widget assigned to an area (the area has
    a dock container, a floating dock container has its floating
    container, the splitters above the area are well formed), it asks the
    area to become visible, makes the widget current, shows the tab, shows
    the hidden splitters above the area, and shows the owning floating
    container when the dock container is floating. *)
Theorem open_transition_shows_widget :
  forall (W : World) (this : WidgetId) (act : QAction),
    ToggleViewAction (d (widgets W this)) = Some act ->
    (DockArea (d (widgets W this)) = None ->
     Closed (d (widgets W this)) = true ->
     exists W' sig rest,
       toggleViewInternal this true W = Done tt W' /\
       log W' = log W ++ [NewFloatingDockContainer (nFloatings W) this] ++ sig ++
                  [FloatingResize (nFloatings W) (qwSize (widgets W this));
                   FloatingShow (nFloatings W)] ++ rest ++
                  [EmitViewToggled this true] /\
       Forall (fun e => exists b, e = ActionEmits this (Toggled b)) sig /\
       forallb quiet rest = true /\
       floatVisible (floatings W' (nFloatings W)) = true /\
       floatSize (floatings W' (nFloatings W)) = qwSize (widgets W this) /\
       containerOf W' this = Some (nContainers W) /\
       containers W' (nContainers W) =
         {| contIsFloating := true; contFloatingWidget := Some (nFloatings W) |} /\
       isClosed this W' = Done false W' /\
       option_map actChecked (ToggleViewAction (d (widgets W' this))) =
         Some (actCheckable act)) /\
    (forall (a : AreaId) (tab : CDockWidgetTab) (c : ContainerId),
     DockArea (d (widgets W this)) = Some a ->
     TabWidget (d (widgets W this)) = Some tab ->
     areaContainer (areas W a) = Some c ->
     (contIsFloating (containers W c) = true ->
      contFloatingWidget (containers W c) <> None) ->
     wellFormedAncestors W a ->
     exists W' rest,
       toggleViewInternal this true W = Done tt W' /\
       log W' = log W ++
         [AreaToggleView a true; AreaSetCurrentDockWidget a this; TabShow this] ++
         map SplitterShow
           (shownSplitters (splitterVisible W) (areaSplitters (areas W a))) ++
         floatingShows W c ++ rest ++ [EmitViewToggled this true] /\
       forallb quiet rest = true /\
       areaVisible (areas W' a) = true /\
       areaCurrent (areas W' a) = Some this /\
       option_map tabVisible (TabWidget (d (widgets W' this))) = Some true /\
       (forall s, In s (areaSplitters (areas W a)) ->
          splitterVisible W' s = true /\
          (splitterVisible W s = false ->
           In s (shownSplitters (splitterVisible W) (areaSplitters (areas W a))))) /\
       (forall f, contIsFloating (containers W c) = true ->
          contFloatingWidget (containers W c) = Some f ->
          floatVisible (floatings W' f) = true /\
          floatingShows W c = [FloatingShow f])).
Proof.
  intros W this act Hact. split.
  - intros Harea Hclosed.
    destruct (showDockWidget_unassigned W this act Harea Hact)
      as (W1 & sig & E1 & Hd & Ho & Hn & Ha & Hc & Hf & Hl & Hs).
    assert (Hact1 : ToggleViewAction (d (widgets W1 this)) =
                    Some (set_actChecked
                            (actCheckable act &&
                             negb (Closed (d (widgets W this)))) act)).
    { rewrite Hd. reflexivity. }
    destruct (toggleViewInternal_completes W this true W1 _ E1 Hact1)
      as (W' & E).
    { intros _ t Ht. unfold containerOf in Ht. rewrite Harea in Ht.
      discriminate Ht. }
    { unfold containerOf. rewrite Hd. cbn. rewrite Ha. discriminate. }
    destruct (toggleViewInternal_tail W this true W' E)
      as (W1' & act' & E1' & Hact' & T).
    rewrite E1 in E1'. injection E1' as <-.
    destruct (transitionTail_log_prefix T Hl) as (rest & Hlog & Hq).
    exists W', sig, rest.
    split; [exact E|].
    split; [rewrite Hlog; rewrite <- !app_assoc; reflexivity|].
    split; [exact Hs|]. split; [exact Hq|].
    split; [rewrite (tt_floatVisible _ _ _ _ _ T), Hf; reflexivity|].
    split; [rewrite (tt_floatSize _ _ _ _ _ T), Hf; reflexivity|].
    assert (HD : DockArea (d (widgets W' this)) = Some (nAreas W)).
    { rewrite (transitionTail_this_field (fun x => DockArea (d x))
                 (fun _ => eq_refl) T).
      cbn. rewrite Hd. reflexivity. }
    split.
    { unfold containerOf. rewrite HD, (tt_areas _ _ _ _ _ T), Ha. reflexivity. }
    split; [rewrite (tt_containers _ _ _ _ _ T); exact Hc|].
    split.
    { unfold isClosed, bind, getD, gets, ret.
      rewrite (transitionTail_this_field (fun x => Closed (d x))
                 (fun _ => eq_refl) T).
      reflexivity. }
    rewrite (transitionTail_this_field (fun x => ToggleViewAction (d x))
               (fun _ => eq_refl) T).
    rewrite Hact1 in Hact'. injection Hact' as <-.
    cbn. rewrite Bool.andb_true_r. reflexivity.
  - intros a tab c Harea Htab Hcont Hown [Hnd Hher].
    destruct (showDockWidget_assigned W this a tab c Harea Htab Hcont Hown)
      as (W1 & E1 & Hd & Ho & Hn & Ha & Hb & Hc & Hv & Hf & Hl).
    assert (Hact1 : ToggleViewAction (d (widgets W1 this)) = Some act).
    { rewrite Hd. exact Hact. }
    assert (HA : forall x, DockArea (d (widgets W1 x)) = DockArea (d (widgets W x))).
    { intros x. destruct (Nat.eq_dec x this) as [->|N].
      - rewrite Hd. reflexivity.
      - rewrite (Ho x N). reflexivity. }
    destruct (toggleViewInternal_completes W this true W1 _ E1 Hact1)
      as (W' & E).
    { intros _ t Ht. rewrite HA. unfold containerOf in Ht. rewrite Harea, Hcont in Ht.
      eapply topLevelDockWidget_assigned. exact Ht. }
    { unfold containerOf. rewrite HA, Harea, Ha. cbn. rewrite Hcont. discriminate. }
    destruct (toggleViewInternal_tail W this true W' E)
      as (W1' & act' & E1' & Hact' & T).
    rewrite E1 in E1'. injection E1' as <-.
    destruct (transitionTail_log_prefix T Hl) as (rest & Hlog & Hq).
    exists W', rest.
    split; [exact E|].
    split; [rewrite Hlog; rewrite <- !app_assoc; reflexivity|].
    split; [exact Hq|].
    rewrite (tt_areas _ _ _ _ _ T), Ha.
    split; [reflexivity|]. split; [reflexivity|].
    split.
    { rewrite (transitionTail_this_field (fun x => TabWidget (d x))
                 (fun _ => eq_refl) T).
      cbn. rewrite Hd. reflexivity. }
    split.
    { intros s Hin. rewrite (tt_splitters _ _ _ _ _ T), Hv.
      destruct (shownSplitters_covers_hidden _ _ Hnd Hher s Hin) as [V|S].
      - rewrite V. split; [reflexivity|]. intros F. congruence.
      - split; [|intros _; exact S].
        rewrite (existsb_eqb_In _ _ S). apply orb_true_r. }
    intros f Hfl Hf'. split.
    + rewrite (tt_floatVisible _ _ _ _ _ T). apply Hf; assumption.
    + unfold floatingShows. rewrite Hfl, Hf'. reflexivity.
Qed.

(** C4 as stated fails in the show-only mode: on a dock widget that is
    unassigned and closed and whose toggle action is not checkable, the
    open transition returns, the widget is open in its new floating
    container, and the toggle action is not checked. *)
Lemma open_transition_leaves_show_mode_action_unchecked :
  DockArea (d (widgets showModeUnassignedWorld 0)) = None /\
  Closed (d (widgets showModeUnassignedWorld 0)) = true /\
  exists W',
    toggleViewInternal 0 true showModeUnassignedWorld = Done tt W' /\
    isClosed 0 W' = Done false W' /\
    option_map actChecked (ToggleViewAction (d (widgets W' 0))) = Some false.
Proof.
  split; [vm_compute; reflexivity|].
  split; [vm_compute; reflexivity|].
  exists (outWorld (toggleViewInternal 0 true showModeUnassignedWorld)).
  split; [vm_compute; reflexivity|].
  split; vm_compute; reflexivity.
Qed.

(** ** Closing *)

Lemma nextOpenDockWidget_some W a w next :
  nextOpenDockWidget W a w = Some next ->
  next < nWidgets W /\ assignedTo W a next = true /\ isOpen W next = true /\
  next <> w.
Proof.
  unfold nextOpenDockWidget. intros H. apply find_some in H.
  destruct H as [Hin Hp]. apply in_seq in Hin.
  apply andb_prop in Hp. destruct Hp as [Hp Hne].
  apply andb_prop in Hp. destruct Hp as [Ha Ho].
  split; [lia|]. split; [exact Ha|]. split; [exact Ho|].
  intros ->. rewrite Nat.eqb_refl in Hne. discriminate Hne.
Qed.

Lemma nextOpenDockWidget_none W a w :
  nextOpenDockWidget W a w = None ->
  forall x, x < nWidgets W -> assignedTo W a x = true -> isOpen W x = true ->
            x = w.
Proof.
  unfold nextOpenDockWidget. intros H x Hx Ha Ho.
  pose proof (find_none _ _ H x) as N. cbv beta in N.
  rewrite Ha, Ho in N. simpl in N.
  destruct (Nat.eqb_spec x w) as [E|E]; [exact E|].
  assert (In x (seq 0 (nWidgets W))) by (apply in_seq; lia).
  specialize (N H0). discriminate N.
Qed.

(** C5: a real close transition on a dock widget assigned to an area
    (the area has a dock container) hides the tab and then, when the area
    has a next open dock widget, makes that one current and leaves the
    visibility of the area as it was; when no other dock widget of the
    area is open, it has the area hide itself, and the area is hidden
    afterwards. *)
Theorem close_transition_updates_area :
  forall (W : World) (this : WidgetId) (a : AreaId) (tab : CDockWidgetTab)
         (act : QAction) (c : ContainerId),
    DockArea (d (widgets W this)) = Some a ->
    TabWidget (d (widgets W this)) = Some tab ->
    ToggleViewAction (d (widgets W this)) = Some act ->
    areaContainer (areas W a) = Some c ->
    exists W' rest,
      toggleViewInternal this false W = Done tt W' /\
      forallb quiet rest = true /\
      option_map tabVisible (TabWidget (d (widgets W' this))) = Some false /\
      Closed (d (widgets W' this)) = true /\
      match nextOpenDockWidget W a this with
      | Some next =>
          log W' = log W ++ [TabHide this; AreaSetCurrentDockWidget a next] ++
                     rest ++ [EmitClosed this; EmitViewToggled this false] /\
          areaCurrent (areas W' a) = Some next /\
          areaVisible (areas W' a) = areaVisible (areas W a) /\
          next < nWidgets W /\ assignedTo W a next = true /\
          isOpen W next = true /\ next <> this
      | None =>
          log W' = log W ++ [TabHide this; AreaHideAreaWithNoVisibleContent a] ++
                     rest ++ [EmitClosed this; EmitViewToggled this false] /\
          areaVisible (areas W' a) = false /\
          (forall x, x < nWidgets W -> assignedTo W a x = true ->
                     isOpen W x = true -> x = this)
      end.
Proof.
  intros W this a tab act c Harea Htab Hact Hcont.
  destruct (hideDockWidget_assigned W this a tab Harea Htab)
    as (W1 & E1 & Hd & Ho & Hn & Hc & Hb & Hnext).
  assert (Hact1 : ToggleViewAction (d (widgets W1 this)) = Some act).
  { rewrite Hd. exact Hact. }
  assert (Hcont1 : areaContainer (areas W1 a) = Some c).
  { destruct (nextOpenDockWidget W a this); destruct Hnext as [-> _]; exact Hcont. }
  destruct (toggleViewInternal_completes W this false W1 _ E1 Hact1)
    as (W' & E).
  { intros F. discriminate F. }
  { unfold containerOf. rewrite Hd. cbn. rewrite Harea, Hcont1. discriminate. }
  destruct (toggleViewInternal_tail W this false W' E)
    as (W1' & act' & E1' & Hact' & T).
  rewrite E1 in E1'. injection E1' as <-.
  destruct (tt_log _ _ _ _ _ T) as (rest & Hlog & Hq).
  exists W', rest.
  split; [exact E|]. split; [exact Hq|].
  split.
  { rewrite (transitionTail_this_field (fun x => TabWidget (d x))
               (fun _ => eq_refl) T).
    cbn. rewrite Hd. reflexivity. }
  split.
  { rewrite (transitionTail_this_field (fun x => Closed (d x))
               (fun _ => eq_refl) T).
    reflexivity. }
  rewrite (tt_areas _ _ _ _ _ T).
  destruct (nextOpenDockWidget W a this) as [next|] eqn:Hfind;
    destruct Hnext as [Ha Hl]; rewrite Ha.
  - split; [rewrite Hlog, Hl, <- !app_assoc; reflexivity|].
    split; [reflexivity|]. split; [reflexivity|].
    apply nextOpenDockWidget_some. exact Hfind.
  - split; [rewrite Hlog, Hl, <- !app_assoc; reflexivity|].
    split; [reflexivity|].
    apply nextOpenDockWidget_none. exact Hfind.
Qed.

(** ** What the log can grow by *)

Lemma logGrows_refl P W : logGrows P W W.
Proof. exists []. rewrite app_nil_r. split; reflexivity. Qed.

Lemma logGrows_trans P W1 W2 W3 :
  logGrows P W1 W2 -> logGrows P W2 W3 -> logGrows P W1 W3.
Proof.
  intros (r1 & l1 & q1) (r2 & l2 & q2). exists (r1 ++ r2). split.
  - rewrite l2, l1, app_assoc. reflexivity.
  - rewrite forallb_app, q1, q2. reflexivity.
Qed.

Lemma logGrows_trace P e : P e = true -> preserves (logGrows P) (trace e).
Proof.
  intros H W. exists [e]. split; [reflexivity|]. simpl. rewrite H. reflexivity.
Qed.

Lemma logGrows_silent P {A} (m : M A) :
  (forall W, log (outWorld (m W)) = log W) -> preserves (logGrows P) m.
Proof.
  intros H W. exists []. rewrite app_nil_r. split; [apply H|reflexivity].
Qed.

Lemma logGrows_count P Q W W' :
  (forall e, P e = true -> Q e = false) ->
  logGrows P W W' -> countEvents Q (log W') = countEvents Q (log W).
Proof.
  intros H (rest & Hl & Hq). rewrite Hl, countEvents_app. clear Hl.
  assert (Z : countEvents Q rest = 0).
  { unfold countEvents. induction rest as [|e rest IH]; [reflexivity|].
    simpl in Hq. apply andb_prop in Hq. destruct Hq as [H1 H2].
    simpl. rewrite (H e H1). apply IH. exact H2. }
  rewrite Z. apply Nat.add_0_r.
Qed.

Lemma logGrows_filter P Q W W' :
  (forall e, P e = true -> Q e = false) ->
  logGrows P W W' -> filter Q (log W') = filter Q (log W).
Proof.
  intros H (rest & Hl & Hq). rewrite Hl, filter_app. clear Hl.
  assert (Z : filter Q rest = []).
  { induction rest as [|e rest IH]; [reflexivity|].
    simpl in Hq. apply andb_prop in Hq. destruct Hq as [H1 H2].
    simpl. rewrite (H e H1). apply IH. exact H2. }
  rewrite Z. apply app_nil_r.
Qed.

Lemma logGrows_QSplitter_show P s :
  P (SplitterShow s) = true -> preserves (logGrows P) (QSplitter_show s).
Proof.
  intros H W. exists [SplitterShow s]. split; [reflexivity|].
  simpl. rewrite H. reflexivity.
Qed.

Lemma logGrows_showHiddenSplitters P l :
  (forall s, P (SplitterShow s) = true) ->
  preserves (logGrows P) (showHiddenSplitters l).
Proof.
  intros H. induction l as [|s up IH]; simpl.
  - apply preserves_ret. apply logGrows_refl.
  - apply preserves_bind; [apply logGrows_trans| |intros v].
    + apply preserves_gets. apply logGrows_refl.
    + destruct (negb v).
      * apply preserves_bind; [apply logGrows_trans| |intros _; exact IH].
        apply logGrows_QSplitter_show. apply H.
      * apply preserves_ret. apply logGrows_refl.
Qed.

Ltac grows_steps :=
  repeat match goal with
  | |- preserves _ (ret _) => apply preserves_ret; apply logGrows_refl
  | |- preserves _ (gets _) => apply preserves_gets; apply logGrows_refl
  | |- preserves _ (getD _) => apply preserves_gets; apply logGrows_refl
  | |- preserves _ (getWidget _) => apply preserves_gets; apply logGrows_refl
  | |- preserves _ (deref _) => apply preserves_deref; apply logGrows_refl
  | |- preserves _ (trace _) => apply logGrows_trace; reflexivity
  | |- preserves _ (modifyD _ _) => apply logGrows_silent; intros; reflexivity
  | |- preserves _ (modifyWidget _ _) => apply logGrows_silent; intros; reflexivity
  | |- preserves _ (modifyArea _ _) => apply logGrows_silent; intros; reflexivity
  | |- preserves _ (modifyFloating _ _) => apply logGrows_silent; intros; reflexivity
  | |- preserves _ (QSplitter_show _) => apply logGrows_QSplitter_show; reflexivity
  | |- preserves _ (showHiddenSplitters _) =>
      apply logGrows_showHiddenSplitters; intros; reflexivity
  | |- preserves _ (invokeSlots _ _) =>
      apply preserves_invokeSlots; [apply logGrows_refl|apply logGrows_trans|]
  | |- preserves _ (bind _ _) =>
      apply preserves_bind; [apply logGrows_trans| |intros]
  | |- preserves _ (when _ _) => apply preserves_when; [apply logGrows_refl|]
  | |- preserves _ (match ?x with _ => _ end) => destruct x
  end.

Ltac unfold_operations :=
  unfold toggleViewInternal, showDockWidget, hideDockWidget,
    updateParentDockArea, CFloatingDockContainer_new, setDockArea, isClosed,
    emitTopLevelEventForWidget, emitTopLevelChanged, emit_topLevelChanged,
    dockAreaWidget, dockContainer, topLevelOf, setToolbarFloatingStyle,
    QAction_blockSignals, QAction_setChecked, modifyAction,
    Tab_show, Tab_hide, modifyTab,
    QToolBar_setIconSize, QToolBar_setToolButtonStyle, modifyToolBar,
    Area_toggleView, Area_setCurrentDockWidget, Area_nextOpenDockWidget,
    Area_hideAreaWithNoVisibleContent, Area_toggleDockWidgetView,
    Area_updateTitleBarVisibility, Area_dockContainer, Area_splitterAncestors,
    Container_isFloating, Container_floatingWidget,
    Container_topLevelDockWidget, Floating_resize, Floating_show,
    Floating_updateWindowTitle.

Lemma logGrows_allocation P (f c a : nat) (w : WidgetId) :
  P (NewFloatingDockContainer f w) = true ->
  preserves (logGrows P)
    (fun W => Done tt
       {| widgets := widgets W; nWidgets := nWidgets W;
          areas := upd (areas W) a
                     {| areaVisible := true; areaCurrent := Some w;
                        areaContainer := Some c; areaSplitters := [];
                        areaMenuOutdated := false |};
          nAreas := S a;
          containers := upd (containers W) c
                          {| contIsFloating := true;
                             contFloatingWidget := Some f |};
          nContainers := S c;
          floatings := upd (floatings W) f
                         {| floatVisible := false;
                            floatSize := {| width := 0; height := 0 |};
                            floatTitleUpdates := 0 |};
          nFloatings := S f;
          splitterVisible := splitterVisible W;
          log := log W ++ [NewFloatingDockContainer f w] |}).
Proof.
  intros H W. exists [NewFloatingDockContainer f w]. split; [reflexivity|].
  simpl. rewrite H. reflexivity.
Qed.

(** No operation of a transition emits [triggered] of a toggle action. *)
Lemma toggleViewInternal_never_triggers this Open :
  preserves (logGrows (fun e => negb (isTriggered e)))
    (toggleViewInternal this Open).
Proof.
  unfold_operations.
  grows_steps; try (apply logGrows_allocation; reflexivity).
Qed.

(** The show or hide step of a transition emits no [viewToggled]. *)
Lemma step_emits_no_viewToggled this (Open : bool) :
  preserves (logGrows (fun e => negb (isViewToggled e)))
    (if Open then showDockWidget this else hideDockWidget this).
Proof.
  unfold_operations.
  grows_steps; try (apply logGrows_allocation; reflexivity).
Qed.

(** ** Programmatic synchronisation is silent *)

Lemma updateClosedAndAction_log (W : World) (this : WidgetId) (Open : bool) :
  log (outWorld (updateClosedAndAction this Open W)) = log W.
Proof.
  destruct (ToggleViewAction (d (widgets W this))) as [act|] eqn:Hact.
  - destruct (updateClosedAndAction_spec W this Open act Hact)
      as (W' & E & _ & _ & H).
    rewrite E. exact (f_equal log H).
  - apply updateClosedAndAction_null. exact Hact.
Qed.

Lemma logGrows_weaken (P Q : Event -> bool) W W' :
  (forall e, P e = true -> Q e = true) -> logGrows P W W' -> logGrows Q W W'.
Proof.
  intros H (rest & Hl & Hq). exists rest. split; [exact Hl|].
  revert Hq. apply forallb_weaken. exact H.
Qed.

Lemma tail_emits_no_action_signal this Open Before :
  preserves (logGrows (fun e => negb (isActionSignal e)))
    (updateClosedAndAction this Open ;;
     notifyAreaAndTopLevel this Open Before ;;
     emitTransitionSignals this Open).
Proof.
  apply preserves_bind; [apply logGrows_trans| |intros _].
  - apply logGrows_silent. intros W. apply updateClosedAndAction_log.
  - apply preserves_bind; [apply logGrows_trans| |intros _].
    + intros W.
      pose proof (bookkeeping_notifyAreaAndTopLevel this Open Before W) as B.
      apply (logGrows_weaken quiet); [|exact (bk_log _ _ B)].
      intros [] E; solve [reflexivity|discriminate E].
    + unfold emitTransitionSignals. grows_steps.
Qed.

(** C7: [setToggleViewActionChecked] adds nothing to the log, whatever the
    state of the action: no signal of the toggle action is emitted.  In
    [toggleViewInternal], everything from the assignment of the closed
    flag on, the assignment of the checked state included, emits no signal
    of a toggle action, and the whole transition never emits [triggered],
    the signal that is connected to [toggleView]. *)
Theorem action_sync_emits_no_signal :
  forall (W : World) (this : WidgetId) (b : bool),
    log (outWorld (setToggleViewActionChecked this b W)) = log W /\
    filter isActionSignal (log (outWorld (toggleViewInternal this b W))) =
    filter isActionSignal
      (log (outWorld ((if b then showDockWidget this else hideDockWidget this) W))) /\
    countEvents isTriggered (log (outWorld (toggleViewInternal this b W))) =
    countEvents isTriggered (log W).
Proof.
  intros W this b. split; [apply setToggleViewActionChecked_log|]. split.
  - rewrite toggleViewInternal_blocks. unfold bind at 1.
    destruct ((if b then showDockWidget this else hideDockWidget this) W)
      as [[] W1|W1]; [|reflexivity].
    cbn [outWorld].
    apply (logGrows_filter (fun e => negb (isActionSignal e))).
    + intros e E. apply negb_true_iff in E. exact E.
    + apply tail_emits_no_action_signal.
  - apply (logGrows_count (fun e => negb (isTriggered e))).
    + intros e E. apply negb_true_iff in E. exact E.
    + apply toggleViewInternal_never_triggers.
Qed.

(** ** [toggleView] *)

Lemma makeCurrent_run (W : World) (this : WidgetId) :
  makeCurrent this W =
  match DockArea (d (widgets W this)) with
  | Some a =>
      Done tt (set_log (log W ++ [AreaSetCurrentDockWidget a this])
                 (set_areas
                    (upd (areas W) a (set_areaCurrent (Some this) (areas W a)))
                    W))
  | None => Done tt W
  end.
Proof.
  unfold makeCurrent. rewrite (bind_done _ _ (getD_run this W)).
  destruct (DockArea (d (widgets W this))); reflexivity.
Qed.

Lemma toggleView_cases (W : World) (this : WidgetId)
    (Sender : option QActionRef) (Open : bool) (act : QAction) :
  ToggleViewAction (d (widgets W this)) = Some act ->
  toggleView this Sender Open W =
  if Bool.eqb (Closed (d (widgets W this)))
       (requestedOpen this Sender Open act)
  then toggleViewInternal this (requestedOpen this Sender Open act) W
  else if requestedOpen this Sender Open act then makeCurrent this W
       else Done tt W.
Proof.
  intros Hact.
  unfold toggleView, makeCurrent, toggleViewActionPtr, requestedOpen,
    bind, getD, gets, deref, ret.
  rewrite Hact.
  destruct (QActionPtr_eqb Sender (Some (ToggleViewActionOf this)));
    destruct (actCheckable act); destruct Open;
    destruct (Closed (d (widgets W this)));
    destruct (DockArea (d (widgets W this))); reflexivity.
Qed.

(** C1: [toggleView] on a dock widget whose toggle action exists.  The
    requested state is the argument, or open when the toggle action in its
    non-checkable mode sends the call.  When the widget is open and open
    is requested, no transition runs: the call is [makeCurrent], which
    leaves every widget (closed flag and toggle action included) as it
    was, emits nothing, and only asks the assigned area to make the widget
    current.  When the requested state differs from the current one, the
    call is one [toggleViewInternal], and a completed one emits
    [viewToggled] once.  After a first [toggleView(true)] a second one
    never runs a transition; from a closed widget the first call is the
    one real transition and the second only makes the widget current in
    the area it then has. *)
Theorem toggleView_transitions_only_on_change :
  forall (W : World) (this : WidgetId) (Sender : option QActionRef)
         (Open : bool) (act : QAction),
    ToggleViewAction (d (widgets W this)) = Some act ->
    (Closed (d (widgets W this)) = false ->
     requestedOpen this Sender Open act = true ->
     toggleView this Sender Open W = makeCurrent this W /\
     exists W',
       makeCurrent this W = Done tt W' /\
       widgets W' = widgets W /\
       match DockArea (d (widgets W this)) with
       | Some a => log W' = log W ++ [AreaSetCurrentDockWidget a this] /\
                   areaCurrent (areas W' a) = Some this
       | None => W' = W
       end) /\
    (Closed (d (widgets W this)) = requestedOpen this Sender Open act ->
     toggleView this Sender Open W =
       toggleViewInternal this (requestedOpen this Sender Open act) W /\
     forall W',
       toggleViewInternal this (requestedOpen this Sender Open act) W = Done tt W' ->
       countEvents isViewToggled (log W') = S (countEvents isViewToggled (log W))) /\
    (forall W1,
       toggleView this None true W = Done tt W1 ->
       toggleView this None true W1 = makeCurrent this W1 /\
       countEvents isViewToggled (log (outWorld (toggleView this None true W1))) =
         countEvents isViewToggled (log W1) /\
       (Closed (d (widgets W this)) = true ->
        toggleViewInternal this true W = Done tt W1 /\
        countEvents isViewToggled (log W1) = S (countEvents isViewToggled (log W)) /\
        exists a,
          DockArea (d (widgets W1 this)) = Some a /\
          log (outWorld (toggleView this None true W1)) =
            log W1 ++ [AreaSetCurrentDockWidget a this])).
Proof.
  intros W this Sender Open act Hact.
  assert (Hcount : forall b W',
            toggleViewInternal this b W = Done tt W' ->
            countEvents isViewToggled (log W') =
              S (countEvents isViewToggled (log W))).
  { intros b W' H.
    destruct (toggleViewInternal_tail W this b W' H) as (W1 & a1 & E1 & _ & T).
    destruct (tt_log _ _ _ _ _ T) as (rest & Hl & Hq).
    pose proof (step_emits_no_viewToggled this b W) as G.
    rewrite E1 in G. cbn [outWorld] in G.
    rewrite Hl, !countEvents_app.
    rewrite (logGrows_count (fun e => negb (isViewToggled e)) isViewToggled W W1)
      by (try exact G; intros e E; apply negb_true_iff in E; exact E).
    assert (Z : countEvents isViewToggled rest = 0).
    { clear Hl. unfold countEvents.
      induction rest as [|e rest IH]; [reflexivity|].
      simpl in Hq. apply andb_prop in Hq. destruct Hq as [H1 H2].
      destruct e; try discriminate H1; simpl; apply IH; exact H2. }
    rewrite Z. destruct b; unfold countEvents; simpl; lia. }
  assert (Hsecond : forall W1 act1,
            ToggleViewAction (d (widgets W1 this)) = Some act1 ->
            Closed (d (widgets W1 this)) = false ->
            toggleView this None true W1 = makeCurrent this W1 /\
            countEvents isViewToggled
              (log (outWorld (toggleView this None true W1))) =
            countEvents isViewToggled (log W1)).
  { intros W1 act1 Ha1 Hc1.
    rewrite (toggleView_cases W1 this None true act1 Ha1).
    change (requestedOpen this None true act1) with true.
    rewrite Hc1. cbn [Bool.eqb].
    split; [reflexivity|].
    rewrite makeCurrent_run.
    destruct (DockArea (d (widgets W1 this))); cbn [outWorld log set_log];
      [|reflexivity].
    rewrite countEvents_app. apply Nat.add_0_r. }
  split; [|split].
  - intros Hclosed Hreq.
    rewrite (toggleView_cases W this Sender Open act Hact), Hclosed, Hreq.
    cbn [Bool.eqb]. split; [reflexivity|].
    rewrite makeCurrent_run.
    destruct (DockArea (d (widgets W this))) as [a|]; eexists;
      (split; [reflexivity|]); (split; [reflexivity|]).
    + split; [reflexivity|]. cbn. rewrite upd_same. reflexivity.
    + reflexivity.
  - intros Hdiff.
    rewrite (toggleView_cases W this Sender Open act Hact), Hdiff.
    rewrite Bool.eqb_reflx. split; [reflexivity|]. apply Hcount.
  - intros W1 H1.
    rewrite (toggleView_cases W this None true act Hact) in H1.
    change (requestedOpen this None true act) with true in H1.
    destruct (Closed (d (widgets W this))) eqn:Hclosed; cbn [Bool.eqb] in H1.
    + destruct (toggleViewInternal_tail W this true W1 H1)
        as (W0 & a0 & E0 & Ha0 & T).
      assert (Ha1 : ToggleViewAction (d (widgets W1 this)) =
                    Some (set_actSignalsBlocked false
                            (set_actChecked (actCheckable a0 && true) a0))).
      { rewrite (transitionTail_this_field (fun x => ToggleViewAction (d x))
                   (fun _ => eq_refl) T).
        reflexivity. }
      assert (Hc1 : Closed (d (widgets W1 this)) = false).
      { rewrite (transitionTail_this_field (fun x => Closed (d x))
                   (fun _ => eq_refl) T).
        reflexivity. }
      destruct (Hsecond W1 _ Ha1 Hc1) as [S1 S2].
      split; [exact S1|]. split; [exact S2|].
      intros _. split; [exact H1|]. split; [apply (Hcount true); exact H1|].
      assert (HD : DockArea (d (widgets W1 this)) = DockArea (d (widgets W0 this))).
      { rewrite (transitionTail_this_field (fun x => DockArea (d x))
                   (fun _ => eq_refl) T).
        reflexivity. }
      apply showDockWidget_assigns in E0.
      destruct (DockArea (d (widgets W0 this))) as [a|] eqn:HA; [|congruence].
      exists a. split; [exact HD|].
      rewrite S1, makeCurrent_run, HD. reflexivity.
    + rewrite makeCurrent_run in H1.
      assert (Hw : widgets W1 = widgets W).
      { destruct (DockArea (d (widgets W this))); injection H1 as <-; reflexivity. }
      assert (Ha1 : ToggleViewAction (d (widgets W1 this)) = Some act)
        by (rewrite Hw; exact Hact).
      assert (Hc1 : Closed (d (widgets W1 this)) = false)
        by (rewrite Hw; exact Hclosed).
      destruct (Hsecond W1 _ Ha1 Hc1) as [S1 S2].
      split; [exact S1|]. split; [exact S2|].
      intros F. discriminate F.
Qed.

(** ** Closing a dock widget that has no dock area *)

Lemma notifyAreaAndTopLevel_unassigned_close (W : World) (this : WidgetId)
    (Before : option WidgetId) :
  DockArea (d (widgets W this)) = None ->
  notifyAreaAndTopLevel this false Before W = NullDeref W.
Proof.
  intros H.
  unfold notifyAreaAndTopLevel, dockContainer, topLevelOf, bind, getD, gets,
    when, ret, deref.
  rewrite H. cbn [andb]. rewrite H. reflexivity.
Qed.

(** A close transition on a dock widget without dock area never
    completes: whatever else holds, line 476 dereferences the null
    container. *)
Lemma toggleViewInternal_close_unassigned (W : World) (this : WidgetId) :
  DockArea (d (widgets W this)) = None ->
  completes (toggleViewInternal this false W) = false.
Proof.
  intros Harea.
  rewrite toggleViewInternal_blocks.
  destruct (TabWidget (d (widgets W this))) as [tab|] eqn:Htab.
  - rewrite (bind_done _ _ (hideDockWidget_unassigned W this tab Harea Htab)).
    match goal with
    | |- completes (bind _ _ ?W1) = _ =>
        destruct (ToggleViewAction (d (widgets W1 this))) as [act|] eqn:Hact;
        [destruct (updateClosedAndAction_spec W1 this false act Hact)
           as (W2 & E2 & Hd & _ & _)
        |pose proof (proj1 (updateClosedAndAction_null W1 this false Hact)) as N]
    end.
    + rewrite (bind_done _ _ E2).
      assert (Harea2 : DockArea (d (widgets W2 this)) = None).
      { rewrite Hd. cbn. rewrite upd_same. cbn. exact Harea. }
      rewrite (bind_null _ _
                 (notifyAreaAndTopLevel_unassigned_close W2 this _ Harea2)).
      reflexivity.
    + unfold bind at 1.
      destruct (updateClosedAndAction this false _); [discriminate N|reflexivity].
  - unfold hideDockWidget, Tab_hide, modifyTab, bind, getD, gets, deref.
    rewrite Htab. reflexivity.
Qed.

(** C3, at the failing input: a freshly constructed dock widget has no
    dock area and is not closed; [toggleView(false)] on it runs a real
    transition, which ends in the dereference of the null container that
    [dockContainer] returned at line 472, with the closed flag already
    set. *)
Theorem closing_fresh_widget_dereferences_null_container :
  DockArea (d (widgets freshWorld 0)) = None /\
  Closed (d (widgets freshWorld 0)) = false /\
  toggleView 0 None false freshWorld = toggleViewInternal 0 false freshWorld /\
  completes (toggleView 0 None false freshWorld) = false /\
  containerOf (outWorld (toggleView 0 None false freshWorld)) 0 = None /\
  Closed (d (widgets (outWorld (toggleView 0 None false freshWorld)) 0)) = true /\
  log (outWorld (toggleView 0 None false freshWorld)) =
    log freshWorld ++ [TabHide 0].
Proof.
  split; [reflexivity|]. split; [reflexivity|].
  split; [reflexivity|].
  split; [apply toggleViewInternal_close_unassigned; reflexivity|].
  split; [reflexivity|]. split; reflexivity.
Qed.

(** ** The theorems at sample worlds *)

Lemma toggle_action_checked_iff_checkable_assigned_and_open_witness :
  toggleActionInSync (outWorld (setDockArea 0 (Some 0) freshWorld)) 0 /\
  toggleActionInSync (outWorld (toggleViewInternal 1 false dockedWorld)) 1 /\
  toggleActionMirrors (outWorld (toggleViewInternal 0 false showModeWorld)) 0.
Proof.
  assert (E1 : setDockArea 0 (Some 0) freshWorld =
               Done tt (outWorld (setDockArea 0 (Some 0) freshWorld)))
    by (vm_compute; reflexivity).
  assert (K1 : option_map actCheckable
                 (ToggleViewAction
                    (d (widgets (outWorld (setDockArea 0 (Some 0) freshWorld)) 0)))
               = Some true) by (vm_compute; reflexivity).
  assert (E2 : toggleViewInternal 1 false dockedWorld =
               Done tt (outWorld (toggleViewInternal 1 false dockedWorld)))
    by (vm_compute; reflexivity).
  assert (K2 : option_map actCheckable
                 (ToggleViewAction
                    (d (widgets (outWorld (toggleViewInternal 1 false dockedWorld))
                          1))) = Some true) by (vm_compute; reflexivity).
  assert (E3 : toggleViewInternal 0 false showModeWorld =
               Done tt (outWorld (toggleViewInternal 0 false showModeWorld)))
    by (vm_compute; reflexivity).
  destruct (toggle_action_checked_iff_checkable_assigned_and_open freshWorld 0)
    as (A1 & _ & C1).
  destruct (toggle_action_checked_iff_checkable_assigned_and_open dockedWorld 1)
    as (_ & B2 & C2).
  destruct (toggle_action_checked_iff_checkable_assigned_and_open showModeWorld 0)
    as (_ & B3 & _).
  split; [exact (C1 _ (proj1 (A1 _ _ E1)) K1)|].
  split; [exact (C2 _ (B2 _ _ E2) K2)|].
  exact (B3 _ _ E3).
Defined.

Lemma open_transition_shows_widget_witness :
  (exists W',
     toggleViewInternal 0 true unassignedWorld = Done tt W' /\
     floatVisible (floatings W' 0) = true /\
     floatSize (floatings W' 0) = {| width := 640; height := 480 |} /\
     isClosed 0 W' = Done false W' /\
     option_map actChecked (ToggleViewAction (d (widgets W' 0))) = Some true) /\
  (exists W',
     toggleViewInternal 0 true tuckedWorld = Done tt W' /\
     areaVisible (areas W' 0) = true /\
     areaCurrent (areas W' 0) = Some 0 /\
     option_map tabVisible (TabWidget (d (widgets W' 0))) = Some true /\
     splitterVisible W' 0 = true /\
     splitterVisible W' 1 = true /\
     floatVisible (floatings W' 0) = true).
Proof.
  split.
  - destruct (open_transition_shows_widget unassignedWorld 0 _ eq_refl)
      as [P _].
    destruct (P eq_refl eq_refl)
      as (W' & sig & rest & E & _ & _ & _ & Hv & Hs & _ & _ & Hc & Ha).
    exists W'. repeat split; assumption.
  - destruct (open_transition_shows_widget tuckedWorld 0 _ eq_refl)
      as [_ P].
    assert (Hwf : wellFormedAncestors tuckedWorld 0).
    { split; [|reflexivity].
      constructor; [intros [H|[]]; discriminate H|].
      constructor; [intros []|constructor]. }
    assert (Hown : contIsFloating (containers tuckedWorld 0) = true ->
                   contFloatingWidget (containers tuckedWorld 0) <> None)
      by (intros _; discriminate).
    destruct (P 0 _ 0 eq_refl eq_refl eq_refl Hown Hwf)
      as (W' & rest & E & _ & _ & Hv & Hc & Ht & Hs & Hf).
    exists W'.
    split; [exact E|]. split; [exact Hv|]. split; [exact Hc|].
    split; [exact Ht|].
    split; [exact (proj1 (Hs 0 (or_introl eq_refl)))|].
    split; [exact (proj1 (Hs 1 (or_intror (or_introl eq_refl))))|].
    exact (proj1 (Hf 0 eq_refl eq_refl)).
Defined.

Lemma close_transition_updates_area_witness :
  (exists W',
     toggleViewInternal 1 false dockedWorld = Done tt W' /\
     areaCurrent (areas W' 0) = Some 0 /\
     areaVisible (areas W' 0) = true) /\
  (exists W',
     toggleViewInternal 0 false floatingWorld = Done tt W' /\
     areaVisible (areas W' 0) = false).
Proof.
  split.
  - assert (Ht : TabWidget (d (widgets dockedWorld 1)) =
                 Some {| tabText := "Output"; tabVisible := true;
                         tabParent := None; tabIcon := None |})
      by reflexivity.
    assert (Ha : ToggleViewAction (d (widgets dockedWorld 1)) =
                 Some {| actText := "Output"; actCheckable := true;
                         actChecked := true; actSignalsBlocked := false;
                         actIcon := None |})
      by reflexivity.
    destruct (close_transition_updates_area dockedWorld 1 0 _ _ 0
                eq_refl Ht Ha eq_refl)
      as (W' & rest & E & _ & _ & _ & M).
    assert (N : nextOpenDockWidget dockedWorld 0 1 = Some 0)
      by (vm_compute; reflexivity).
    rewrite N in M. destruct M as (_ & Hc & Hv & _).
    exists W'. split; [exact E|]. split; [exact Hc|exact Hv].
  - assert (Hd : DockArea (d (widgets floatingWorld 0)) = Some 0)
      by (vm_compute; reflexivity).
    assert (Ht : TabWidget (d (widgets floatingWorld 0)) =
                 Some {| tabText := EmptyString; tabVisible := false;
                         tabParent := Some (RefDockWidget 0);
                         tabIcon := None |})
      by (vm_compute; reflexivity).
    assert (Ha : ToggleViewAction (d (widgets floatingWorld 0)) =
                 Some {| actText := "Logs"; actCheckable := true;
                         actChecked := true; actSignalsBlocked := false;
                         actIcon := None |})
      by (vm_compute; reflexivity).
    assert (Hc : areaContainer (areas floatingWorld 0) = Some 0)
      by (vm_compute; reflexivity).
    destruct (close_transition_updates_area floatingWorld 0 0 _ _ 0
                Hd Ht Ha Hc)
      as (W' & rest & E & _ & _ & _ & M).
    assert (N : nextOpenDockWidget floatingWorld 0 0 = None)
      by (vm_compute; reflexivity).
    rewrite N in M. destruct M as (_ & Hv & _).
    exists W'. split; [exact E|exact Hv].
Defined.

Lemma toggleView_transitions_only_on_change_witness :
  toggleView 0 None true dockedWorld = makeCurrent 0 dockedWorld /\
  toggleView 0 None true tuckedWorld = toggleViewInternal 0 true tuckedWorld /\
  (exists a,
     DockArea (d (widgets (outWorld (toggleView 0 None true tuckedWorld)) 0)) =
       Some a /\
     log (outWorld (toggleView 0 None true
                      (outWorld (toggleView 0 None true tuckedWorld)))) =
     log (outWorld (toggleView 0 None true tuckedWorld)) ++
       [AreaSetCurrentDockWidget a 0]).
Proof.
  split; [|split].
  - destruct (toggleView_transitions_only_on_change dockedWorld 0 None true _
                eq_refl) as [P _].
    exact (proj1 (P eq_refl eq_refl)).
  - destruct (toggleView_transitions_only_on_change tuckedWorld 0 None true _
                eq_refl) as (_ & P & _).
    exact (proj1 (P eq_refl)).
  - destruct (toggleView_transitions_only_on_change tuckedWorld 0 None true _
                eq_refl) as (_ & _ & P).
    assert (E : toggleView 0 None true tuckedWorld =
                Done tt (outWorld (toggleView 0 None true tuckedWorld)))
      by (vm_compute; reflexivity).
    destruct (P (outWorld (toggleView 0 None true tuckedWorld)) E)
      as (_ & _ & Q).
    destruct (Q eq_refl) as (_ & _ & a & Ha & Hl).
    exists a. split; [exact Ha|exact Hl].
Defined.

(** * Further properties *)

(** ** The state a call of [toggleView] ends in *)

Lemma transition_sets_closed (W : World) (this : WidgetId) (Open : bool)
    (W' : World) :
  toggleViewInternal this Open W = Done tt W' ->
  Closed (d (widgets W' this)) = negb Open /\
  ToggleViewAction (d (widgets W' this)) <> None.
Proof.
  intros H.
  destruct (toggleViewInternal_tail W this _ W' H) as (W1 & a1 & _ & _ & T).
  rewrite (transitionTail_this_field (fun x => Closed (d x))
             (fun _ => eq_refl) T).
  rewrite (transitionTail_this_field (fun x => ToggleViewAction (d x))
             (fun _ => eq_refl) T).
  split; [reflexivity|discriminate].
Qed.

Lemma toggleView_idle (W : World) (this : WidgetId)
    (Sender : option QActionRef) (Open : bool) (act : QAction) (W' : World) :
  ToggleViewAction (d (widgets W this)) = Some act ->
  Bool.eqb (Closed (d (widgets W this)))
    (requestedOpen this Sender Open act) = false ->
  toggleView this Sender Open W = Done tt W' ->
  widgets W' = widgets W.
Proof.
  intros Hact E H.
  rewrite (toggleView_cases W this Sender Open act Hact), E in H.
  destruct (requestedOpen this Sender Open act).
  - rewrite makeCurrent_run in H.
    destruct (DockArea (d (widgets W this))); injection H as <-; reflexivity.
  - injection H as <-. reflexivity.
Qed.

(** X1: a call of [toggleView] that returns leaves the closed flag at the
    opposite of the requested state, whichever branch ran; the toggle
    action still exists afterwards. *)
Theorem toggleView_ends_in_requested_state :
  forall (W : World) (this : WidgetId) (Sender : option QActionRef)
         (Open : bool) (act : QAction) (W' : World),
    ToggleViewAction (d (widgets W this)) = Some act ->
    toggleView this Sender Open W = Done tt W' ->
    Closed (d (widgets W' this)) = negb (requestedOpen this Sender Open act) /\
    isClosed this W' = Done (negb (requestedOpen this Sender Open act)) W' /\
    ToggleViewAction (d (widgets W' this)) <> None.
Proof.
  intros W this Sender Open act W' Hact H.
  assert (G : Closed (d (widgets W' this)) =
              negb (requestedOpen this Sender Open act) /\
              ToggleViewAction (d (widgets W' this)) <> None).
  { destruct (Bool.eqb (Closed (d (widgets W this)))
                (requestedOpen this Sender Open act)) eqn:E.
    - rewrite (toggleView_cases W this Sender Open act Hact), E in H.
      exact (transition_sets_closed W this _ W' H).
    - rewrite (toggleView_idle W this Sender Open act W' Hact E H), Hact.
      split; [|discriminate].
      apply Bool.eqb_false_iff in E.
      destruct (Closed (d (widgets W this)));
        destruct (requestedOpen this Sender Open act);
        try reflexivity; exfalso; apply E; reflexivity. }
  destruct G as [G1 G2]. split; [exact G1|]. split; [|exact G2].
  unfold isClosed, bind, getD, gets, ret. rewrite G1. reflexivity.
Qed.

Lemma toggleView_ends_in_requested_state_witness :
  Closed (d (widgets (outWorld (toggleView 0 None true tuckedWorld)) 0)) = false /\
  Closed (d (widgets (outWorld (toggleView 1 None false dockedWorld)) 1)) = true.
Proof.
  assert (E1 : toggleView 0 None true tuckedWorld =
               Done tt (outWorld (toggleView 0 None true tuckedWorld)))
    by (vm_compute; reflexivity).
  assert (A1 : ToggleViewAction (d (widgets tuckedWorld 0)) =
               Some {| actText := "Logs"; actCheckable := true;
                       actChecked := false; actSignalsBlocked := false;
                       actIcon := None |}) by reflexivity.
  assert (E2 : toggleView 1 None false dockedWorld =
               Done tt (outWorld (toggleView 1 None false dockedWorld)))
    by (vm_compute; reflexivity).
  assert (A2 : ToggleViewAction (d (widgets dockedWorld 1)) =
               Some {| actText := "Output"; actCheckable := true;
                       actChecked := true; actSignalsBlocked := false;
                       actIcon := None |}) by reflexivity.
  split.
  - exact (proj1 (toggleView_ends_in_requested_state tuckedWorld 0 None true
                    _ _ A1 E1)).
  - exact (proj1 (toggleView_ends_in_requested_state dockedWorld 1 None false
                    _ _ A2 E2)).
Defined.

(** ** The toggle action in its non-checkable mode *)

Lemma setToggleViewActionMode_Show_spec (W : World) (this : WidgetId)
    (W1 : World) :
  setToggleViewActionMode this ActionModeShow W = Done tt W1 ->
  exists act',
    ToggleViewAction (d (widgets W1 this)) = Some act' /\
    actCheckable act' = false.
Proof.
  unfold setToggleViewActionMode, QAction_setCheckable, QAction_setIcon,
    Tab_icon, modifyAction.
  unfold bind, getD, gets, deref, modifyD, modifyWidget, ret.
  destruct (ToggleViewAction (d (widgets W this))) as [act|] eqn:Hact;
    [|discriminate].
  cbn [widgets set_widgets]. rewrite !upd_same.
  cbn [d set_d TabWidget ToggleViewAction set_ToggleViewAction].
  destruct (TabWidget (d (widgets W this))) as [tab|] eqn:Htab;
    [|discriminate].
  cbn [widgets set_widgets]. rewrite !upd_same.
  cbn [d set_d TabWidget ToggleViewAction set_ToggleViewAction].
  intros H. injection H as <-.
  cbn [widgets set_widgets]. rewrite !upd_same.
  cbn [d set_d ToggleViewAction set_ToggleViewAction].
  eexists. split; [reflexivity|].
  destruct (actCheckable act) eqn:Hc; cbn; [reflexivity|exact Hc].
Qed.

(** X2: after [setToggleViewActionMode(ActionModeShow)], a call of
    [toggleView] sent by the toggle action ignores its argument: it does
    what [toggleView(true)] does, and when it returns the widget is not
    closed.  The show-only action never closes the widget. *)
Theorem show_only_action_always_opens :
  forall (W : World) (this : WidgetId) (Open : bool) (W1 : World),
    setToggleViewActionMode this ActionModeShow W = Done tt W1 ->
    toggleView this (Some (ToggleViewActionOf this)) Open W1 =
      toggleView this (Some (ToggleViewActionOf this)) true W1 /\
    forall W',
      toggleView this (Some (ToggleViewActionOf this)) Open W1 = Done tt W' ->
      Closed (d (widgets W' this)) = false.
Proof.
  intros W this Open W1 H.
  destruct (setToggleViewActionMode_Show_spec W this W1 H)
    as (act' & Hact1 & Hk).
  assert (R : forall b,
            requestedOpen this (Some (ToggleViewActionOf this)) b act' = true).
  { intros b. unfold requestedOpen. cbn. rewrite Nat.eqb_refl, Hk.
    reflexivity. }
  split.
  - rewrite (toggleView_cases W1 this _ Open _ Hact1).
    rewrite (toggleView_cases W1 this _ true _ Hact1).
    rewrite !R. reflexivity.
  - intros W' H'.
    destruct (Bool.eqb (Closed (d (widgets W1 this)))
                (requestedOpen this (Some (ToggleViewActionOf this)) Open act'))
      eqn:E.
    + rewrite (toggleView_cases W1 this _ Open _ Hact1), E, R in H'.
      exact (proj1 (transition_sets_closed W1 this true W' H')).
    + rewrite (toggleView_idle W1 this _ Open _ W' Hact1 E H').
      rewrite R in E. destruct (Closed (d (widgets W1 this)));
        [discriminate E|reflexivity].
Qed.

Lemma show_only_action_always_opens_witness :
  toggleView 0 (Some (ToggleViewActionOf 0)) false
    (outWorld (setToggleViewActionMode 0 ActionModeShow tuckedWorld)) =
  toggleView 0 (Some (ToggleViewActionOf 0)) true
    (outWorld (setToggleViewActionMode 0 ActionModeShow tuckedWorld)).
Proof.
  assert (E : setToggleViewActionMode 0 ActionModeShow tuckedWorld =
              Done tt (outWorld (setToggleViewActionMode 0 ActionModeShow
                                   tuckedWorld)))
    by (vm_compute; reflexivity).
  exact (proj1 (show_only_action_always_opens tuckedWorld 0 false _ E)).
Defined.

(** ** The signals of a transition *)

Lemma step_emits_no_transition_signal this (Open : bool) :
  preserves (logGrows notTransitionSignal)
    (if Open then showDockWidget this else hideDockWidget this).
Proof.
  unfold_operations.
  grows_steps; try (apply logGrows_allocation; reflexivity).
Qed.

(** X3: a transition that returns has emitted [viewToggled(Open)] as its
    last signal, [closed] directly before it exactly when the widget was
    closed, and neither of the two anywhere else: one [viewToggled] per
    transition, one [closed] per close and none per open. *)
Theorem transition_signals_closed_then_viewToggled :
  forall (W : World) (this : WidgetId) (Open : bool) (W' : World),
    toggleViewInternal this Open W = Done tt W' ->
    exists before,
      log W' = log W ++ before ++
                 (if Open then [] else [EmitClosed this]) ++
                 [EmitViewToggled this Open] /\
      forallb notTransitionSignal before = true /\
      countEvents isClosedSignal (log W') =
        countEvents isClosedSignal (log W) + (if Open then 0 else 1) /\
      countEvents isViewToggled (log W') =
        S (countEvents isViewToggled (log W)).
Proof.
  intros W this Open W' H.
  destruct (toggleViewInternal_tail W this Open W' H) as (W1 & act & E1 & _ & T).
  pose proof (step_emits_no_transition_signal this Open W) as G.
  rewrite E1 in G. cbn [outWorld] in G. destruct G as (r1 & L1 & Q1).
  destruct (tt_log _ _ _ _ _ T) as (r2 & L2 & Q2).
  assert (Q2' : forallb notTransitionSignal r2 = true).
  { revert Q2. apply forallb_weaken.
    intros [] E; solve [reflexivity|discriminate E]. }
  assert (Z : forall P, (forall e, notTransitionSignal e = true -> P e = false) ->
                        countEvents P (r1 ++ r2) = 0).
  { intros P HP. unfold countEvents.
    assert (Q : forallb notTransitionSignal (r1 ++ r2) = true)
      by (rewrite forallb_app, Q1, Q2'; reflexivity).
    induction (r1 ++ r2) as [|e l IH]; [reflexivity|].
    simpl in Q. apply andb_prop in Q. destruct Q as [Qe Ql].
    simpl. rewrite (HP e Qe). apply IH. exact Ql. }
  assert (L : log W' = log W ++ (r1 ++ r2) ++
                 (if Open then [] else [EmitClosed this]) ++
                 [EmitViewToggled this Open]).
  { rewrite L2, L1, <- !app_assoc. reflexivity. }
  exists (r1 ++ r2). split; [exact L|].
  split; [rewrite forallb_app, Q1, Q2'; reflexivity|].
  rewrite L, !countEvents_app.
  rewrite <- (countEvents_app isClosedSignal r1 r2).
  rewrite <- (countEvents_app isViewToggled r1 r2).
  rewrite !Z.
  - destruct Open; unfold countEvents; simpl; split; lia.
  - intros e He. unfold notTransitionSignal in He.
    apply andb_prop in He. destruct He as [_ He].
    apply Bool.negb_true_iff in He. exact He.
  - intros e He. unfold notTransitionSignal in He.
    apply andb_prop in He. destruct He as [He _].
    apply Bool.negb_true_iff in He. exact He.
Qed.

Lemma transition_signals_closed_then_viewToggled_witness :
  exists before,
    log (outWorld (toggleViewInternal 1 false dockedWorld)) =
      log dockedWorld ++ before ++ [EmitClosed 1] ++ [EmitViewToggled 1 false] /\
    forallb notTransitionSignal before = true.
Proof.
  assert (E : toggleViewInternal 1 false dockedWorld =
              Done tt (outWorld (toggleViewInternal 1 false dockedWorld)))
    by (vm_compute; reflexivity).
  destruct (transition_signals_closed_then_viewToggled dockedWorld 1 false _ E)
    as (before & L & Q & _).
  exists before. split; [exact L|exact Q].
Defined.

(** ** Transitions and the other dock widgets *)













(** ** The toggle action stays in sync *)
























(** ** Construction *)



(** ** The invariant of the toggle action *)




(** ** [isFloating] *)

Lemma isFloating_run (W : World) (this : WidgetId) :
  isFloating this W = Done (floatingNow W this) W.
Proof.
  unfold isFloating, isInFloatingContainer.
  rewrite bind_assoc.
  rewrite (bind_done _ _ (dockContainer_value this W)).
  unfold floatingNow.
  destruct (containerOf W this) as [c|] eqn:Hc; [|reflexivity].
  rewrite bind_assoc. unfold Container_isFloating.
  rewrite (bind_done _ _ (gets_run _ W)).
  destruct (contIsFloating (containers W c)) eqn:Hf; cbn [negb]; [|reflexivity].
  unfold ret at 1. unfold bind at 1. cbn [negb].
  rewrite (bind_done _ _ (dockContainer_value this W)). rewrite Hc.
  reflexivity.
Qed.

Lemma filter_singleton {A} (P : A -> bool) (l : list A) (t : A) :
  filter P l = [t] ->
  P t = true /\ In t l /\ forall x, In x l -> x <> t -> P x = false.
Proof.
  intros E.
  assert (Ht : In t (filter P l)) by (rewrite E; left; reflexivity).
  apply filter_In in Ht. destruct Ht as [Hin Hp].
  split; [exact Hp|]. split; [exact Hin|].
  intros x Hx Hne. destruct (P x) eqn:Px; [|reflexivity].
  assert (Hf : In x (filter P l)) by (apply filter_In; split; assumption).
  rewrite E in Hf. destruct Hf as [Hf|[]]. exfalso. apply Hne. symmetry.
  exact Hf.
Qed.

(** X7: [isFloating] always returns and changes nothing: the pointer that
    line 364 dereferences is the one [isInFloatingContainer] has just
    found non-null.  It is false for a dock widget without dock area, and
    when it is true the widget is open, sits in a floating dock
    container, and every other dock widget of that container is
    closed. *)
Theorem isFloating_total_and_exact :
  forall (W : World) (this : WidgetId),
    isFloating this W = Done (floatingNow W this) W /\
    (DockArea (d (widgets W this)) = None -> floatingNow W this = false) /\
    (floatingNow W this = true ->
     exists c,
       containerOf W this = Some c /\
       contIsFloating (containers W c) = true /\
       Closed (d (widgets W this)) = false /\
       forall x, x < nWidgets W -> x <> this ->
                 inContainer W c x = true ->
                 Closed (d (widgets W x)) = true).
Proof.
  intros W this. split; [apply isFloating_run|]. split.
  - intros Ha. unfold floatingNow, containerOf. rewrite Ha. reflexivity.
  - unfold floatingNow.
    destruct (containerOf W this) as [c|] eqn:Hc; [|discriminate].
    destruct (contIsFloating (containers W c)) eqn:Hf; [|discriminate].
    intros Ht. exists c. split; [reflexivity|]. split; [exact Hf|].
    unfold topLevelDockWidget in Ht. rewrite Hf in Ht.
    destruct (filter _ _) as [|t [|y l]] eqn:E; try discriminate Ht.
    cbn [WidgetPtr_eqb] in Ht. apply Nat.eqb_eq in Ht. subst t.
    destruct (filter_singleton _ _ _ E) as (Hp & _ & Ho).
    apply andb_prop in Hp. destruct Hp as [_ Hopen].
    unfold isOpen in Hopen. apply Bool.negb_true_iff in Hopen.
    split; [exact Hopen|].
    intros x Hx Hne Hin.
    assert (Hs : In x (seq 0 (nWidgets W))) by (apply in_seq; lia).
    specialize (Ho x Hs Hne). rewrite Hin in Ho. cbn [andb] in Ho.
    unfold isOpen in Ho. apply Bool.negb_false_iff in Ho. exact Ho.
Qed.

Lemma isFloating_total_and_exact_witness :
  floatingNow floatingWorld 0 = true /\
  floatingNow freshWorld 0 = false.
Proof.
  assert (A : DockArea (d (widgets freshWorld 0)) = None)
    by (vm_compute; reflexivity).
  split.
  - vm_compute. reflexivity.
  - exact (proj1 (proj2 (isFloating_total_and_exact freshWorld 0)) A).
Defined.

(** ** The top-level notification of another widget *)

(** X8: [emitTopLevelEventForWidget] checks the widget pointer it is
    given but not the dock area of that widget (line 702).  With a null
    pointer it does nothing; for a dock widget without dock area it
    dereferences null; for an assigned one it returns, first asks the
    area to update its title bar and leaves the cached top-level flag of
    the widget at the value passed. *)
Theorem emitTopLevelEventForWidget_needs_dock_area :
  forall (W : World) (Floating : bool),
    emitTopLevelEventForWidget None Floating W = Done tt W /\
    (forall t,
       DockArea (d (widgets W t)) = None ->
       emitTopLevelEventForWidget (Some t) Floating W = NullDeref W) /\
    (forall t a,
       DockArea (d (widgets W t)) = Some a ->
       exists W' rest,
         emitTopLevelEventForWidget (Some t) Floating W = Done tt W' /\
         log W' = log W ++ AreaUpdateTitleBarVisibility a :: rest /\
         IsFloatingTopLevel (d (widgets W' t)) = Floating /\
         bookkeeping W W').
Proof.
  intros W Floating. split; [reflexivity|]. split.
  - intros t Ha.
    unfold emitTopLevelEventForWidget, dockAreaWidget, bind, getD, gets, ret.
    rewrite Ha. reflexivity.
  - intros t a Ha.
    unfold emitTopLevelEventForWidget, dockAreaWidget.
    rewrite bind_assoc. rewrite (bind_done _ _ (getD_run t W)).
    unfold ret at 1. unfold bind at 1. rewrite Ha.
    unfold deref at 1. unfold bind at 1.
    unfold Area_updateTitleBarVisibility. unfold trace at 1. unfold bind at 1.
    set (W1 := set_log (log W ++ [AreaUpdateTitleBarVisibility a]) W).
    assert (B1 : bookkeeping W W1).
    { destruct (bookkeeping_trace (AreaUpdateTitleBarVisibility a) eq_refl W)
        as ([] & W1' & E1 & B1). injection E1 as <-. exact B1. }
    destruct (Bool.bool_dec Floating (IsFloatingTopLevel (d (widgets W1 t))))
      as [E|N].
    + exists W1, []. split; [rewrite E; apply emitTopLevelChanged_same|].
      split; [reflexivity|]. split; [symmetry; exact E|exact B1].
    + destruct (emitTopLevelChanged_changed W1 t Floating N)
        as (W' & rest & H1 & H2 & H3 & _ & H5).
      exists W', (EmitTopLevelChanged t Floating :: rest).
      split; [exact H1|]. split.
      * rewrite H3. unfold W1. cbn [log set_log]. rewrite <- app_assoc.
        reflexivity.
      * split; [exact H2|]. eapply bookkeeping_trans; eassumption.
Qed.

Lemma emitTopLevelEventForWidget_needs_dock_area_witness :
  emitTopLevelEventForWidget (Some 0) true freshWorld = NullDeref freshWorld.
Proof.
  assert (A : DockArea (d (widgets freshWorld 0)) = None)
    by (vm_compute; reflexivity).
  exact (proj1 (proj2 (emitTopLevelEventForWidget_needs_dock_area
                         freshWorld true)) 0 A).
Defined.

(** ** Connections of the toolbar slot *)

Lemma invokeSlots_fixed (n : nat) (slot : M unit) (W : World) :
  slot W = Done tt W -> invokeSlots n slot W = Done tt W.
Proof.
  intros H. induction n as [|n IH]; [reflexivity|].
  cbn [invokeSlots]. rewrite (bind_done _ _ H). exact IH.
Qed.

Lemma invokeSlots_setToolbarFloatingStyle (n : nat) (this : WidgetId)
    (Floating : bool) (W : World) :
  QSize_isValid (keptIconSize (d (widgets W this)) Floating) = true ->
  invokeSlots (S n) (setToolbarFloatingStyle this Floating) W =
  setToolbarFloatingStyle this Floating W.
Proof.
  intros Hv. cbn [invokeSlots].
  destruct (restyle_setToolbarFloatingStyle this Floating W)
    as ([] & W1 & E & _).
  rewrite (bind_done _ _ E), E.
  apply invokeSlots_fixed.
  pose proof (setToolbarFloatingStyle_idempotent W this Floating Hv) as I.
  rewrite E in I. exact I.
Qed.

Lemma setToolbarFloatingStyle_calls (this : WidgetId) (Floating : bool)
    (W : World) :
  exists rest,
    log (outWorld (setToolbarFloatingStyle this Floating W)) = log W ++ rest /\
    List.length rest <= 2.
Proof.
  unfold setToolbarFloatingStyle, QToolBar_setIconSize,
    QToolBar_setToolButtonStyle, modifyToolBar.
  unfold bind, getD, gets, deref, modifyD, modifyWidget, trace, when, ret.
  cbv beta iota.
  destruct (ToolBar (d (widgets W this))) as [tb|] eqn:Htb;
    [|exists []; rewrite app_nil_r; split; [reflexivity|simpl; lia]].
  destruct (negb (QSize_eqb _ (tbIconSize tb)));
    destruct (negb (ToolButtonStyle_eqb _ (tbToolButtonStyle tb)));
    cbv beta iota; rewrite ?Htb; cbn [widgets set_widgets set_log];
    rewrite ?upd_same; cbn [d set_d ToolBar set_ToolBar outWorld log set_log
                            widgets set_widgets].
  - eexists [_; _]. rewrite <- app_assoc. split; [reflexivity|simpl; lia].
  - eexists [_]. split; [reflexivity|simpl; lia].
  - eexists [_]. split; [reflexivity|simpl; lia].
  - exists []. rewrite app_nil_r. split; [reflexivity|simpl; lia].
Qed.

(** X9: every call of [setToolBar] and the first of
    [createDefaultToolBar] connect [topLevelChanged] to
    [setToolbarFloatingStyle] once more (lines 189 and 610), and nothing
    disconnects.  When the icon size that the dock widget keeps for the
    state is valid, the repeated connections are harmless: delivering the
    signal to any number of them has the effect of one call of the slot,
    which calls the toolbar at most twice.  (An invalid size is one the
    toolbar does not take over, so the slot can find it different
    again.) *)
Theorem repeated_connections_act_once :
  forall (n : nat) (this : WidgetId) (Floating : bool) (W : World),
    QSize_isValid (keptIconSize (d (widgets W this)) Floating) = true ->
    invokeSlots (S n) (setToolbarFloatingStyle this Floating) W =
      setToolbarFloatingStyle this Floating W /\
    exists rest,
      log (outWorld (invokeSlots (S n) (setToolbarFloatingStyle this Floating) W))
        = log W ++ rest /\
      List.length rest <= 2.
Proof.
  intros n this Floating W Hv.
  split; [apply invokeSlots_setToolbarFloatingStyle; exact Hv|].
  rewrite (invokeSlots_setToolbarFloatingStyle n this Floating W Hv).
  apply setToolbarFloatingStyle_calls.
Qed.

Lemma repeated_connections_act_once_witness :
  invokeSlots 3 (setToolbarFloatingStyle 0 true) toolbarWorld =
  setToolbarFloatingStyle 0 true toolbarWorld.
Proof.
  assert (Hv : QSize_isValid (keptIconSize (d (widgets toolbarWorld 0)) true)
               = true) by (vm_compute; reflexivity).
  exact (proj1 (repeated_connections_act_once 2 0 true toolbarWorld Hv)).
Defined.

(** ** The toolbar follows the top-level state *)

Lemma emitTopLevelChanged_restyles (W : World) (this : WidgetId)
    (Floating : bool) (tb : QToolBar) :
  ToolBar (d (widgets W this)) = Some tb ->
  toolbarStyleSlots (widgets W this) <> 0 ->
  Floating <> IsFloatingTopLevel (d (widgets W this)) ->
  QSize_isValid (keptIconSize (d (widgets W this)) Floating) = true ->
  exists W',
    emitTopLevelChanged this Floating W = Done tt W' /\
    ToolBar (d (widgets W' this)) =
      Some (styledFor (d (widgets W this)) Floating tb).
Proof.
  intros Htb Hn Hne Hv.
  unfold emitTopLevelChanged.
  unfold bind at 1. unfold getD at 1, gets at 1.
  assert (E : Bool.eqb Floating (IsFloatingTopLevel (d (widgets W this))) = false).
  { apply Bool.eqb_false_iff. exact Hne. }
  rewrite E. cbn [negb].
  unfold bind at 1. unfold modifyD at 1, modifyWidget at 1.
  unfold bind at 1. unfold getD at 1, gets at 1.
  cbn [widgets set_widgets]. rewrite upd_same.
  cbn [d set_d IsFloatingTopLevel set_IsFloatingTopLevel].
  unfold emit_topLevelChanged.
  unfold bind at 1. unfold trace at 1.
  unfold bind at 1. unfold getWidget at 1, gets at 1.
  cbn [widgets set_widgets set_log]. rewrite upd_same.
  cbn [toolbarStyleSlots set_d].
  destruct (toolbarStyleSlots (widgets W this)) as [|n]; [contradiction|].
  rewrite invokeSlots_setToolbarFloatingStyle.
  2:{ cbn [widgets set_widgets set_log]. rewrite upd_same. exact Hv. }
  match goal with
  | |- exists W', setToolbarFloatingStyle this Floating ?W2 = _ /\ _ =>
      destruct (setToolbarFloatingStyle_valid W2 this Floating tb)
        as (W' & Es & _ & Ht)
  end.
  { cbn [widgets set_widgets set_log]. rewrite upd_same. exact Htb. }
  { cbn [widgets set_widgets set_log]. rewrite upd_same. exact Hv. }
  exists W'. split; [exact Es|].
  rewrite Ht. cbn [widgets set_widgets set_log]. rewrite upd_same.
  reflexivity.
Qed.

(** X10: for a dock widget with a toolbar and at least one connection of
    the toolbar slot, when the icon size that the widget keeps for the
    new state is valid, a call of [emitTopLevelChanged] with a value that
    differs from the cached one returns and leaves the toolbar with that
    icon size and the button style kept for that state. *)
Theorem toolbar_follows_topLevelChanged :
  forall (W : World) (this : WidgetId) (Floating : bool) (tb : QToolBar),
    ToolBar (d (widgets W this)) = Some tb ->
    toolbarStyleSlots (widgets W this) <> 0 ->
    Floating <> IsFloatingTopLevel (d (widgets W this)) ->
    QSize_isValid (keptIconSize (d (widgets W this)) Floating) = true ->
    exists W' tb',
      emitTopLevelChanged this Floating W = Done tt W' /\
      toolBar this W' = Done (Some tb') W' /\
      tbIconSize tb' = keptIconSize (d (widgets W this)) Floating /\
      tbToolButtonStyle tb' = keptStyle (d (widgets W this)) Floating /\
      toolBarIconSize this (if Floating then StateFloating else StateDocked) W'
        = Done (tbIconSize tb') W' /\
      toolBarStyle this (if Floating then StateFloating else StateDocked) W'
        = Done (tbToolButtonStyle tb') W'.
Proof.
  intros W this Floating tb Htb Hn Hne Hv.
  destruct (emitTopLevelChanged_restyles W this Floating tb Htb Hn Hne Hv)
    as (W' & E & Ht).
  exists W', (styledFor (d (widgets W this)) Floating tb).
  split; [exact E|].
  split; [unfold toolBar, bind, getD, gets, ret; rewrite Ht; reflexivity|].
  split; [reflexivity|]. split; [reflexivity|].
  destruct (bookkeeping_emitTopLevelChanged this Floating W)
    as ([] & W'' & E' & B).
  rewrite E in E'. injection E' as <-.
  unfold toolBarIconSize, toolBarStyle, bind, getD, gets, ret.
  cbn [styledFor tbIconSize tbToolButtonStyle].
  unfold keptIconSize, keptStyle.
  destruct Floating.
  - rewrite (bookkeeping_field (fun x => ToolBarIconSizeFloating (d x))
               _ _ this (fun _ => eq_refl) B).
    rewrite (bookkeeping_field (fun x => ToolBarStyleFloating (d x))
               _ _ this (fun _ => eq_refl) B).
    split; reflexivity.
  - rewrite (bookkeeping_field (fun x => ToolBarIconSizeDocked (d x))
               _ _ this (fun _ => eq_refl) B).
    rewrite (bookkeeping_field (fun x => ToolBarStyleDocked (d x))
               _ _ this (fun _ => eq_refl) B).
    split; reflexivity.
Qed.

Lemma toolbar_follows_topLevelChanged_witness :
  exists W' tb',
    emitTopLevelChanged 0 true toolbarWorld = Done tt W' /\
    toolBar 0 W' = Done (Some tb') W' /\
    tbIconSize tb' = {| width := 24; height := 24 |} /\
    tbToolButtonStyle tb' = ToolButtonTextUnderIcon.
Proof.
  assert (Htb : ToolBar (d (widgets toolbarWorld 0)) =
                Some {| tbIconSize := {| width := 16; height := 16 |};
                        tbToolButtonStyle := ToolButtonIconOnly;
                        tbStyleIconSize := {| width := 24; height := 24 |} |})
    by (vm_compute; reflexivity).
  assert (Hn : toolbarStyleSlots (widgets toolbarWorld 0) <> 0)
    by (vm_compute; discriminate).
  assert (Hne : true <> IsFloatingTopLevel (d (widgets toolbarWorld 0)))
    by (vm_compute; discriminate).
  assert (Hv : QSize_isValid (keptIconSize (d (widgets toolbarWorld 0)) true)
               = true) by (vm_compute; reflexivity).
  assert (S1 : keptIconSize (d (widgets toolbarWorld 0)) true =
               {| width := 24; height := 24 |}) by (vm_compute; reflexivity).
  assert (S2 : keptStyle (d (widgets toolbarWorld 0)) true =
               ToolButtonTextUnderIcon) by (vm_compute; reflexivity).
  destruct (toolbar_follows_topLevelChanged toolbarWorld 0 true _ Htb Hn Hne Hv)
    as (W' & tb' & E & T & A & B & _).
  exists W', tb'. split; [exact E|]. split; [exact T|].
  split; [rewrite A; exact S1|rewrite B; exact S2].
Defined.

(** ** Toolbar setters *)

Lemma floatingNow_ext (W W1 : World) (this : WidgetId) :
  (forall w, DockArea (d (widgets W1 w)) = DockArea (d (widgets W w))) ->
  (forall w, Closed (d (widgets W1 w)) = Closed (d (widgets W w))) ->
  areas W1 = areas W -> containers W1 = containers W ->
  nWidgets W1 = nWidgets W ->
  floatingNow W1 this = floatingNow W this.
Proof.
  intros Ha Hc Har Hco Hn.
  unfold floatingNow, containerOf, topLevelDockWidget.
  rewrite Ha, Har, Hco, Hn.
  destruct (DockArea (d (widgets W this))) as [a|]; [|reflexivity].
  destruct (areaContainer (areas W a)) as [c|]; [|reflexivity].
  destruct (contIsFloating (containers W c)); [|reflexivity].
  rewrite (filter_ext (fun x => inContainer W1 c x && isOpen W1 x)
                      (fun x => inContainer W c x && isOpen W x)).
  - reflexivity.
  - intros x. unfold inContainer, isOpen. rewrite Ha, Hc, Har. reflexivity.
Qed.

Lemma floatingNow_modifyWidget (W : World) (this t : WidgetId)
    (f : CDockWidget -> CDockWidget) :
  (forall x, DockArea (d (f x)) = DockArea (d x)) ->
  (forall x, Closed (d (f x)) = Closed (d x)) ->
  floatingNow (set_widgets (upd (widgets W) t (f (widgets W t))) W) this =
  floatingNow W this.
Proof.
  intros Ha Hc. apply floatingNow_ext; try reflexivity.
  - intros w. cbn [widgets set_widgets]. unfold upd.
    destruct (Nat.eqb_spec w t); [subst; apply Ha|reflexivity].
  - intros w. cbn [widgets set_widgets]. unfold upd.
    destruct (Nat.eqb_spec w t); [subst; apply Hc|reflexivity].
Qed.

Lemma setToolbarFloatingStyle_others (this : WidgetId) (Floating : bool)
    (W : World) (w : WidgetId) :
  w <> this ->
  widgets (outWorld (setToolbarFloatingStyle this Floating W)) w = widgets W w.
Proof.
  intros Hw.
  unfold setToolbarFloatingStyle, QToolBar_setIconSize,
    QToolBar_setToolButtonStyle, modifyToolBar.
  unfold bind, getD, gets, deref, modifyD, modifyWidget, trace, when, ret.
  cbv beta iota.
  destruct (ToolBar (d (widgets W this))) as [tb|] eqn:Htb; [|reflexivity].
  destruct (negb (QSize_eqb _ (tbIconSize tb)));
    destruct (negb (ToolButtonStyle_eqb _ (tbToolButtonStyle tb)));
    cbv beta iota; rewrite ?Htb; cbn [widgets set_widgets set_log];
    rewrite ?upd_same; cbn [d set_d ToolBar set_ToolBar outWorld log set_log
                            widgets set_widgets];
    rewrite ?upd_other by exact Hw; reflexivity.
Qed.

(** Storing a style value and applying the style of the current state. *)
Lemma store_then_restyle (W : World) (this : WidgetId)
    (f : DockWidgetPrivate -> DockWidgetPrivate) :
  (forall p, DockArea (f p) = DockArea p) ->
  (forall p, Closed (f p) = Closed p) ->
  (forall p, ToolBar (f p) = ToolBar p) ->
  QSize_isValid (keptIconSize (f (d (widgets W this))) (floatingNow W this))
    = true ->
  exists W',
    (modifyD this f ;;
     floating <- isFloating this ;;
     setToolbarFloatingStyle this floating) W = Done tt W' /\
    set_d (set_ToolBar None) (widgets W' this) =
      set_d (set_ToolBar None) (set_d f (widgets W this)) /\
    (forall w, w <> this -> widgets W' w = widgets W w) /\
    match ToolBar (d (widgets W this)) with
    | Some tb =>
        ToolBar (d (widgets W' this)) =
          Some (styledFor (f (d (widgets W this))) (floatingNow W this) tb)
    | None => ToolBar (d (widgets W' this)) = None /\ log W' = log W
    end.
Proof.
  intros Ha Hc Ht Hv.
  set (W1 := set_widgets (upd (widgets W) this (set_d f (widgets W this))) W).
  assert (E1 : modifyD this f W = Done tt W1) by reflexivity.
  rewrite (bind_done _ _ E1).
  rewrite (bind_done _ _ (isFloating_run W1 this)).
  assert (F : floatingNow W1 this = floatingNow W this).
  { apply (floatingNow_modifyWidget W this this (set_d f)).
    - intros x. apply Ha.
    - intros x. apply Hc. }
  rewrite F.
  assert (D1 : widgets W1 this = set_d f (widgets W this)).
  { unfold W1. cbn [widgets set_widgets]. apply upd_same. }
  assert (O1 : forall w, w <> this -> widgets W1 w = widgets W w).
  { intros w Hw. unfold W1. cbn [widgets set_widgets].
    apply upd_other. exact Hw. }
  assert (L1 : log W1 = log W) by reflexivity.
  clearbody W1. clear E1 F.
  destruct (ToolBar (d (widgets W this))) as [tb|] eqn:Htb.
  - assert (Htb1 : ToolBar (d (widgets W1 this)) = Some tb).
    { rewrite D1. cbn [d set_d]. rewrite Ht. exact Htb. }
    assert (Hv1 : QSize_isValid
                    (keptIconSize (d (widgets W1 this)) (floatingNow W this))
                  = true).
    { rewrite D1. exact Hv. }
    destruct (setToolbarFloatingStyle_valid W1 this (floatingNow W this) tb
                Htb1 Hv1)
      as (W' & E & Rs & Htb').
    exists W'. split; [exact E|].
    split; [rewrite (rs_widgets _ _ Rs this), D1; reflexivity|].
    split.
    + intros w Hw. rewrite <- (O1 w Hw).
      pose proof (setToolbarFloatingStyle_others this (floatingNow W this)
                    W1 w Hw) as Ow.
      rewrite E in Ow. exact Ow.
    + rewrite Htb', D1. reflexivity.
  - assert (Htb1 : ToolBar (d (widgets W1 this)) = None).
    { rewrite D1. cbn [d set_d]. rewrite Ht. exact Htb. }
    assert (E : setToolbarFloatingStyle this (floatingNow W this) W1 = Done tt W1).
    { unfold setToolbarFloatingStyle.
      rewrite (bind_done _ _ (getD_run this W1)). rewrite Htb1. reflexivity. }
    exists W1. split; [exact E|]. split; [rewrite D1; reflexivity|].
    split; [exact O1|]. split; [exact Htb1|exact L1].
Qed.

Lemma getters_of_erased (x y : CDockWidget) :
  set_d (set_ToolBar None) x = y ->
  ToolBarStyleDocked (d x) = ToolBarStyleDocked (d y) /\
  ToolBarStyleFloating (d x) = ToolBarStyleFloating (d y) /\
  ToolBarIconSizeDocked (d x) = ToolBarIconSizeDocked (d y) /\
  ToolBarIconSizeFloating (d x) = ToolBarIconSizeFloating (d y).
Proof.
  intros H.
  pose proof (f_equal (fun x => (ToolBarStyleDocked (d x),
                                 ToolBarStyleFloating (d x),
                                 ToolBarIconSizeDocked (d x),
                                 ToolBarIconSizeFloating (d x))) H) as K.
  cbn in K. injection K as K1 K2 K3 K4. repeat split; assumption.
Qed.

Lemma styledFor_ext (p q : DockWidgetPrivate) (Floating : bool) (tb : QToolBar) :
  ToolBarStyleDocked p = ToolBarStyleDocked q ->
  ToolBarStyleFloating p = ToolBarStyleFloating q ->
  ToolBarIconSizeDocked p = ToolBarIconSizeDocked q ->
  ToolBarIconSizeFloating p = ToolBarIconSizeFloating q ->
  styledFor p Floating tb = styledFor q Floating tb.
Proof.
  intros H1 H2 H3 H4. unfold styledFor, keptIconSize, keptStyle.
  rewrite H1, H2, H3, H4. reflexivity.
Qed.

Lemma setToolBarStyle_spec (W : World) (this : WidgetId)
    (Style : ToolButtonStyle) (State : eState) :
  QSize_isValid (keptIconSize (d (widgets W this)) (floatingNow W this))
    = true ->
  exists W',
    setToolBarStyle this Style State W = Done tt W' /\
    set_d (set_ToolBar None) (widgets W' this) =
      set_d (fun p => set_ToolBar None
               (match State with
                | StateFloating => set_ToolBarStyleFloating Style p
                | StateDocked => set_ToolBarStyleDocked Style p
                end)) (widgets W this) /\
    (forall w, w <> this -> widgets W' w = widgets W w) /\
    match ToolBar (d (widgets W this)) with
    | Some tb =>
        ToolBar (d (widgets W' this)) =
          Some (styledFor (d (widgets W' this)) (floatingNow W this) tb)
    | None => ToolBar (d (widgets W' this)) = None /\ log W' = log W
    end.
Proof.
  intros Hv. unfold setToolBarStyle.
  destruct State.
  - destruct (store_then_restyle W this (set_ToolBarStyleDocked Style))
      as (W' & E & Hd & Ho & Ht); try (intros; reflexivity); [exact Hv|].
    exists W'. split; [exact E|]. split; [rewrite Hd; reflexivity|].
    split; [exact Ho|].
    destruct (ToolBar (d (widgets W this))) as [tb|]; [|exact Ht].
    rewrite Ht. f_equal.
    destruct (getters_of_erased _ _ Hd) as (G1 & G2 & G3 & G4).
    symmetry. apply styledFor_ext; assumption.
  - destruct (store_then_restyle W this (set_ToolBarStyleFloating Style))
      as (W' & E & Hd & Ho & Ht); try (intros; reflexivity); [exact Hv|].
    exists W'. split; [exact E|]. split; [rewrite Hd; reflexivity|].
    split; [exact Ho|].
    destruct (ToolBar (d (widgets W this))) as [tb|]; [|exact Ht].
    rewrite Ht. f_equal.
    destruct (getters_of_erased _ _ Hd) as (G1 & G2 & G3 & G4).
    symmetry. apply styledFor_ext; assumption.
Qed.

Lemma setToolBarIconSize_spec (W : World) (this : WidgetId)
    (IconSize : QSize) (State : eState) :
  QSize_isValid IconSize = true ->
  QSize_isValid (keptIconSize (d (widgets W this)) (floatingNow W this))
    = true ->
  exists W',
    setToolBarIconSize this IconSize State W = Done tt W' /\
    set_d (set_ToolBar None) (widgets W' this) =
      set_d (fun p => set_ToolBar None
               (match State with
                | StateFloating => set_ToolBarIconSizeFloating IconSize p
                | StateDocked => set_ToolBarIconSizeDocked IconSize p
                end)) (widgets W this) /\
    (forall w, w <> this -> widgets W' w = widgets W w) /\
    match ToolBar (d (widgets W this)) with
    | Some tb =>
        ToolBar (d (widgets W' this)) =
          Some (styledFor (d (widgets W' this)) (floatingNow W this) tb)
    | None => ToolBar (d (widgets W' this)) = None /\ log W' = log W
    end.
Proof.
  intros Hi Hv. unfold setToolBarIconSize.
  destruct State.
  - destruct (store_then_restyle W this (set_ToolBarIconSizeDocked IconSize))
      as (W' & E & Hd & Ho & Ht); try (intros; reflexivity).
    { unfold keptIconSize in *. destruct (floatingNow W this);
        [exact Hv|exact Hi]. }
    exists W'. split; [exact E|]. split; [rewrite Hd; reflexivity|].
    split; [exact Ho|].
    destruct (ToolBar (d (widgets W this))) as [tb|]; [|exact Ht].
    rewrite Ht. f_equal.
    destruct (getters_of_erased _ _ Hd) as (G1 & G2 & G3 & G4).
    symmetry. apply styledFor_ext; assumption.
  - destruct (store_then_restyle W this (set_ToolBarIconSizeFloating IconSize))
      as (W' & E & Hd & Ho & Ht); try (intros; reflexivity).
    { unfold keptIconSize in *. destruct (floatingNow W this);
        [exact Hi|exact Hv]. }
    exists W'. split; [exact E|]. split; [rewrite Hd; reflexivity|].
    split; [exact Ho|].
    destruct (ToolBar (d (widgets W this))) as [tb|]; [|exact Ht].
    rewrite Ht. f_equal.
    destruct (getters_of_erased _ _ Hd) as (G1 & G2 & G3 & G4).
    symmetry. apply styledFor_ext; assumption.
Qed.

(** X11: when the icon size that the dock widget keeps for the state it
    is in is valid, [setToolBarStyle] returns; afterwards [toolBarStyle]
    gives the new style for the state that was set and the old one for
    the other state, the icon sizes are as before, and a toolbar, if the
    dock widget has one, carries the button style and the icon size that
    the widget now keeps for the state it is in; without a toolbar
    nothing is called. *)
Theorem setToolBarStyle_stores_and_applies :
  forall (W : World) (this : WidgetId) (Style : ToolButtonStyle)
         (State : eState),
    QSize_isValid (keptIconSize (d (widgets W this)) (floatingNow W this))
      = true ->
  exists W',
    setToolBarStyle this Style State W = Done tt W' /\
    toolBarStyle this State W' = Done Style W' /\
    (forall v, toolBarStyle this (otherState State) W = Done v W ->
               toolBarStyle this (otherState State) W' = Done v W') /\
    (forall s v, toolBarIconSize this s W = Done v W ->
                 toolBarIconSize this s W' = Done v W') /\
    match ToolBar (d (widgets W this)) with
    | Some _ =>
        exists tb',
          toolBar this W' = Done (Some tb') W' /\
          toolBarStyle this (currentState W this) W' =
            Done (tbToolButtonStyle tb') W' /\
          toolBarIconSize this (currentState W this) W' =
            Done (tbIconSize tb') W'
    | None => toolBar this W' = Done None W' /\ log W' = log W
    end.
Proof.
  intros W this Style State Hv.
  destruct (setToolBarStyle_spec W this Style State Hv)
    as (W' & E & Hd & _ & Ht).
  exists W'. split; [exact E|].
  destruct (getters_of_erased _ _ Hd) as (G1 & G2 & G3 & G4).
  destruct State; cbn in G1, G2, G3, G4.
  all: cbn [otherState].
  all: unfold toolBarStyle, toolBarIconSize, toolBar, bind, getD, gets, ret,
    currentState.
  all: cbv beta iota.
  all: split; [rewrite ?G1, ?G2; reflexivity|].
  all: split; [intros v Hx; injection Hx as <-; rewrite ?G1, ?G2;
               reflexivity|].
  all: split; [intros s v Hx; destruct s; injection Hx as <-;
               rewrite ?G3, ?G4; reflexivity|].
  all: destruct (ToolBar (d (widgets W this)));
    [rewrite Ht; eexists; split; [reflexivity|];
     destruct (floatingNow W this); split; reflexivity
    |destruct Ht as [Ht Hl]; rewrite Ht; split; [reflexivity|exact Hl]].
Qed.

Lemma setToolBarStyle_stores_and_applies_witness :
  exists W',
    setToolBarStyle 0 ToolButtonTextOnly StateDocked toolbarWorld = Done tt W' /\
    toolBarStyle 0 StateDocked W' = Done ToolButtonTextOnly W'.
Proof.
  assert (Hv : QSize_isValid
                 (keptIconSize (d (widgets toolbarWorld 0))
                    (floatingNow toolbarWorld 0)) = true)
    by (vm_compute; reflexivity).
  destruct (setToolBarStyle_stores_and_applies toolbarWorld 0
              ToolButtonTextOnly StateDocked Hv) as (W' & E & G & _).
  exists W'. split; [exact E|exact G].
Defined.

(** X12: when the new icon size and the icon size that the dock widget
    keeps for the state it is in are valid, [setToolBarIconSize] returns;
    afterwards [toolBarIconSize] gives the new size for the state that
    was set and the old one for the other state, the button styles are as
    before, and a toolbar, if the dock widget has one, carries the icon
    size and the button style that the widget now keeps for the state it
    is in; without a toolbar nothing is called. *)
Theorem setToolBarIconSize_stores_and_applies :
  forall (W : World) (this : WidgetId) (IconSize : QSize) (State : eState),
    QSize_isValid IconSize = true ->
    QSize_isValid (keptIconSize (d (widgets W this)) (floatingNow W this))
      = true ->
  exists W',
    setToolBarIconSize this IconSize State W = Done tt W' /\
    toolBarIconSize this State W' = Done IconSize W' /\
    (forall v, toolBarIconSize this (otherState State) W = Done v W ->
               toolBarIconSize this (otherState State) W' = Done v W') /\
    (forall s v, toolBarStyle this s W = Done v W ->
                 toolBarStyle this s W' = Done v W') /\
    match ToolBar (d (widgets W this)) with
    | Some _ =>
        exists tb',
          toolBar this W' = Done (Some tb') W' /\
          toolBarIconSize this (currentState W this) W' =
            Done (tbIconSize tb') W' /\
          toolBarStyle this (currentState W this) W' =
            Done (tbToolButtonStyle tb') W'
    | None => toolBar this W' = Done None W' /\ log W' = log W
    end.
Proof.
  intros W this IconSize State Hi Hv.
  destruct (setToolBarIconSize_spec W this IconSize State Hi Hv)
    as (W' & E & Hd & _ & Ht).
  exists W'. split; [exact E|].
  destruct (getters_of_erased _ _ Hd) as (G1 & G2 & G3 & G4).
  destruct State; cbn in G1, G2, G3, G4.
  all: cbn [otherState].
  all: unfold toolBarStyle, toolBarIconSize, toolBar, bind, getD, gets, ret,
    currentState.
  all: cbv beta iota.
  all: split; [rewrite ?G3, ?G4; reflexivity|].
  all: split; [intros v Hx; injection Hx as <-; rewrite ?G3, ?G4;
               reflexivity|].
  all: split; [intros s v Hx; destruct s; injection Hx as <-;
               rewrite ?G1, ?G2; reflexivity|].
  all: destruct (ToolBar (d (widgets W this)));
    [rewrite Ht; eexists; split; [reflexivity|];
     destruct (floatingNow W this); split; reflexivity
    |destruct Ht as [Ht Hl]; rewrite Ht; split; [reflexivity|exact Hl]].
Qed.

Lemma setToolBarIconSize_stores_and_applies_witness :
  exists W',
    setToolBarIconSize 0 {| width := 32; height := 32 |} StateDocked
      toolbarWorld = Done tt W' /\
    toolBarIconSize 0 StateDocked W' = Done {| width := 32; height := 32 |} W'.
Proof.
  assert (Hi : QSize_isValid {| width := 32; height := 32 |} = true)
    by reflexivity.
  assert (Hv : QSize_isValid
                 (keptIconSize (d (widgets toolbarWorld 0))
                    (floatingNow toolbarWorld 0)) = true)
    by (vm_compute; reflexivity).
  destruct (setToolBarIconSize_stores_and_applies toolbarWorld 0
              {| width := 32; height := 32 |} StateDocked Hi Hv)
    as (W' & E & G & _).
  exists W'. split; [exact E|exact G].
Defined.

(** ** Installing a toolbar *)

Lemma setToolBar_own (W : World) (this : WidgetId) (old : QToolBar) :
  ToolBar (d (widgets W this)) = Some old ->
  setToolBar this OwnToolBar W =
  NullDeref (set_widgets
               (upd (widgets W) this (set_d (set_ToolBar None) (widgets W this)))
               W).
Proof.
  intros Hold. unfold setToolBar.
  rewrite (bind_done _ _ (getD_run this W)). rewrite Hold.
  cbn [isSome when pointee]. unfold bind, modifyD, modifyWidget, deref.
  reflexivity.
Qed.

Lemma setToolBar_usable (W : World) (this : WidgetId) (toolBar' : QToolBarPtr)
    (tb : option QToolBar) :
  pointee (ToolBar (d (widgets W this))) toolBar' = Some tb ->
  (forall x, tb = Some x ->
     QSize_isValid (keptIconSize (d (widgets W this)) (floatingNow W this))
       = true) ->
  exists W',
    setToolBar this toolBar' W = Done tt W' /\
    ToolBar (d (widgets W' this)) =
      option_map (styledFor (d (widgets W this)) (floatingNow W this)) tb /\
    toolbarStyleSlots (widgets W' this) = S (toolbarStyleSlots (widgets W this)) /\
    (tb = None -> log W' = log W) /\
    (forall w, w <> this -> widgets W' w = widgets W w).
Proof.
  intros Hp Hv. unfold setToolBar.
  rewrite (bind_done _ _ (getD_run this W)). rewrite Hp.
  set (W0 := outWorld (when (isSome (ToolBar (d (widgets W this))))
                         (modifyD this (set_ToolBar None)) W)).
  assert (E0 : when (isSome (ToolBar (d (widgets W this))))
                 (modifyD this (set_ToolBar None)) W = Done tt W0).
  { unfold W0. destruct (ToolBar (d (widgets W this))); reflexivity. }
  assert (X0 : set_d (set_ToolBar None) (widgets W0 this) =
               set_d (set_ToolBar None) (widgets W this)).
  { unfold W0. destruct (ToolBar (d (widgets W this))); cbn [isSome when outWorld];
      [|reflexivity].
    cbn. rewrite upd_same. reflexivity. }
  assert (O0 : forall w, w <> this -> widgets W0 w = widgets W w).
  { intros w Hw. unfold W0.
    destruct (ToolBar (d (widgets W this))); cbn [isSome when outWorld];
      [|reflexivity].
    cbn. rewrite upd_other by exact Hw. reflexivity. }
  assert (F0 : set_widgets (widgets W) W0 = W).
  { unfold W0. destruct (ToolBar (d (widgets W this))); cbn [isSome when outWorld];
      destruct W; reflexivity. }
  clearbody W0.
  rewrite (bind_done _ _ E0).
  assert (Ed : deref (Some tb) W0 = Done tb W0) by reflexivity.
  rewrite (bind_done _ _ Ed). clear Ed.
  set (W1 := set_widgets (upd (widgets W0) this
                            (set_d (set_ToolBar tb) (widgets W0 this))) W0).
  assert (E1 : modifyD this (set_ToolBar tb) W0 = Done tt W1) by reflexivity.
  rewrite (bind_done _ _ E1).
  set (W2 := set_widgets
               (upd (widgets W1) this
                  (set_toolbarStyleSlots (S (toolbarStyleSlots (widgets W1 this)))
                     (widgets W1 this))) W1).
  assert (E2 : modifyWidget this
                 (fun x => set_toolbarStyleSlots (S (toolbarStyleSlots x)) x) W1 =
               Done tt W2) by reflexivity.
  rewrite (bind_done _ _ E2).
  rewrite (bind_done _ _ (isFloating_run W2 this)).
  assert (D2 : widgets W2 this =
               set_toolbarStyleSlots (S (toolbarStyleSlots (widgets W0 this)))
                 (set_d (set_ToolBar tb) (widgets W0 this))).
  { unfold W2, W1. cbn [widgets set_widgets]. rewrite !upd_same. reflexivity. }
  assert (O2 : forall w, w <> this -> widgets W2 w = widgets W w).
  { intros w Hw. unfold W2, W1. cbn [widgets set_widgets].
    rewrite !upd_other by exact Hw. apply O0. exact Hw. }
  assert (L2 : log W2 = log W).
  { unfold W2, W1. cbn [log set_widgets]. exact (f_equal log F0). }
  assert (P : forall w, DockArea (d (widgets W2 w)) = DockArea (d (widgets W w)) /\
                        Closed (d (widgets W2 w)) = Closed (d (widgets W w))).
  { intros w. destruct (Nat.eq_dec w this) as [->|N].
    - rewrite D2. cbn.
      split; [exact (f_equal (fun x => DockArea (d x)) X0)
             |exact (f_equal (fun x => Closed (d x)) X0)].
    - rewrite (O2 w N). split; reflexivity. }
  assert (F2 : floatingNow W2 this = floatingNow W this).
  { apply floatingNow_ext.
    - intros w. apply P.
    - intros w. apply P.
    - unfold W2, W1. cbn [areas set_widgets]. exact (f_equal areas F0).
    - unfold W2, W1. cbn [containers set_widgets].
      exact (f_equal containers F0).
    - unfold W2, W1. cbn [nWidgets set_widgets]. exact (f_equal nWidgets F0). }
  rewrite F2.
  destruct (getters_of_erased _ _ X0) as (G1 & G2 & G3 & G4).
  assert (K2 : forall x,
             styledFor (d (widgets W2 this)) (floatingNow W this) x =
             styledFor (d (widgets W this)) (floatingNow W this) x).
  { intros x. rewrite D2. apply styledFor_ext; cbn; assumption. }
  assert (S2 : toolbarStyleSlots (widgets W2 this) =
               S (toolbarStyleSlots (widgets W this))).
  { rewrite D2. cbn.
    exact (f_equal S (f_equal toolbarStyleSlots X0)). }
  clear E1 E2. clearbody W2. clear W1.
  destruct tb as [x|].
  - assert (Htb : ToolBar (d (widgets W2 this)) = Some x)
      by (rewrite D2; reflexivity).
    assert (Hv2 : QSize_isValid
                    (keptIconSize (d (widgets W2 this)) (floatingNow W this))
                  = true).
    { rewrite <- (Hv x eq_refl). unfold keptIconSize. rewrite D2. cbn.
      rewrite G3, G4. reflexivity. }
    destruct (setToolbarFloatingStyle_valid W2 this (floatingNow W this) x
                Htb Hv2) as (W' & E & Rs & Ht).
    exists W'. split; [exact E|].
    split; [rewrite Ht, K2; reflexivity|].
    split.
    { pose proof (f_equal toolbarStyleSlots (rs_widgets _ _ Rs this)) as K.
      cbn in K. rewrite K. exact S2. }
    split; [discriminate|].
    intros w Hw. rewrite <- (O2 w Hw).
    pose proof (setToolbarFloatingStyle_others this (floatingNow W this)
                  W2 w Hw) as Ow.
    rewrite E in Ow. exact Ow.
  - assert (Htb : ToolBar (d (widgets W2 this)) = None)
      by (rewrite D2; reflexivity).
    assert (E : setToolbarFloatingStyle this (floatingNow W this) W2 = Done tt W2).
    { unfold setToolbarFloatingStyle.
      rewrite (bind_done _ _ (getD_run this W2)). rewrite Htb. reflexivity. }
    exists W2. split; [exact E|].
    split; [exact Htb|]. split; [exact S2|].
    split; [intros _; exact L2|exact O2].
Qed.

(** X13: [setToolBar] deletes the toolbar that the dock widget has.
    Given that very toolbar again, as in [setToolBar(toolBar())], it goes
    on to use the deleted object and has no defined outcome.  Given any
    other toolbar, when the icon size that the dock widget keeps for the
    state it is in is valid, it returns, and the toolbar installed does
    not keep its own icon size and button style: it carries the ones the
    dock widget keeps for that state.  Given null it returns and calls
    nothing.  Every call that returns adds a connection of
    [topLevelChanged] to the toolbar slot and changes no other dock
    widget. *)
Theorem setToolBar_installs_in_current_style :
  forall (W : World) (this : WidgetId),
    (ToolBar (d (widgets W this)) <> None ->
     completes (setToolBar this OwnToolBar W) = false) /\
    (forall tb,
       QSize_isValid (keptIconSize (d (widgets W this)) (floatingNow W this))
         = true ->
       exists W' tb',
         setToolBar this (OtherToolBar tb) W = Done tt W' /\
         toolBar this W' = Done (Some tb') W' /\
         tbIconSize tb' =
           keptIconSize (d (widgets W this)) (floatingNow W this) /\
         tbToolButtonStyle tb' =
           keptStyle (d (widgets W this)) (floatingNow W this) /\
         toolbarStyleSlots (widgets W' this) =
           S (toolbarStyleSlots (widgets W this)) /\
         (forall w, w <> this -> widgets W' w = widgets W w)) /\
    (exists W',
       setToolBar this NullToolBar W = Done tt W' /\
       toolBar this W' = Done None W' /\
       toolbarStyleSlots (widgets W' this) =
         S (toolbarStyleSlots (widgets W this)) /\
       log W' = log W /\
       (forall w, w <> this -> widgets W' w = widgets W w)).
Proof.
  intros W this. split; [|split].
  - intros Hold.
    destruct (ToolBar (d (widgets W this))) as [old|] eqn:E;
      [|exfalso; apply Hold; reflexivity].
    rewrite (setToolBar_own W this old E). reflexivity.
  - intros tb Hv.
    destruct (setToolBar_usable W this (OtherToolBar tb) (Some tb) eq_refl
                (fun _ _ => Hv))
      as (W' & E & T & S1 & _ & O).
    exists W', (styledFor (d (widgets W this)) (floatingNow W this) tb).
    split; [exact E|].
    split; [unfold toolBar, bind, getD, gets, ret; rewrite T; reflexivity|].
    split; [reflexivity|]. split; [reflexivity|].
    split; [exact S1|exact O].
  - destruct (setToolBar_usable W this NullToolBar None eq_refl)
      as (W' & E & T & S1 & L & O).
    { intros x Hx. discriminate Hx. }
    exists W'. split; [exact E|].
    split; [unfold toolBar, bind, getD, gets, ret; rewrite T; reflexivity|].
    split; [exact S1|]. split; [exact (L eq_refl)|exact O].
Qed.

Lemma setToolBar_installs_in_current_style_witness :
  completes (setToolBar 0 OwnToolBar toolbarWorld) = false /\
  exists W' tb',
    setToolBar 0 (OtherToolBar
                    {| tbIconSize := {| width := 48; height := 48 |};
                       tbToolButtonStyle := ToolButtonTextOnly;
                       tbStyleIconSize := {| width := 24; height := 24 |} |})
      toolbarWorld = Done tt W' /\
    toolBar 0 W' = Done (Some tb') W' /\
    tbIconSize tb' = {| width := 16; height := 16 |}.
Proof.
  assert (Hold : ToolBar (d (widgets toolbarWorld 0)) <> None)
    by (vm_compute; discriminate).
  assert (Hv : QSize_isValid
                 (keptIconSize (d (widgets toolbarWorld 0))
                    (floatingNow toolbarWorld 0)) = true)
    by (vm_compute; reflexivity).
  assert (S1 : keptIconSize (d (widgets toolbarWorld 0))
                 (floatingNow toolbarWorld 0) = {| width := 16; height := 16 |})
    by (vm_compute; reflexivity).
  destruct (setToolBar_installs_in_current_style toolbarWorld 0)
    as (A & B & _).
  split; [exact (A Hold)|].
  destruct (B {| tbIconSize := {| width := 48; height := 48 |};
                 tbToolButtonStyle := ToolButtonTextOnly;
                 tbStyleIconSize := {| width := 24; height := 24 |} |} Hv)
    as (W' & tb' & E & T & I & _).
  exists W', tb'. split; [exact E|]. split; [exact T|].
  rewrite I. exact S1.
Defined.

(** ** The default toolbar *)

Lemma createDefaultToolBar_fresh (W : World) (this : WidgetId)
    (fresh : QToolBar) :
  ToolBar (d (widgets W this)) = None ->
  exists W',
    createDefaultToolBar this fresh W =
      Done (Some {| tbIconSize := {| width := 16; height := 16 |};
                    tbToolButtonStyle := tbToolButtonStyle fresh;
                    tbStyleIconSize := tbStyleIconSize fresh |}) W' /\
    widgets W' this =
      set_toolbarStyleSlots (S (toolbarStyleSlots (widgets W this)))
        (set_d (set_ToolBar
                  (Some {| tbIconSize := {| width := 16; height := 16 |};
                           tbToolButtonStyle := tbToolButtonStyle fresh;
                    tbStyleIconSize := tbStyleIconSize fresh |}))
               (widgets W this)) /\
    (forall w, w <> this -> widgets W' w = widgets W w) /\
    log W' = log W ++ [ToolBarSetIconSize this {| width := 16; height := 16 |}].
Proof.
  intros Htb.
  unfold createDefaultToolBar, setupToolBar, QToolBar_setIconSize, modifyToolBar.
  unfold bind, getD, gets, deref, modifyD, modifyWidget, trace, when, ret.
  cbv beta iota. rewrite Htb. cbn [isSome negb].
  cbv beta iota. cbn [widgets set_widgets set_log]. rewrite ?upd_same.
  cbn [d set_d ToolBar set_ToolBar].
  cbv beta iota. cbn [widgets set_widgets set_log]. rewrite ?upd_same.
  cbn [d set_d ToolBar set_ToolBar set_toolbarStyleSlots toolbarStyleSlots].
  eexists. split; [reflexivity|].
  cbn [widgets set_widgets set_log log]. rewrite ?upd_same.
  split; [reflexivity|]. split; [|reflexivity].
  intros w Hw. rewrite !upd_other by exact Hw. reflexivity.
Qed.

Lemma createDefaultToolBar_existing (W : World) (this : WidgetId)
    (fresh tb : QToolBar) :
  ToolBar (d (widgets W this)) = Some tb ->
  createDefaultToolBar this fresh W = Done (Some tb) W.
Proof.
  intros Htb.
  unfold createDefaultToolBar, bind, getD, gets, when, ret.
  rewrite Htb. cbn [isSome negb]. cbv beta iota. rewrite Htb. reflexivity.
Qed.

(** X14: [createDefaultToolBar] never returns null.  For a dock widget
    that has a toolbar it returns that toolbar and changes nothing, so a
    second call is without effect and adds no connection.  Otherwise it
    makes one with the fixed icon size 16x16 and the button style of a
    new [QToolBar]: unlike [setToolBar] it does not apply the sizes and
    styles the dock widget keeps for its state, whatever they are; those
    arrive with the next [topLevelChanged], to which it connects. *)
Theorem createDefaultToolBar_fixed_style_once :
  forall (W : World) (this : WidgetId) (fresh : QToolBar),
  exists tb W',
    createDefaultToolBar this fresh W = Done (Some tb) W' /\
    (forall again, createDefaultToolBar this again W' = Done (Some tb) W') /\
    match ToolBar (d (widgets W this)) with
    | Some old => tb = old /\ W' = W
    | None =>
        tbIconSize tb = {| width := 16; height := 16 |} /\
        tbToolButtonStyle tb = tbToolButtonStyle fresh /\
        toolbarStyleSlots (widgets W' this) =
          S (toolbarStyleSlots (widgets W this)) /\
        log W' = log W ++ [ToolBarSetIconSize this {| width := 16; height := 16 |}]
    end.
Proof.
  intros W this fresh.
  destruct (ToolBar (d (widgets W this))) as [old|] eqn:Htb.
  - exists old, W. split; [apply createDefaultToolBar_existing; exact Htb|].
    split; [intros again; apply createDefaultToolBar_existing; exact Htb|].
    split; reflexivity.
  - destruct (createDefaultToolBar_fresh W this fresh Htb)
      as (W' & E & Hd & _ & Hl).
    eexists. exists W'. split; [exact E|].
    split.
    + intros again. apply createDefaultToolBar_existing.
      rewrite Hd. reflexivity.
    + split; [reflexivity|]. split; [reflexivity|].
      split; [rewrite Hd; reflexivity|exact Hl].
Qed.

(** ** The raw setter of the closed flag *)

(** X15: [setClosedState] stores the flag and does nothing else: the
    toggle action is not updated, nothing is hidden or shown and no
    signal is emitted.  On a dock widget that has a dock area and whose
    toggle action is in sync, a call that changes the flag therefore
    leaves the action out of sync; on one without dock area whose action
    is in sync, the action stays in sync. *)
Theorem setClosedState_bypasses_toggle_action :
  forall (W : World) (this : WidgetId) (closed : bool),
    toggleActionInSync W this ->
    exists W',
      setClosedState this closed W = Done tt W' /\
      isClosed this W' = Done closed W' /\
      widgets W' this = set_d (set_Closed closed) (widgets W this) /\
      (forall w, w <> this -> widgets W' w = widgets W w) /\
      log W' = log W /\
      (DockArea (d (widgets W this)) <> None ->
       closed <> Closed (d (widgets W this)) ->
       ~ toggleActionInSync W' this) /\
      (DockArea (d (widgets W this)) = None -> toggleActionInSync W' this).
Proof.
  intros W this closed HS.
  eexists. split; [reflexivity|].
  cbn [widgets set_widgets log]. rewrite !upd_same.
  split.
  { unfold isClosed, bind, getD, gets, ret. cbn [widgets set_widgets].
    rewrite upd_same. reflexivity. }
  split; [reflexivity|].
  split; [intros w Hw; rewrite upd_other by exact Hw; reflexivity|].
  split; [reflexivity|].
  unfold toggleActionInSync in *. cbn [widgets set_widgets].
  rewrite !upd_same. cbn [d set_d ToggleViewAction DockArea Closed set_Closed].
  rewrite HS. split.
  - intros Ha Hne.
    destruct (DockArea (d (widgets W this))); [|contradiction].
    cbn [isSome andb]. intros E. injection E as E.
    apply Hne. destruct closed, (Closed (d (widgets W this)));
      try reflexivity; discriminate E.
  - intros Ha. rewrite Ha. reflexivity.
Qed.

Lemma setClosedState_bypasses_toggle_action_witness :
  ~ toggleActionInSync (outWorld (setClosedState 1 true dockedWorld)) 1.
Proof.
  assert (HS : toggleActionInSync dockedWorld 1) by (vm_compute; reflexivity).
  assert (Ha : DockArea (d (widgets dockedWorld 1)) <> None)
    by (vm_compute; discriminate).
  assert (Hc : true <> Closed (d (widgets dockedWorld 1)))
    by (vm_compute; discriminate).
  destruct (setClosedState_bypasses_toggle_action dockedWorld 1 true HS)
    as (W' & E & _ & _ & _ & _ & N & _).
  injection E as <-. exact (N Ha Hc).
Defined.

(** ** Icon and action mode *)

Lemma setIcon_then_mode (W : World) (this : WidgetId) (Icon : QIcon)
    (Mode : eToggleViewActionMode) (tab : CDockWidgetTab) (act : QAction) :
  TabWidget (d (widgets W this)) = Some tab ->
  ToggleViewAction (d (widgets W this)) = Some act ->
  exists W',
    (setIcon this Icon ;; setToggleViewActionMode this Mode) W = Done tt W' /\
    d (widgets W' this) =
      set_ToggleViewAction
        (Some (set_actIcon (match Mode with
                            | ActionModeShow => Icon
                            | ActionModeToggle => None
                            end)
                 (if Bool.eqb (actCheckable act)
                       (match Mode with
                        | ActionModeShow => false
                        | ActionModeToggle => true
                        end)
                  then act
                  else set_actChecked false
                         (set_actCheckable (match Mode with
                                            | ActionModeShow => false
                                            | ActionModeToggle => true
                                            end) act))))
        (set_TabWidget (Some (set_tabIcon Icon tab)) (d (widgets W this))) /\
    set_d (fun _ => d (widgets W this)) (widgets W' this) = widgets W this /\
    (forall w, w <> this -> widgets W' w = widgets W w) /\
    set_widgets (widgets W) W' = W.
Proof.
  intros Htab Hact.
  unfold setIcon, setToggleViewActionMode, Tab_setIcon, Tab_icon,
    QAction_isCheckable, QAction_setIcon, QAction_setCheckable, modifyAction,
    modifyTab.
  unfold bind, getD, gets, deref, modifyD, modifyWidget, when, ret.
  cbv beta iota. rewrite Htab. cbv beta iota.
  cbn [widgets set_widgets]. rewrite ?upd_same.
  cbn [d set_d ToggleViewAction set_TabWidget TabWidget]. rewrite Hact.
  cbv beta iota.
  destruct (actCheckable act) eqn:Hc, Mode; cbn [negb]; cbv beta iota;
    repeat (cbn [widgets set_widgets]; rewrite ?upd_same;
            cbn [d set_d ToggleViewAction set_ToggleViewAction set_TabWidget
                 TabWidget actCheckable set_actIcon];
            cbv beta iota; rewrite ?Hact, ?Hc; cbn [Bool.eqb]);
    (eexists; split; [reflexivity|]);
    cbn [widgets set_widgets]; rewrite ?upd_same;
    (split; [reflexivity|]);
    (split; [destruct (widgets W this); reflexivity|]);
    (split; [intros w Hw; rewrite !upd_other by exact Hw; reflexivity|]);
    destruct W; reflexivity.
Qed.

Lemma mode_then_setIcon (W : World) (this : WidgetId) (Icon : QIcon)
    (Mode : eToggleViewActionMode) (tab : CDockWidgetTab) (act : QAction) :
  TabWidget (d (widgets W this)) = Some tab ->
  ToggleViewAction (d (widgets W this)) = Some act ->
  exists W',
    (setToggleViewActionMode this Mode ;; setIcon this Icon) W = Done tt W' /\
    d (widgets W' this) =
      set_ToggleViewAction
        (Some (set_actIcon (match Mode with
                            | ActionModeShow => Icon
                            | ActionModeToggle => None
                            end)
                 (if Bool.eqb (actCheckable act)
                       (match Mode with
                        | ActionModeShow => false
                        | ActionModeToggle => true
                        end)
                  then act
                  else set_actChecked false
                         (set_actCheckable (match Mode with
                                            | ActionModeShow => false
                                            | ActionModeToggle => true
                                            end) act))))
        (set_TabWidget (Some (set_tabIcon Icon tab)) (d (widgets W this))) /\
    set_d (fun _ => d (widgets W this)) (widgets W' this) = widgets W this /\
    (forall w, w <> this -> widgets W' w = widgets W w) /\
    set_widgets (widgets W) W' = W.
Proof.
  intros Htab Hact.
  unfold setIcon, setToggleViewActionMode, Tab_setIcon, Tab_icon,
    QAction_isCheckable, QAction_setIcon, QAction_setCheckable, modifyAction,
    modifyTab.
  destruct (actCheckable act) eqn:Hc, Mode;
    unfold bind, getD, gets, deref, modifyD, modifyWidget, when, ret;
    cbv beta iota; rewrite Hact; cbv beta iota;
    repeat (cbn [widgets set_widgets]; rewrite ?upd_same;
            cbn [d set_d ToggleViewAction set_ToggleViewAction set_TabWidget
                 TabWidget actCheckable set_actCheckable set_actChecked
                 set_actIcon negb];
            cbv beta iota; rewrite ?Hact, ?Htab, ?Hc; cbn [Bool.eqb]);
    (eexists; split; [reflexivity|]);
    cbn [widgets set_widgets]; rewrite ?upd_same;
    (split; [reflexivity|]);
    (split; [destruct (widgets W this); reflexivity|]);
    (split; [intros w Hw; rewrite !upd_other by exact Hw; reflexivity|]);
    destruct W; reflexivity.
Qed.

Lemma widget_eq_parts (x y z : CDockWidget) (c : DockWidgetPrivate) :
  d x = d y ->
  set_d (fun _ => c) x = z -> set_d (fun _ => c) y = z -> x = y.
Proof.
  intros Hd Hx Hy. rewrite <- Hy in Hx. clear Hy.
  destruct x, y. cbn in *. injection Hx. intros. subst. reflexivity.
Qed.

(** X16: on a dock widget (its tab and its toggle action exist) [setIcon]
    and [setToggleViewActionMode] can be called in either order: both
    orders return and leave the same dock widget and the same world.
    Afterwards [icon] returns the icon, and the toggle action carries it
    in the show mode and the null icon in the toggle mode. *)
Theorem setIcon_and_action_mode_commute :
  forall (W : World) (this : WidgetId) (Icon : QIcon)
         (Mode : eToggleViewActionMode) (tab : CDockWidgetTab) (act : QAction),
    TabWidget (d (widgets W this)) = Some tab ->
    ToggleViewAction (d (widgets W this)) = Some act ->
    exists Wa Wb,
      (setIcon this Icon ;; setToggleViewActionMode this Mode) W = Done tt Wa /\
      (setToggleViewActionMode this Mode ;; setIcon this Icon) W = Done tt Wb /\
      (forall w, widgets Wa w = widgets Wb w) /\
      set_widgets (widgets W) Wa = set_widgets (widgets W) Wb /\
      icon this Wa = Done Icon Wa /\
      option_map actIcon (ToggleViewAction (d (widgets Wa this))) =
        Some (match Mode with
              | ActionModeShow => Icon
              | ActionModeToggle => None
              end) /\
      option_map actCheckable (ToggleViewAction (d (widgets Wa this))) =
        Some (match Mode with
              | ActionModeShow => false
              | ActionModeToggle => true
              end).
Proof.
  intros W this Icon Mode tab act Htab Hact.
  destruct (setIcon_then_mode W this Icon Mode tab act Htab Hact)
    as (Wa & Ea & Da & Ra & Oa & Fa).
  destruct (mode_then_setIcon W this Icon Mode tab act Htab Hact)
    as (Wb & Eb & Db & Rb & Ob & Fb).
  exists Wa, Wb. split; [exact Ea|]. split; [exact Eb|].
  split.
  { intros w. destruct (Nat.eq_dec w this) as [->|N].
    - apply (widget_eq_parts _ _ (widgets W this) (d (widgets W this)));
        [rewrite Da, Db; reflexivity|exact Ra|exact Rb].
    - rewrite (Oa w N), (Ob w N). reflexivity. }
  split; [rewrite Fa, Fb; reflexivity|].
  split.
  { unfold icon, Tab_icon, bind, getD, gets, deref, ret. rewrite Da.
    reflexivity. }
  rewrite Da. destruct (actCheckable act) eqn:Hc, Mode; split; cbn;
    rewrite ?Hc; reflexivity.
Qed.

Lemma setIcon_and_action_mode_commute_witness :
  exists Wa,
    (setIcon 0 (Some 7) ;; setToggleViewActionMode 0 ActionModeShow) dockedWorld
      = Done tt Wa /\
    option_map actIcon (ToggleViewAction (d (widgets Wa 0))) = Some (Some 7).
Proof.
  assert (Ht : TabWidget (d (widgets dockedWorld 0)) =
               Some {| tabText := "Logs"; tabVisible := true;
                       tabParent := None; tabIcon := None |})
    by (vm_compute; reflexivity).
  assert (Ha : ToggleViewAction (d (widgets dockedWorld 0)) =
               Some {| actText := "Logs"; actCheckable := true;
                       actChecked := true; actSignalsBlocked := false;
                       actIcon := None |})
    by (vm_compute; reflexivity).
  destruct (setIcon_and_action_mode_commute dockedWorld 0 (Some 7)
              ActionModeShow _ _ Ht Ha)
    as (Wa & Wb & Ea & _ & _ & _ & _ & I & _).
  exists Wa. split; [exact Ea|exact I].
Defined.

(** ** Closing and reopening an unassigned dock widget *)

Lemma flagAsUnassigned_fields (W : World) (this : WidgetId)
    (tab : CDockWidgetTab) (act : QAction) :
  TabWidget (d (widgets W this)) = Some tab ->
  ToggleViewAction (d (widgets W this)) = Some act ->
  exists W',
    flagAsUnassigned this W = Done tt W' /\
    Closed (d (widgets W' this)) = true /\
    DockArea (d (widgets W' this)) = None /\
    ToggleViewAction (d (widgets W' this)) = Some (set_actChecked false act) /\
    qwSize (widgets W' this) = qwSize (widgets W this) /\
    nAreas W' = nAreas W /\ nContainers W' = nContainers W /\
    nFloatings W' = nFloatings W.
Proof.
  intros Htab Hact.
  unfold flagAsUnassigned, setDockArea, isClosed, QWidget_setParent,
    QWidget_setVisible, Tab_setParent, QAction_setChecked, modifyTab.
  unfold bind, getD, gets, deref, modifyD, modifyWidget, when, trace, ret.
  simpl. repeat (rewrite upd_same; simpl). rewrite Hact. simpl.
  rewrite ?Bool.andb_false_r.
  destruct (negb (actSignalsBlocked act) && negb (Bool.eqb (actChecked act) false));
    simpl; repeat (rewrite upd_same; simpl); rewrite Htab;
    eexists; (split; [reflexivity|]); simpl;
    repeat (rewrite upd_same; simpl); repeat split; reflexivity.
Qed.

(** X17: [flagAsUnassigned] leaves a dock widget in a state from which it
    can be closed and reopened safely.  A following [toggleView(false)]
    returns and changes nothing, since the widget counts as closed; a
    following [toggleView(true)] returns with the widget open, its toggle
    action checked if it is checkable (and unchecked otherwise), and the
    widget assigned to the area of a new floating dock container, whose
    floating window is visible and has the size of the widget. *)
Theorem reopening_after_flagAsUnassigned :
  forall (W : World) (this : WidgetId) (tab : CDockWidgetTab) (act : QAction)
         (Sender : option QActionRef),
    TabWidget (d (widgets W this)) = Some tab ->
    ToggleViewAction (d (widgets W this)) = Some act ->
    Sender <> Some (ToggleViewActionOf this) ->
    exists W1,
      flagAsUnassigned this W = Done tt W1 /\
      toggleView this Sender false W1 = Done tt W1 /\
      exists W2,
        toggleView this Sender true W1 = Done tt W2 /\
        isClosed this W2 = Done false W2 /\
        option_map actChecked (ToggleViewAction (d (widgets W2 this))) =
          Some (actCheckable act) /\
        DockArea (d (widgets W2 this)) = Some (nAreas W) /\
        containerOf W2 this = Some (nContainers W) /\
        containers W2 (nContainers W) =
          {| contIsFloating := true; contFloatingWidget := Some (nFloatings W) |} /\
        floatVisible (floatings W2 (nFloatings W)) = true /\
        floatSize (floatings W2 (nFloatings W)) = qwSize (widgets W this).
Proof.
  intros W this tab act Sender Htab Hact HS.
  destruct (flagAsUnassigned_fields W this tab act Htab Hact)
    as (W1 & E & Hc & Ha & Hact1 & Hsz & Hna & Hnc & Hnf).
  exists W1. split; [exact E|].
  assert (R : forall b, requestedOpen this Sender b (set_actChecked false act) = b).
  { intros b. unfold requestedOpen.
    assert (Q : QActionPtr_eqb Sender (Some (ToggleViewActionOf this)) = false).
    { destruct Sender as [[x|x]|]; try reflexivity. cbn.
      apply Nat.eqb_neq. intros ->. apply HS. reflexivity. }
    rewrite Q. reflexivity. }
  split.
  { rewrite (toggleView_cases W1 this Sender false _ Hact1), R, Hc.
    reflexivity. }
  rewrite (toggleView_cases W1 this Sender true _ Hact1), R, Hc.
  cbn [Bool.eqb].
  destruct (showDockWidget_unassigned W1 this _ Ha Hact1)
    as (Ws & sig & Es & Hd & Ho & Hn & Har & Hco & Hfl & Hl & Hsig).
  assert (Hacts : ToggleViewAction (d (widgets Ws this)) =
                  Some (set_actChecked
                          (actCheckable (set_actChecked false act) &&
                           negb (Closed (d (widgets W1 this))))
                          (set_actChecked false act))).
  { rewrite Hd. reflexivity. }
  destruct (toggleViewInternal_completes W1 this true Ws _ Es Hacts)
    as (W2 & E2).
  { intros _ t Ht. unfold containerOf in Ht. rewrite Ha in Ht.
    discriminate Ht. }
  { unfold containerOf. rewrite Hd. cbn. rewrite Har. discriminate. }
  exists W2. split; [exact E2|].
  destruct (toggleViewInternal_tail W1 this true W2 E2)
    as (Ws' & act' & Es' & Hact' & T).
  cbn [negb] in Es'. rewrite Es in Es'. injection Es' as <-.
  assert (C2 : Closed (d (widgets W2 this)) = false).
  { rewrite (transitionTail_this_field (fun x => Closed (d x))
               (fun _ => eq_refl) T). reflexivity. }
  assert (A2 : DockArea (d (widgets W2 this)) = Some (nAreas W)).
  { rewrite (transitionTail_this_field (fun x => DockArea (d x))
               (fun _ => eq_refl) T).
    cbn. rewrite Hd. cbn. rewrite Hna. reflexivity. }
  split.
  { unfold isClosed, bind, getD, gets, ret. rewrite C2. reflexivity. }
  split.
  { rewrite (transitionTail_this_field (fun x => ToggleViewAction (d x))
               (fun _ => eq_refl) T).
    rewrite Hacts in Hact'. injection Hact' as <-.
    cbn. rewrite Bool.andb_true_r. reflexivity. }
  split; [exact A2|].
  split.
  { unfold containerOf. rewrite A2, (tt_areas _ _ _ _ _ T), <- Hna, Har, Hnc.
    reflexivity. }
  split.
  { rewrite (tt_containers _ _ _ _ _ T), <- Hnc, Hco, Hnf. reflexivity. }
  split.
  { rewrite (tt_floatVisible _ _ _ _ _ T), <- Hnf, Hfl. reflexivity. }
  rewrite (tt_floatSize _ _ _ _ _ T), <- Hnf, Hfl. cbn. exact Hsz.
Qed.

Lemma reopening_after_flagAsUnassigned_witness :
  exists W1,
    flagAsUnassigned 2 dockedWorld = Done tt W1 /\
    toggleView 2 None false W1 = Done tt W1.
Proof.
  assert (Ht : TabWidget (d (widgets dockedWorld 2)) =
               Some {| tabText := "Build"; tabVisible := true;
                       tabParent := None; tabIcon := None |})
    by (vm_compute; reflexivity).
  assert (Ha : ToggleViewAction (d (widgets dockedWorld 2)) =
               Some {| actText := "Build"; actCheckable := true;
                       actChecked := true; actSignalsBlocked := false;
                       actIcon := None |})
    by (vm_compute; reflexivity).
  assert (Hs : @None QActionRef <> Some (ToggleViewActionOf 2))
    by discriminate.
  destruct (reopening_after_flagAsUnassigned dockedWorld 2 _ _ None Ht Ha Hs)
    as (W1 & E & F & _).
  exists W1. split; [exact E|exact F].
Defined.

(** ** The content widget *)

Section ContentFacts.
Import Content.

Lemma setWidget_direct (h : Host) (c : ContentId) (InsertMode : eInsertMode)
    (l : list LayoutItem) :
  Layout h = Some l ->
  (InsertMode = ForceNoScrollArea \/ isScrollArea (qwidgets h c) = true) ->
  exists h',
    setWidget (Some c) InsertMode h = Ok tt h' /\
    Layout h' = Some (l ++ [ItemWidget c]) /\
    Widget h' = Some c /\
    ScrollArea h' = ScrollArea h /\
    nScrollAreas h' = nScrollAreas h /\
    parent (qwidgets h' c) = Some OwnerDockWidget /\
    dockWidgetContent (qwidgets h' c) = true /\
    (isScrollArea (qwidgets h c) = true -> hasViewport (qwidgets h c) = true ->
     viewportDockWidgetContent (qwidgets h' c) = true).
Proof.
  intros Hl Hm.
  assert (G : isSome (asScrollArea h (Some c)) ||
              eInsertMode_eqb ForceNoScrollArea InsertMode = true).
  { destruct Hm as [->|Hs].
    - apply Bool.orb_true_r.
    - unfold asScrollArea. rewrite Hs. reflexivity. }
  unfold setWidget. unfold bind at 1. unfold gets at 1. rewrite G.
  unfold asScrollArea, Layout_addWidget, modifyQWidget.
  unfold bind, gets, deref, modify, when, ret. rewrite Hl.
  cbv beta iota. cbn [qwidgets set_qwidgets set_Layout Layout].
  rewrite ?upd_same.
  destruct (isScrollArea (qwidgets h c)) eqn:Hs;
    cbv beta iota; cbn [qwidgets set_qwidgets set_Layout Layout Widget
                        set_Widget]; rewrite ?upd_same;
    cbn [hasViewport set_parent].
  - destruct (hasViewport (qwidgets h c)) eqn:Hv; cbv beta iota;
      cbn [qwidgets set_qwidgets set_Layout Layout Widget set_Widget];
      rewrite ?upd_same;
      (eexists; split; [reflexivity|]);
      cbn [qwidgets set_qwidgets set_Layout Layout Widget set_Widget
           ScrollArea nScrollAreas]; rewrite ?upd_same;
      repeat (split; [reflexivity|]); intros; try reflexivity; discriminate.
  - eexists; split; [reflexivity|].
    cbn [qwidgets set_qwidgets set_Layout Layout Widget set_Widget
         ScrollArea nScrollAreas]. rewrite ?upd_same.
    repeat (split; [reflexivity|]). intros; discriminate.
Qed.

Lemma takeWidget_null (h : Host) :
  ScrollArea h = None -> takeWidget h = Null h.
Proof.
  intros H. unfold takeWidget, bind, gets, deref. rewrite H. reflexivity.
Qed.

(** X18: [takeWidget] starts with [d->ScrollArea->takeWidget()] and so
    only works for content that [setWidget] has put into a scroll area of
    its own.  On a dock widget without that scroll area it dereferences
    null: directly after construction, and after a [setWidget] in the
    mode [ForceNoScrollArea] or with content that is a [QScrollArea],
    which returns with the content as last item of the layout, child of
    the dock widget, marked as dock widget content and returned by
    [widget]. *)
Theorem takeWidget_needs_own_scroll_area :
  forall (h : Host),
    ScrollArea h = None ->
    takeWidget h = Null h /\
    forall (c : ContentId) (InsertMode : eInsertMode) (l : list LayoutItem),
      Layout h = Some l ->
      InsertMode = ForceNoScrollArea \/ isScrollArea (qwidgets h c) = true ->
      exists h',
        setWidget (Some c) InsertMode h = Ok tt h' /\
        widget h' = Ok (Some c) h' /\
        Layout h' = Some (l ++ [ItemWidget c]) /\
        parent (qwidgets h' c) = Some OwnerDockWidget /\
        dockWidgetContent (qwidgets h' c) = true /\
        takeWidget h' = Null h'.
Proof.
  intros h Hs. split; [apply takeWidget_null; exact Hs|].
  intros c InsertMode l Hl Hm.
  destruct (setWidget_direct h c InsertMode l Hl Hm)
    as (h' & E & L' & W' & S' & _ & P' & D' & _).
  exists h'. split; [exact E|].
  split; [unfold widget, gets; rewrite W'; reflexivity|].
  split; [exact L'|]. split; [exact P'|]. split; [exact D'|].
  apply takeWidget_null. rewrite S'. exact Hs.
Qed.

Lemma takeWidget_needs_own_scroll_area_witness :
  takeWidget plainHost = Null plainHost /\
  exists h',
    setWidget (Some 0) ForceNoScrollArea plainHost = Ok tt h' /\
    takeWidget h' = Null h'.
Proof.
  assert (Hs : ScrollArea plainHost = None) by reflexivity.
  assert (Hl : Layout plainHost = Some []) by reflexivity.
  destruct (takeWidget_needs_own_scroll_area plainHost Hs) as [A B].
  split; [exact A|].
  destruct (B 0 ForceNoScrollArea [] Hl (or_introl eq_refl))
    as (h' & E & _ & _ & _ & _ & N).
  exists h'. split; [exact E|exact N].
Defined.

Lemma setWidget_scrolled (h : Host) (c : ContentId) (InsertMode : eInsertMode)
    (l : list LayoutItem) :
  Layout h = Some l ->
  InsertMode <> ForceNoScrollArea ->
  isScrollArea (qwidgets h c) = false ->
  exists h',
    setWidget (Some c) InsertMode h = Ok tt h' /\
    Layout h' = Some (l ++ [ItemScrollArea (nScrollAreas h)]) /\
    Widget h' = Some c /\
    ScrollArea h' = Some (nScrollAreas h) /\
    nScrollAreas h' = S (nScrollAreas h) /\
    scrollAreaWidget h' (nScrollAreas h) = Some c /\
    (forall s, s <> nScrollAreas h -> scrollAreaWidget h' s = scrollAreaWidget h s) /\
    qwidgets h' c =
      set_dockWidgetContent true
        (set_parent (Some (OwnerScrollArea (nScrollAreas h))) (qwidgets h c)) /\
    (forall x, x <> c -> qwidgets h' x = qwidgets h x).
Proof.
  intros Hl Hm Hs.
  assert (G : isSome (asScrollArea h (Some c)) ||
              eInsertMode_eqb ForceNoScrollArea InsertMode = false).
  { unfold asScrollArea. rewrite Hs. destruct InsertMode; [|reflexivity].
    exfalso. apply Hm. reflexivity. }
  unfold setWidget. unfold bind at 1. unfold gets at 1. rewrite G.
  unfold setupScrollArea, QScrollArea_setWidget, modifyQWidget.
  unfold bind, gets, deref, modify, ret.
  cbv beta iota. cbn [Layout]. rewrite Hl. cbv beta iota.
  cbn [ScrollArea set_Layout]. cbv beta iota.
  cbn [qwidgets set_qwidgets set_scrollAreaWidget set_Layout set_Widget Widget
       scrollAreaWidget]. rewrite ?upd_same.
  eexists. split; [reflexivity|].
  cbn [qwidgets set_qwidgets set_scrollAreaWidget set_Layout set_Widget Widget
       scrollAreaWidget Layout ScrollArea nScrollAreas]. rewrite ?upd_same.
  repeat (split; [reflexivity|]).
  split; [intros s N; rewrite !upd_other by exact N; reflexivity|].
  split; [reflexivity|].
  intros x N. rewrite !upd_other by exact N. reflexivity.
Qed.

(** X19: content that is not a [QScrollArea], set in a mode other than
    [ForceNoScrollArea], goes into a new scroll area that is appended to
    the layout, and [takeWidget] gives it back: [setWidget] followed by
    [takeWidget] returns the very widget, which then has no parent, while
    the scroll area stays in the layout, empty.  [takeWidget] does not
    reset [d->Widget]: [widget] still returns the widget taken. *)
Theorem setWidget_takeWidget_round_trip :
  forall (h : Host) (c : ContentId) (InsertMode : eInsertMode)
         (l : list LayoutItem),
    Layout h = Some l ->
    InsertMode <> ForceNoScrollArea ->
    isScrollArea (qwidgets h c) = false ->
    exists h1 h2,
      setWidget (Some c) InsertMode h = Ok tt h1 /\
      parent (qwidgets h1 c) = Some (OwnerScrollArea (nScrollAreas h)) /\
      dockWidgetContent (qwidgets h1 c) = true /\
      takeWidget h1 = Ok (Some c) h2 /\
      parent (qwidgets h2 c) = None /\
      scrollAreaWidget h2 (nScrollAreas h) = None /\
      Layout h2 =
        Some (filter (fun i => negb (LayoutItem_eqb i (ItemWidget c))) l ++
              [ItemScrollArea (nScrollAreas h)]) /\
      widget h2 = Ok (Some c) h2.
Proof.
  intros h c InsertMode l Hl Hm Hs.
  destruct (setWidget_scrolled h c InsertMode l Hl Hm Hs)
    as (h1 & E & L1 & W1 & S1 & N1 & A1 & _ & Q1 & _).
  exists h1.
  assert (T : exists h2,
    takeWidget h1 = Ok (Some c) h2 /\
    parent (qwidgets h2 c) = None /\
    scrollAreaWidget h2 (nScrollAreas h) = None /\
    Layout h2 =
      Some (filter (fun i => negb (LayoutItem_eqb i (ItemWidget c)))
              (l ++ [ItemScrollArea (nScrollAreas h)])) /\
    Widget h2 = Some c).
  { unfold takeWidget, QScrollArea_takeWidget, Layout_removeWidget,
      modifyQWidget.
    unfold bind, gets, deref, modify, ret.
    repeat (cbv beta iota;
            cbn [Layout set_scrollAreaWidget set_qwidgets Widget set_Layout
                 qwidgets ScrollArea scrollAreaWidget option_map];
            rewrite ?S1, ?A1, ?L1, ?W1, ?upd_same).
    eexists. split; [reflexivity|].
    cbn [Layout set_scrollAreaWidget set_qwidgets Widget set_Layout qwidgets
         scrollAreaWidget option_map]. rewrite ?upd_same.
    repeat split; try reflexivity. exact W1. }
  destruct T as (h2 & E2 & P2 & A2 & L2 & W2).
  exists h2. split; [exact E|].
  split; [rewrite Q1; reflexivity|]. split; [rewrite Q1; reflexivity|].
  split; [exact E2|]. split; [exact P2|]. split; [exact A2|].
  split; [rewrite L2, filter_app; reflexivity|].
  unfold widget, gets. rewrite W2. reflexivity.
Qed.

Lemma setWidget_takeWidget_round_trip_witness :
  exists h1 h2,
    setWidget (Some 0) OtherInsertMode plainHost = Ok tt h1 /\
    takeWidget h1 = Ok (Some 0) h2.
Proof.
  assert (Hl : Layout plainHost = Some []) by reflexivity.
  assert (Hm : OtherInsertMode <> ForceNoScrollArea) by discriminate.
  assert (Hs : isScrollArea (qwidgets plainHost 0) = false) by reflexivity.
  destruct (setWidget_takeWidget_round_trip plainHost 0 OtherInsertMode []
              Hl Hm Hs)
    as (h1 & h2 & E1 & _ & _ & E2 & _).
  exists h1, h2. split; [exact E1|exact E2].
Defined.

(** X20: [setWidget] with a null widget never returns, whatever the mode
    and the state.  On a dock widget that has its layout the call gets as
    far as line 261, which dereferences the null pointer that line 260
    has just stored in [d->Widget]. *)
Theorem setWidget_null_dereferences :
  forall (h : Host) (InsertMode : eInsertMode),
    exists h',
      setWidget None InsertMode h = Null h' /\
      (Layout h <> None -> Widget h' = None /\ qwidgets h' = qwidgets h).
Proof.
  intros h InsertMode.
  unfold setWidget, setupScrollArea, QScrollArea_setWidget, Layout_addWidget.
  unfold bind, gets, deref, modify, ret.
  cbv beta iota. cbn [asScrollArea isSome orb].
  destruct InsertMode; cbn [eInsertMode_eqb]; cbv beta iota; cbn [Layout];
    destruct (Layout h) eqn:Hl; cbv beta iota;
    cbn [ScrollArea set_Layout Widget set_Widget];
    eexists; (split; [reflexivity|]); intros N;
    solve [exfalso; apply N; reflexivity | split; reflexivity].
Qed.

End ContentFacts.

(** ** Dock widgets in place *)

Lemma placementKept_refl W : placementKept W W.
Proof. repeat split. Qed.

Lemma placementKept_trans W1 W2 W3 :
  placementKept W1 W2 -> placementKept W2 W3 -> placementKept W1 W3.
Proof.
  intros (a1 & b1 & c1) (a2 & b2 & c2). split; [|split].
  - intros w. rewrite a2. apply a1.
  - intros b. rewrite b2. apply b1.
  - rewrite c2. exact c1.
Qed.

Lemma placedb_kept W W' w :
  placementKept W W' -> placedb W' w = placedb W w.
Proof.
  intros (Hp & Ha & Hc). unfold placedb, containerOf.
  pose proof (Hp w) as E. unfold placement in E. injection E as E1 E2 E3.
  rewrite E1, E2, E3, Hc.
  destruct (DockArea (d (widgets W w))) as [a|]; [|reflexivity].
  rewrite Ha. reflexivity.
Qed.

Lemma placementKept_tail this Open act W1 W' :
  ToggleViewAction (d (widgets W1 this)) = Some act ->
  transitionTail this Open act W1 W' -> placementKept W1 W'.
Proof.
  intros Hact T. split; [|split].
  - intros w. destruct (Nat.eq_dec w this) as [->|N].
    + rewrite (transitionTail_this_field placement (fun _ => eq_refl) T).
      unfold placement. cbn. rewrite Hact. reflexivity.
    + exact (f_equal placement (tt_others _ _ _ _ _ T w N)).
  - intros b. rewrite (tt_areas _ _ _ _ _ T). reflexivity.
  - exact (tt_containers _ _ _ _ _ T).
Qed.

Lemma placementKept_pointwise W W1 this a tab :
  TabWidget (d (widgets W this)) = Some tab ->
  (exists v, widgets W1 this =
             set_d (set_TabWidget (Some (set_tabVisible v tab))) (widgets W this)) ->
  (forall w, w <> this -> widgets W1 w = widgets W w) ->
  containers W1 = containers W ->
  (forall b, b <> a -> areas W1 b = areas W b) ->
  areaContainer (areas W1 a) = areaContainer (areas W a) ->
  placementKept W W1.
Proof.
  intros Htab (v & Hd) Ho Hc Hb Ha. split; [|split].
  - intros w. destruct (Nat.eq_dec w this) as [->|N].
    + rewrite Hd. unfold placement. cbn. rewrite Htab. reflexivity.
    + rewrite (Ho w N). reflexivity.
  - intros b. destruct (Nat.eq_dec b a) as [->|N]; [exact Ha|].
    rewrite (Hb b N). reflexivity.
  - exact Hc.
Qed.

Lemma placedb_inv W this :
  placedb W this = true ->
  exists tab act a c,
    TabWidget (d (widgets W this)) = Some tab /\
    ToggleViewAction (d (widgets W this)) = Some act /\
    DockArea (d (widgets W this)) = Some a /\
    areaContainer (areas W a) = Some c /\
    (contIsFloating (containers W c) = true ->
     contFloatingWidget (containers W c) <> None).
Proof.
  unfold placedb, containerOf. intros H.
  apply andb_prop in H. destruct H as [H H3].
  apply andb_prop in H. destruct H as [H1 H2].
  destruct (TabWidget (d (widgets W this))) as [tab|]; [|discriminate H1].
  destruct (ToggleViewAction (d (widgets W this))) as [act|]; [|discriminate H2].
  destruct (DockArea (d (widgets W this))) as [a|]; [|discriminate H3].
  destruct (areaContainer (areas W a)) as [c|] eqn:Hc; [|discriminate H3].
  exists tab, act, a, c. do 3 (split; [reflexivity|]). split; [exact Hc|].
  intros Hf. rewrite Hf in H3. cbn in H3.
  destruct (contFloatingWidget (containers W c)); [discriminate|discriminate H3].
Qed.

Lemma toggleViewInternal_placed (W : World) (this : WidgetId) (Open : bool) :
  placedb W this = true ->
  exists W', toggleViewInternal this Open W = Done tt W' /\ placementKept W W'.
Proof.
  intros HP.
  destruct (placedb_inv W this HP) as (tab & act & a & c & Htab & Hact & Ha & Hc & Hf).
  assert (S1 : exists W1,
    (if Open then showDockWidget this else hideDockWidget this) W = Done tt W1 /\
    ToggleViewAction (d (widgets W1 this)) = Some act /\
    placementKept W W1).
  { destruct Open.
    - destruct (showDockWidget_assigned W this a tab c Ha Htab Hc Hf)
        as (W1 & E1 & Hd & Ho & _ & Har & Hb & Hco & _).
      exists W1. split; [exact E1|]. split; [rewrite Hd; exact Hact|].
      apply (placementKept_pointwise W W1 this a tab Htab); try assumption.
      + exists true. exact Hd.
      + rewrite Har. reflexivity.
    - destruct (hideDockWidget_assigned W this a tab Ha Htab)
        as (W1 & E1 & Hd & Ho & _ & Hco & Hb & Hnext).
      exists W1. split; [exact E1|]. split; [rewrite Hd; exact Hact|].
      apply (placementKept_pointwise W W1 this a tab Htab); try assumption.
      + exists false. exact Hd.
      + destruct (nextOpenDockWidget W a this); destruct Hnext as [-> _];
          reflexivity. }
  destruct S1 as (W1 & E1 & Hact1 & K1).
  destruct K1 as (Kp & Ka & Kc).
  assert (D1 : forall w, DockArea (d (widgets W1 w)) = DockArea (d (widgets W w))).
  { intros w. exact (f_equal snd (Kp w)). }
  destruct (toggleViewInternal_completes W this Open W1 act E1 Hact1)
    as (W' & E).
  { intros _ t Ht. rewrite D1. unfold containerOf in Ht.
    rewrite Ha, Hc in Ht. cbn [topLevelIn] in Ht.
    exact (topLevelDockWidget_assigned W c t Ht). }
  { unfold containerOf. rewrite D1, Ha, Ka, Hc. discriminate. }
  exists W'. split; [exact E|].
  destruct (toggleViewInternal_tail W this Open W' E)
    as (W1' & act' & E1' & Hact' & T).
  rewrite E1 in E1'. injection E1' as <-.
  apply (placementKept_trans W W1 W'); [repeat split; assumption|].
  exact (placementKept_tail this Open act' W1 W' Hact' T).
Qed.

Lemma toggleView_placed (W : World) (this : WidgetId)
    (Sender : option QActionRef) (Open : bool) :
  placedb W this = true ->
  exists W', toggleView this Sender Open W = Done tt W' /\ placementKept W W'.
Proof.
  intros HP.
  destruct (placedb_inv W this HP) as (tab & act & a & c & Htab & Hact & Ha & Hc & Hf).
  rewrite (toggleView_cases W this Sender Open act Hact).
  destruct (Bool.eqb (Closed (d (widgets W this)))
              (requestedOpen this Sender Open act)).
  - apply toggleViewInternal_placed. exact HP.
  - destruct (requestedOpen this Sender Open act).
    + rewrite makeCurrent_run, Ha. eexists. split; [reflexivity|].
      split; [|split]; try reflexivity.
      intros b. cbn [areas set_areas set_log]. unfold upd.
      destruct (Nat.eqb_spec b a); [subst; reflexivity|reflexivity].
    + exists W. split; [reflexivity|apply placementKept_refl].
Qed.

(** X21: [toggleView] is safe on dock widgets that are in place.  For a
    dock widget whose tab and toggle action exist and that is assigned to
    a dock area with a dock container (whose floating window exists if
    the container is floating), every call returns, whoever sends it and
    whatever the argument, and every dock widget that was in place is in
    place afterwards.  So any sequence of [toggleView] calls on such
    widgets returns without dereferencing a null pointer. *)
Theorem toggleView_sequences_return_when_placed :
  forall (ts : list (WidgetId * option QActionRef * bool)) (W : World),
    Forall (fun t => placedb W (fst (fst t)) = true) ts ->
    exists W',
      callAll (toggleViewCalls ts) W = Done tt W' /\
      forall w, placedb W w = true -> placedb W' w = true.
Proof.
  induction ts as [|[[this Sender] Open] rest IH]; intros W HF.
  - exists W. split; [reflexivity|intros w H; exact H].
  - inversion HF as [|x l Hx Hl]; subst. cbn [fst snd] in Hx.
    destruct (toggleView_placed W this Sender Open Hx) as (W1 & E1 & K1).
    destruct (IH W1) as (W' & E' & K').
    { revert Hl. apply Forall_impl. intros t Ht.
      rewrite (placedb_kept W W1 _ K1). exact Ht. }
    exists W'. split.
    + cbn [toggleViewCalls map callAll call perform fst snd].
      rewrite (bind_done _ _ E1). exact E'.
    + intros w Hw. apply K'. rewrite (placedb_kept W W1 _ K1). exact Hw.
Qed.

Lemma toggleView_sequences_return_when_placed_witness :
  exists W',
    callAll (toggleViewCalls [(0, None, false); (1, None, false);
                              (2, Some (ToggleViewActionOf 2), false);
                              (0, None, true)]) dockedWorld = Done tt W'.
Proof.
  assert (HF : Forall (fun t => placedb dockedWorld (fst (fst t)) = true)
                 [(0, None, false); (1, None, false);
                  (2, Some (ToggleViewActionOf 2), false);
                  (0, None, true)]).
  { repeat constructor. }
  destruct (toggleView_sequences_return_when_placed _ dockedWorld HF)
    as (W' & E & _).
  exists W'. exact E.
Defined.
